(** * ERPNext MCP server: the backend client and the request handlers

    A shallow embedding of [src/index.ts], and the properties of it that the
    specification states.  In order:

    - values, faults and completions: what the handlers see at run time
      (TypeScript's annotations are erased, so an argument typed [string[]]
      may hold any JSON value) and what can be thrown;
    - [Js]: the built-in operations the source applies ([String], [typeof],
      property reads, [Object.keys], [JSON.stringify], the two regular
      expressions, [decodeURIComponent]);
    - effects: programs that read and assign the fields of the client, await
      HTTP requests, write to the console and throw, and their runs against
      an arbitrary backend;
    - [Program]: the class [ERPNextClient] and the handlers registered on the
      server, method by method;
    - the vocabulary of the statements, the statements, and their instances
      on concrete backends.

    Conventions.  A string is a [string] of the standard library holding the
    UTF-8 bytes of the text; [length], [substring] and indexing count the
    16-bit code units of the JavaScript string, which are read off the bytes
    ([Js.code_units]).  Numbers are the integers a double holds and prints
    digit by digit, those of magnitude up to 2^53.  An object is the list of
    its own properties in the order the engine enumerates them. *)

From Stdlib Require Import String Ascii List ZArith NArith Lia Bool DecimalString.
Import ListNotations.
Open Scope string_scope.

Set Implicit Arguments.
Set Warnings "-register-all".

(* ================================================================== *)
(** * Values, faults and completions *)

Inductive value : Type :=
| VUndefined
| VNull
| VBool (b : bool)
| VNum (n : Z)
| VStr (s : string)
| VArr (items : list value)
| VObj (props : list (string * value)).

(** [ErrorCode] of the MCP SDK, as far as the handlers use it. *)
Inductive ErrorCode := InvalidRequest | MethodNotFound | InvalidParams | InternalError.

(** What the engine (or the SDK) raises on its own.  The text of the
    resulting [message] property is not written in this repository; it is
    a parameter of the development ([wording], below). *)
Inductive fault : Type :=
| ReadOfNullish (base : value) (prop : string)  (* TypeError: [undefined.p] *)
| NotCallable (site : string)                   (* TypeError: [x.f is not a function] *)
| KeysOfNullish                                 (* TypeError: [Object.keys(undefined)] *)
| NoPrimitive                                   (* TypeError: no callable [toString] *)
| MalformedURI                                  (* URIError *)
| Protocol (code : ErrorCode) (message : string). (* text of an [McpError] *)

Inductive thrown : Type :=
| Error (message : string)                      (* [new Error(message)] *)
| Runtime (f : fault)
| McpError (code : ErrorCode) (message : string)
| Rejection (reason : value).                   (* what the HTTP transport rejects with *)

Inductive completion (A : Type) : Type :=
| Normal (a : A)
| Thrown (e : thrown).
Arguments Thrown {A} e.

Definition cbind {A B} (m : completion A) (f : A -> completion B) : completion B :=
  match m with
  | Normal a => f a
  | Thrown e => Thrown e
  end.

Notation "'let+' x ':=' m 'in' k" := (cbind m (fun x => k))
  (at level 10, x name, m at level 100, k at level 200).

Fixpoint cmap {A B} (f : A -> completion B) (l : list A) : completion (list B) :=
  match l with
  | [] => Normal []
  | x :: r => let+ y := f x in let+ ys := cmap f r in Normal (y :: ys)
  end.

(* ================================================================== *)
(** * Built-in operations of the language *)

Module Js.

Definition lookup (k : string) (props : list (string * value)) : value :=
  match find (fun kv => String.eqb (fst kv) k) props with
  | Some kv => snd kv
  | None => VUndefined
  end.

Definition has_own (k : string) (props : list (string * value)) : bool :=
  existsb (fun kv => String.eqb (fst kv) k) props.

(** [!!v] *)
Definition truthy (v : value) : bool :=
  match v with
  | VUndefined | VNull => false
  | VBool b => b
  | VNum n => negb (Z.eqb n 0)
  | VStr s => negb (String.eqb s "")
  | VArr _ | VObj _ => true
  end.

(** [a || b] on values already computed. *)
Definition or_else (a b : value) : value := if truthy a then a else b.

Definition typeof (v : value) : string :=
  match v with
  | VUndefined => "undefined"
  | VNull | VArr _ | VObj _ => "object"
  | VBool _ => "boolean"
  | VNum _ => "number"
  | VStr _ => "string"
  end.

(** ** Code units

    A JavaScript string is a sequence of 16-bit code units: one for a
    character of the basic plane, a pair of surrogates for any other.  In
    the UTF-8 text held here a character is a leading byte and the
    continuation bytes that follow it, and it takes two code units exactly
    when it takes four bytes.  Half a pair, which [substring] and indexing
    can leave behind, is held as the three bytes that encode the surrogate
    itself. *)

Definition continuation (c : ascii) : bool :=
  N.leb 128 (N_of_ascii c) && N.ltb (N_of_ascii c) 192.

(** The characters of [s], [cur] being the bytes already read of the first. *)
Fixpoint code_points_from (cur : string) (s : string) : list string :=
  match s with
  | EmptyString =>
      match cur with
      | EmptyString => []
      | _ => [cur]
      end
  | String c r =>
      if continuation c then code_points_from (cur ++ String c "") r
      else
        match cur with
        | EmptyString => code_points_from (String c "") r
        | _ => cur :: code_points_from (String c "") r
        end
  end.

Definition code_points (s : string) : list string := code_points_from "" s.

(** The character takes two code units. *)
Definition wide (ch : string) : bool :=
  match ch with
  | String c _ => N.leb 240 (N_of_ascii c)
  | EmptyString => false
  end.

(** The three bytes of the surrogate [u], from D800 to DFFF. *)
Definition surrogate (u : N) : string :=
  String (ascii_of_N 237)
    (String (ascii_of_N (128 + (u / 64) mod 64))
       (String (ascii_of_N (128 + u mod 64)) "")).

(** The code point of a four-byte character, less 0x10000. *)
Definition offset (ch : string) : N :=
  match map N_of_ascii (list_ascii_of_string ch) with
  | [a; b; c; d] =>
      ((a mod 8) * 262144 + (b mod 64) * 4096 + (c mod 64) * 64 + d mod 64 - 65536)%N
  | _ => 0%N
  end.

Definition high (ch : string) : string := surrogate (55296 + offset ch / 1024).
Definition low (ch : string) : string := surrogate (56320 + (offset ch) mod 1024).

Definition units_of (ch : string) : list string :=
  if wide ch then [high ch; low ch] else [ch].

(** The code units of [s], each as the string [s[i]] is. *)
Definition code_units (s : string) : list string := flat_map units_of (code_points s).

(** The characters that make the first [n] code units; a pair that the cut
    splits leaves its first half. *)
Fixpoint first_units (n : nat) (chs : list string) : list string :=
  match n, chs with
  | O, _ => []
  | _, [] => []
  | S n', ch :: r =>
      if wide ch then
        match n' with
        | O => [high ch]
        | S n'' => ch :: first_units n'' r
        end
      else ch :: first_units n' r
  end.

Definition join (l : list string) : string := fold_right append "" l.

(** [s.substring(0, n)] *)
Definition substring_to (n : nat) (s : string) : string :=
  join (first_units n (code_points s)).

Arguments substring_to : simpl never.

(** ** Conversions and property reads *)

(** [String(n)] for an integer [n] of magnitude up to 2^53, which a double
    holds exactly and prints digit by digit. *)
Definition Number_toString (n : Z) : string := NilZero.string_of_int (Z.to_int n).

(** [String(v)], also the conversion a template literal applies.  An array
    joins its elements with commas, [undefined] and [null] giving the empty
    string; an object prints as [[object Object]] unless it has an own
    property [toString], which (never being callable in JSON data) leaves
    the conversion without a primitive. *)
Fixpoint ToString (v : value) : completion string :=
  match v with
  | VUndefined => Normal "undefined"
  | VNull => Normal "null"
  | VBool true => Normal "true"
  | VBool false => Normal "false"
  | VNum n => Normal (Number_toString n)
  | VStr s => Normal s
  | VArr items =>
      let element x :=
        match x with
        | VUndefined | VNull => Normal ""
        | _ => ToString x
        end in
      (fix join (l : list value) : completion string :=
         match l with
         | [] => Normal ""
         | [x] => element x
         | x :: r => let+ s := element x in let+ t := join r in Normal (s ++ "," ++ t)
         end) items
  | VObj props =>
      if has_own "toString" props then Thrown (Runtime NoPrimitive)
      else Normal "[object Object]"
  end.

(** [v.toString()] on a value that is neither [undefined] nor [null]. *)
Definition toString_method (site : string) (v : value) : completion string :=
  match v with
  | VObj props =>
      if has_own "toString" props then Thrown (Runtime (NotCallable site))
      else Normal "[object Object]"
  | VUndefined | VNull => Thrown (Runtime (ReadOfNullish v "toString"))
  | _ => ToString v
  end.

(** [v?.k] for a property name [k] that no built-in prototype defines: the
    fields read from responses and errors ([data], [results], [name],
    [value], [message]) and the names of the tool arguments. *)
Definition get_opt (v : value) (k : string) : value :=
  match v with
  | VObj props => lookup k props
  | _ => VUndefined
  end.

(** [v.k], same names. *)
Definition get (v : value) (k : string) : completion value :=
  match v with
  | VUndefined | VNull => Thrown (Runtime (ReadOfNullish v k))
  | _ => Normal (get_opt v k)
  end.

(** A template literal: the parts are converted and concatenated in order. *)
Fixpoint template (parts : list value) : completion string :=
  match parts with
  | [] => Normal ""
  | v :: r => let+ s := ToString v in let+ t := template r in Normal (s ++ t)
  end.

(** [v.length] *)
Definition length_of (v : value) : completion value :=
  match v with
  | VUndefined | VNull => Thrown (Runtime (ReadOfNullish v "length"))
  | VStr s => Normal (VNum (Z.of_nat (List.length (code_units s))))
  | VArr items => Normal (VNum (Z.of_nat (List.length items)))
  | VObj props => Normal (lookup "length" props)
  | _ => Normal VUndefined
  end.

Fixpoint indexed (i : Z) (l : list value) : list (string * value) :=
  match l with
  | [] => []
  | x :: r => (Number_toString i, x) :: indexed (i + 1) r
  end.

Definition characters (s : string) : list value := map VStr (code_units s).

(** The own enumerable string-keyed properties of [ToObject(v)]. *)
Definition own_properties (v : value) : list (string * value) :=
  match v with
  | VObj props => props
  | VArr items => indexed 0 items
  | VStr s => indexed 0 (characters s)
  | _ => []
  end.

(** [Object.keys(v)] *)
Definition Object_keys (v : value) : completion (list string) :=
  match v with
  | VUndefined | VNull => Thrown (Runtime KeysOfNullish)
  | _ => Normal (map fst (own_properties v))
  end.

(** [v[k]] for an own key [k] of a value that is neither [undefined] nor
    [null]. *)
Definition member (v : value) (k : string) : value := lookup k (own_properties v).

(** [v.map(f)] *)
Definition map_method (site : string) (v : value) (f : value -> completion value)
  : completion value :=
  match v with
  | VArr items => let+ l := cmap f items in Normal (VArr l)
  | VUndefined | VNull => Thrown (Runtime (ReadOfNullish v "map"))
  | _ => Thrown (Runtime (NotCallable site))
  end.

(** ** [JSON.stringify] *)

Definition hex_digit (n : N) : ascii :=
  ascii_of_N (if N.ltb n 10 then 48 + n else 87 + n).

Definition quote_char (c : ascii) : string :=
  let n := N_of_ascii c in
  if N.eqb n 34 then String "\" (String c "")
  else if N.eqb n 92 then "\\"
  else if N.eqb n 8 then "\b"
  else if N.eqb n 12 then "\f"
  else if N.eqb n 10 then "\n"
  else if N.eqb n 13 then "\r"
  else if N.eqb n 9 then "\t"
  else if N.ltb n 32 then
    "\u00" ++ String (hex_digit (N.div n 16)) (String (hex_digit (N.modulo n 16)) "")
  else String c "".

(** The escape of an unpaired surrogate held in the bytes [a], [b], [c]. *)
Definition lone_surrogate (a b c : ascii) : option string :=
  if N.eqb (N_of_ascii a) 237 && N.leb 160 (N_of_ascii b) then
    let u := ((N_of_ascii b) mod 64 * 64 + (N_of_ascii c) mod 64)%N in
    Some ("\ud" ++ String (hex_digit (u / 256))
                     (String (hex_digit ((u / 16) mod 16))
                        (String (hex_digit (u mod 16)) "")))
  else None.

Fixpoint quote_body (s : string) : string :=
  match s with
  | EmptyString => ""
  | String c r =>
      match r with
      | String d (String e r') =>
          match lone_surrogate c d e with
          | Some escape => escape ++ quote_body r'
          | None => quote_char c ++ quote_body r
          end
      | _ => quote_char c ++ quote_body r
      end
  end.

Definition QuoteJSONString (s : string) : string :=
  String (ascii_of_N 34) (quote_body s ++ String (ascii_of_N 34) "").

Definition newline : string := String (ascii_of_N 10) "".

(** [gap] is the indentation unit (empty for the compact form), [indent]
    the current indentation.  [None] stands for [undefined]. *)
Fixpoint SerializeJSONProperty (gap indent : string) (v : value) : option string :=
  let stepback := indent in
  let indent := indent ++ gap in
  let wrap (opening closing : string) (partial : list string) : string :=
    match partial with
    | [] => opening ++ closing
    | _ =>
        if String.eqb gap "" then opening ++ String.concat "," partial ++ closing
        else opening ++ newline ++ indent
             ++ String.concat ("," ++ newline ++ indent) partial
             ++ newline ++ stepback ++ closing
    end in
  match v with
  | VUndefined => None
  | VNull => Some "null"
  | VBool true => Some "true"
  | VBool false => Some "false"
  | VNum n => Some (Number_toString n)
  | VStr s => Some (QuoteJSONString s)
  | VArr items =>
      Some (wrap "[" "]"
        (map (fun x => match SerializeJSONProperty gap indent x with
                       | Some s => s
                       | None => "null"
                       end) items))
  | VObj props =>
      Some (wrap "{" "}"
        ((fix members (l : list (string * value)) : list string :=
            match l with
            | [] => []
            | (k, x) :: r =>
                match SerializeJSONProperty gap indent x with
                | Some s =>
                    (QuoteJSONString k ++ ":" ++ (if String.eqb gap "" then "" else " ") ++ s)
                      :: members r
                | None => members r
                end
            end) props))
  end.

(** [JSON.stringify(v)] and [JSON.stringify(v, null, 2)] *)
Definition JSON_stringify (v : value) : value :=
  match SerializeJSONProperty "" "" v with
  | Some s => VStr s
  | None => VUndefined
  end.

Definition JSON_stringify_2 (v : value) : value :=
  match SerializeJSONProperty "  " "" v with
  | Some s => VStr s
  | None => VUndefined
  end.

(** ** Strings: the two regular expressions and [decodeURIComponent] *)

Definition is_slash (c : ascii) : bool := Ascii.eqb c "/".

(** [s.replace(/\/$/, '')]: the pattern matches a slash at the very end of
    the input only. *)
Fixpoint strip_trailing_slash (s : string) : string :=
  match s with
  | EmptyString => ""
  | String c r =>
      if is_slash c && String.eqb r "" then "" else String c (strip_trailing_slash r)
  end.

Fixpoint strip_prefix (p s : string) : option string :=
  match p, s with
  | EmptyString, _ => Some s
  | String a p', String b s' => if Ascii.eqb a b then strip_prefix p' s' else None
  | String _ _, EmptyString => None
  end.

(** The text before the first slash, and the text after it. *)
Fixpoint cut_at_slash (s : string) : option (string * string) :=
  match s with
  | EmptyString => None
  | String c r =>
      if is_slash c then Some ("", r)
      else match cut_at_slash r with
           | Some (a, b) => Some (String c a, b)
           | None => None
           end
  end.

(** A line terminator, which [.] does not match: LF, CR, U+2028, U+2029. *)
Fixpoint has_line_terminator (s : string) : bool :=
  match s with
  | EmptyString => false
  | String c r =>
      let n := N_of_ascii c in
      N.eqb n 10 || N.eqb n 13
      || (N.eqb n 226
          && match r with
             | String d (String e _) =>
                 N.eqb (N_of_ascii d) 128
                 && (N.eqb (N_of_ascii e) 168 || N.eqb (N_of_ascii e) 169)
             | _ => false
             end)
      || has_line_terminator r
  end.

(** [uri.match(/^erpnext:\/\/([^\/]+)\/(.+)$/)]: the two groups, when the
    pattern matches.  The first group cannot hold a slash, so it ends at the
    first slash after the scheme. *)
Definition match_document (uri : string) : option (string * string) :=
  match strip_prefix "erpnext://" uri with
  | None => None
  | Some rest =>
      match cut_at_slash rest with
      | None => None
      | Some (doctype, name) =>
          if String.eqb doctype "" || String.eqb name "" || has_line_terminator name
          then None
          else Some (doctype, name)
      end
  end.

Definition hex_value (c : ascii) : option N :=
  let n := N_of_ascii c in
  if N.leb 48 n && N.leb n 57 then Some (n - 48)%N
  else if N.leb 65 n && N.leb n 70 then Some (n - 55)%N
  else if N.leb 97 n && N.leb n 102 then Some (n - 87)%N
  else None.

(** How many octets the character led by octet [b] takes. *)
Definition sequence_length (b : N) : option nat :=
  if N.ltb b 128 then Some 1%nat
  else if N.ltb b 192 then None
  else if N.ltb b 224 then Some 2%nat
  else if N.ltb b 240 then Some 3%nat
  else if N.ltb b 248 then Some 4%nat
  else None.

Definition between (lo b hi : N) : bool := N.leb lo b && N.leb b hi.

(** The octets are the UTF-8 encoding of one code point. *)
Definition well_formed (octets : list N) : bool :=
  match octets with
  | [a] => N.ltb a 128
  | [a; b] => between 194 a 223 && between 128 b 191
  | [a; b; c] =>
      (N.eqb a 224 && between 160 b 191
       || between 225 a 236 && between 128 b 191
       || N.eqb a 237 && between 128 b 159
       || between 238 a 239 && between 128 b 191)
      && between 128 c 191
  | [a; b; c; d] =>
      (N.eqb a 240 && between 144 b 191
       || between 241 a 243 && between 128 b 191
       || N.eqb a 244 && between 128 b 143)
      && between 128 c 191 && between 128 d 191
  | _ => false
  end.

Definition octets_to_string (octets : list N) : string :=
  string_of_list_ascii (map ascii_of_N octets).

(** Where the decoder stands: outside an escape, after [%], after [%X], or
    between two escapes of one character. *)
Inductive decoding : Type :=
| Outside
| Percent (octets : list N) (more : nat)
| HighDigit (octets : list N) (more : nat) (hi : N)
| Between (octets : list N) (more : nat).

(** [None] is the [URIError]. *)
Fixpoint decode (st : decoding) (s : string) : option string :=
  match s with
  | EmptyString =>
      match st with
      | Outside => Some ""
      | _ => None
      end
  | String c r =>
      match st with
      | Outside =>
          if Ascii.eqb c "%" then decode (Percent [] 0) r
          else option_map (String c) (decode Outside r)
      | Percent octets more =>
          match hex_value c with
          | Some hi => decode (HighDigit octets more hi) r
          | None => None
          end
      | HighDigit octets more hi =>
          match hex_value c with
          | None => None
          | Some lo =>
              let b := (16 * hi + lo)%N in
              match octets with
              | [] =>
                  match sequence_length b with
                  | None => None
                  | Some 1%nat => option_map (String (ascii_of_N b)) (decode Outside r)
                  | Some n => decode (Between [b] (n - 1)) r
                  end
              | _ =>
                  let octets := (octets ++ [b])%list in
                  match more with
                  | 1%nat =>
                      if well_formed octets
                      then option_map (append (octets_to_string octets)) (decode Outside r)
                      else None
                  | _ => decode (Between octets (more - 1)) r
                  end
              end
          end
      | Between octets more =>
          if Ascii.eqb c "%" then decode (Percent octets more) r else None
      end
  end.

Definition decodeURIComponent (s : string) : completion string :=
  match decode Outside s with
  | Some r => Normal r
  | None => Thrown (Runtime MalformedURI)
  end.

End Js.

Import Js.

(* ================================================================== *)
(** * Effects *)

(** The object [axios.create] returns, as far as the client configures it. *)
Record AxiosInstance : Type := {
  baseURL : string;
  withCredentials : bool;
  headers : list (string * string)
}.

(** The fields of [ERPNextClient]. *)
Record ERPNextClient : Type := {
  baseUrl : string;
  axiosInstance : AxiosInstance;
  authenticated : bool
}.

Inductive verb := GET | POST | PUT.

(** One call of [axiosInstance.get/post/put]: the instance it goes through,
    the path, the [params] of the configuration and the body. *)
Record request : Type := {
  via : AxiosInstance;
  method : verb;
  url : string;
  params : list (string * value);
  data : value
}.

(** What awaiting the call gives: a response, of which the client reads
    [data] only, or a rejection. *)
Inductive outcome : Type :=
| Fulfilled (response_data : value)
| Rejected (reason : value).

(** The six methods of the client that reach the backend, with their
    arguments.  A program marks the entry of a method with [Enter], which
    changes nothing and shows in the trace as [Called]; this is how a
    statement says which methods a handler has called, and with what. *)
Inductive operation : Type :=
| getDocument_call (doctype name : string)
| getDocList_call (doctype : string) (filters fields limit : value)
| createDocument_call (doctype : string) (doc : value)
| updateDocument_call (doctype name : string) (doc : value)
| runReport_call (reportName : string) (filters : value)
| getAllDocTypes_call.

Inductive prog (A : Type) : Type :=
| Ret (a : A)
| Throw (e : thrown)
| This (k : ERPNextClient -> prog A)                          (* read [this] *)
| Assign (f : ERPNextClient -> ERPNextClient) (k : prog A)    (* [this.x = ...] *)
| Await (r : request) (k : outcome -> prog A)
| ConsoleError (args : list value) (k : prog A)
| Enter (op : operation) (k : prog A).                        (* a method is entered *)
Arguments Throw {A} e.
Arguments This {A} k.
Arguments Assign {A} f k.
Arguments Await {A} r k.
Arguments ConsoleError {A} args k.
Arguments Enter {A} op k.

Fixpoint bind {A B} (m : prog A) (f : A -> prog B) : prog B :=
  match m with
  | Ret a => f a
  | Throw e => Throw e
  | This k => This (fun c => bind (k c) f)
  | Assign g k => Assign g (bind k f)
  | Await r k => Await r (fun o => bind (k o) f)
  | ConsoleError args k => ConsoleError args (bind k f)
  | Enter op k => Enter op (bind k f)
  end.

(** [try { m } catch (error) { h error }] *)
Fixpoint try_catch {A} (m : prog A) (h : thrown -> prog A) : prog A :=
  match m with
  | Ret a => Ret a
  | Throw e => h e
  | This k => This (fun c => try_catch (k c) h)
  | Assign g k => Assign g (try_catch k h)
  | Await r k => Await r (fun o => try_catch (k o) h)
  | ConsoleError args k => ConsoleError args (try_catch k h)
  | Enter op k => Enter op (try_catch k h)
  end.

Definition lift {A} (c : completion A) : prog A :=
  match c with
  | Normal a => Ret a
  | Thrown e => Throw e
  end.

Notation "'let*' x ':=' m 'in' k" := (bind m (fun x => k))
  (at level 10, x name, m at level 100, k at level 200).

(** What an observer sees of a run. *)
Inductive event : Type :=
| Called (op : operation)
| Sent (r : request)
| Logged (args : list value).

(** ** Running a program against a backend

    The backend is any state machine answering requests; the process state
    is the module-level [erpnext] object and the backend's state. *)
Section Run.

Variable S : Type.
Variable serve : S -> request -> outcome * S.

Record machine : Type := { erpnext : ERPNextClient; backend : S }.

Record execution (A : Type) : Type := {
  result : completion A;
  trace : list event;
  final : machine
}.

Definition logging {A} (ev : event) (x : execution A) : execution A :=
  {| result := result x; trace := ev :: trace x; final := final x |}.

Fixpoint run {A} (m : prog A) (w : machine) : execution A :=
  match m with
  | Ret a => {| result := Normal a; trace := []; final := w |}
  | Throw e => {| result := Thrown e; trace := []; final := w |}
  | This k => run (k (erpnext w)) w
  | Assign f k => run k {| erpnext := f (erpnext w); backend := backend w |}
  | Await r k =>
      let (o, s) := serve (backend w) r in
      logging (Sent r) (run (k o) {| erpnext := erpnext w; backend := s |})
  | ConsoleError args k => logging (Logged args) (run k w)
  | Enter op k => logging (Called op) (run k w)
  end.

End Run.

Arguments erpnext {S} m.
Arguments backend {S} m.
Arguments run {S} serve {A} m w.

(* ================================================================== *)
(** * The program *)

Section Program.

(** The [message] the engine, or the SDK, gives to what it raises. *)
Variable wording : fault -> string.

(** [error?.message] *)
Definition message_of (error : thrown) : value :=
  match error with
  | Error message => VStr message
  | Runtime f => VStr (wording f)
  | McpError code message => VStr (wording (Protocol code message))
  | Rejection reason => get_opt reason "message"
  end.

(** [error?.message || 'Unknown error'] *)
Definition message_or_unknown (error : thrown) : value :=
  or_else (message_of error) (VStr "Unknown error").

(** ** class ERPNextClient *)

Definition set_baseUrl (u : string) (c : ERPNextClient) : ERPNextClient :=
  {| baseUrl := u; axiosInstance := axiosInstance c; authenticated := authenticated c |}.

Definition set_axiosInstance (i : AxiosInstance) (c : ERPNextClient) : ERPNextClient :=
  {| baseUrl := baseUrl c; axiosInstance := i; authenticated := authenticated c |}.

Definition set_authenticated (b : bool) (c : ERPNextClient) : ERPNextClient :=
  {| baseUrl := baseUrl c; axiosInstance := axiosInstance c; authenticated := b |}.

(** [instance.defaults.headers.common[k] = v] *)
Definition set_header (k v : string) (i : AxiosInstance) : AxiosInstance :=
  {| baseURL := baseURL i; withCredentials := withCredentials i;
     headers := (headers i ++ [(k, v)])%list |}.

(** The object before the constructor body runs: [authenticated] has its
    initializer [false], the other two fields are yet to be assigned. *)
Definition fresh : ERPNextClient :=
  {| baseUrl := "";
     axiosInstance := {| baseURL := ""; withCredentials := false; headers := [] |};
     authenticated := false |}.

Definition of_env (x : option string) : value :=
  match x with
  | Some s => VStr s
  | None => VUndefined
  end.

(** [constructor()], reading [process.env] through [env]. *)
Definition constructor (env : string -> option string) : prog unit :=
  let url :=
    match or_else (of_env (env "ERPNEXT_URL")) (VStr "") with
    | VStr s => s
    | _ => ""
    end in
  Assign (set_baseUrl url)
  (This (fun this =>
   if negb (truthy (VStr (baseUrl this)))
   then Throw (Error "ERPNEXT_URL environment variable is required")
   else
     Assign (set_baseUrl (strip_trailing_slash (baseUrl this)))
     (This (fun this =>
      Assign (set_axiosInstance
                {| baseURL := baseUrl this;
                   withCredentials := true;
                   headers := [("Content-Type", "application/json");
                               ("Accept", "application/json")] |})
      (let apiKey := of_env (env "ERPNEXT_API_KEY") in
       let apiSecret := of_env (env "ERPNEXT_API_SECRET") in
       if truthy apiKey && truthy apiSecret then
         let* token := lift (template [VStr "token "; apiKey; VStr ":"; apiSecret]) in
         This (fun this =>
         Assign (set_axiosInstance (set_header "Authorization" token (axiosInstance this)))
         (Assign (set_authenticated true)
         (Ret tt)))
       else Ret tt))))).

Definition isAuthenticated : prog bool :=
  This (fun this => Ret (authenticated this)).

(** [await this.axiosInstance.<method>(url, ...)], then [response.data]. *)
Definition axios (m : verb) (path : string) (query : list (string * value)) (body : value)
  : prog value :=
  This (fun this =>
  Await {| via := axiosInstance this; method := m; url := path;
           params := query; data := body |}
    (fun o =>
       match o with
       | Fulfilled response_data => Ret response_data
       | Rejected reason => Throw (Rejection reason)
       end)).

(** [throw new Error(`...`)] *)
Definition throw_Error {A} (parts : list value) : prog A :=
  let* message := lift (template parts) in Throw (Error message).

Definition getDocument (doctype name : string) : prog value :=
  Enter (getDocument_call doctype name)
  (try_catch
     (let* response_data :=
        axios GET ("/api/resource/" ++ doctype ++ "/" ++ name) [] VUndefined in
      lift (get response_data "data"))
     (fun error =>
        throw_Error [VStr "Failed to get "; VStr doctype; VStr " "; VStr name; VStr ": ";
                     message_or_unknown error])).

Definition getDocList (doctype : string) (filters fields limit : value) : prog value :=
  Enter (getDocList_call doctype filters fields limit)
  (try_catch
     (let params : list (string * value) := [] in
      let* some_fields :=
        lift (if truthy fields then length_of fields else Normal fields) in
      let params :=
        if truthy some_fields then (params ++ [("fields", JSON_stringify fields)])%list
        else params in
      let params :=
        if truthy filters then (params ++ [("filters", JSON_stringify filters)])%list
        else params in
      let params :=
        if truthy limit then (params ++ [("limit_page_length", limit)])%list
        else params in
      let* response_data := axios GET ("/api/resource/" ++ doctype) params VUndefined in
      lift (get response_data "data"))
     (fun error =>
        throw_Error [VStr "Failed to get "; VStr doctype; VStr " list: ";
                     message_or_unknown error])).

Definition createDocument (doctype : string) (doc : value) : prog value :=
  Enter (createDocument_call doctype doc)
  (try_catch
     (let* response_data :=
        axios POST ("/api/resource/" ++ doctype) [] (VObj [("data", doc)]) in
      lift (get response_data "data"))
     (fun error =>
        throw_Error [VStr "Failed to create "; VStr doctype; VStr ": ";
                     message_or_unknown error])).

Definition updateDocument (doctype name : string) (doc : value) : prog value :=
  Enter (updateDocument_call doctype name doc)
  (try_catch
     (let* response_data :=
        axios PUT ("/api/resource/" ++ doctype ++ "/" ++ name) [] (VObj [("data", doc)]) in
      lift (get response_data "data"))
     (fun error =>
        throw_Error [VStr "Failed to update "; VStr doctype; VStr " "; VStr name; VStr ": ";
                     message_or_unknown error])).

Definition runReport (reportName : string) (filters : value) : prog value :=
  Enter (runReport_call reportName filters)
  (try_catch
     (let* response_data :=
        axios GET "/api/method/frappe.desk.query_report.run"
          [("report_name", VStr reportName);
           ("filters", if truthy filters then JSON_stringify filters else VUndefined)]
          VUndefined in
      lift (get response_data "message"))
     (fun error =>
        throw_Error [VStr "Failed to run report "; VStr reportName; VStr ": ";
                     message_or_unknown error])).

(** The list [getAllDocTypes] falls back to. *)
Definition common_doctypes : list string :=
  ["Customer"; "Supplier"; "Item"; "Sales Order"; "Purchase Order";
   "Sales Invoice"; "Purchase Invoice"; "Employee"; "Lead"; "Opportunity";
   "Quotation"; "Payment Entry"; "Journal Entry"; "Stock Entry"].

Definition doctype_listing : list (string * value) :=
  [("fields", JSON_stringify (VArr [VStr "name"])); ("limit_page_length", VNum 500)].

Definition doctype_search : list (string * value) :=
  [("doctype", VStr "DocType"); ("txt", VStr ""); ("limit", VNum 500)].

(** The body of the outer [try] of [getAllDocTypes], and of the inner one. *)
Definition primary_listing : prog value :=
  let* response_data := axios GET "/api/resource/DocType" doctype_listing VUndefined in
  if truthy response_data && truthy (get_opt response_data "data") then
    lift (map_method "response.data.data.map" (get_opt response_data "data")
            (fun item => get item "name"))
  else Ret (VArr []).

Definition alternate_listing : prog value :=
  let* response_data :=
    axios GET "/api/method/frappe.desk.search.search_link" doctype_search VUndefined in
  if truthy response_data && truthy (get_opt response_data "results") then
    lift (map_method "altResponse.data.results.map" (get_opt response_data "results")
            (fun item => get item "value"))
  else Ret (VArr []).

Definition getAllDocTypes : prog value :=
  Enter getAllDocTypes_call
  (try_catch primary_listing
     (fun error =>
        ConsoleError [VStr "Failed to get DocTypes:"; message_or_unknown error]
        (try_catch alternate_listing
           (fun altError =>
              ConsoleError [VStr "Alternative DocType fetch failed:";
                            message_or_unknown altError]
              (Ret (VArr (map VStr common_doctypes))))))).

(** ** The request handlers *)

(** [{content: [{type: "text", text}], isError}]; an absent [isError]
    reads [false]. *)
Record tool_result : Type := { text : value; isError : bool }.

(** [{contents: [{uri, mimeType, text}]}] *)
Record resource_contents : Type := {
  uri : string;
  mimeType : string;
  resource_text : value
}.

Definition not_authenticated : string :=
  "Not authenticated with ERPNext. Please configure API key authentication.".

Definition succeed (t : value) : prog tool_result :=
  Ret {| text := t; isError := false |}.

Definition fail (parts : list value) : prog tool_result :=
  let* t := lift (template parts) in Ret {| text := VStr t; isError := true |}.

Definition refuse : prog tool_result :=
  Ret {| text := VStr not_authenticated; isError := true |}.

(** [case "get_documents"] *)
Definition get_documents (arguments : value) : prog tool_result :=
  let* ok := isAuthenticated in
  if negb ok then refuse else
  let* doctype := lift (ToString (get_opt arguments "doctype")) in
  let fields := get_opt arguments "fields" in
  let filters := get_opt arguments "filters" in
  let limit := get_opt arguments "limit" in
  if negb (truthy (VStr doctype)) then Throw (McpError InvalidParams "Doctype is required")
  else
    try_catch
      (let* documents := getDocList doctype filters fields limit in
       succeed (JSON_stringify_2 documents))
      (fun error =>
         fail [VStr "Failed to get "; VStr doctype; VStr " documents: ";
               message_or_unknown error]).

(** [case "create_document"] *)
Definition create_document (arguments : value) : prog tool_result :=
  let* ok := isAuthenticated in
  if negb ok then refuse else
  let* doctype := lift (ToString (get_opt arguments "doctype")) in
  let data := get_opt arguments "data" in
  if negb (truthy (VStr doctype)) || negb (truthy data)
  then Throw (McpError InvalidParams "Doctype and data are required")
  else
    try_catch
      (let* result := createDocument doctype data in
       let* name := lift (get result "name") in
       let* t := lift (template [VStr "Created "; VStr doctype; VStr ": "; name;
                                 VStr (newline ++ newline); JSON_stringify_2 result]) in
       succeed (VStr t))
      (fun error =>
         fail [VStr "Failed to create "; VStr doctype; VStr ": ";
               message_or_unknown error]).

(** [case "update_document"] *)
Definition update_document (arguments : value) : prog tool_result :=
  let* ok := isAuthenticated in
  if negb ok then refuse else
  let* doctype := lift (ToString (get_opt arguments "doctype")) in
  let* name := lift (ToString (get_opt arguments "name")) in
  let data := get_opt arguments "data" in
  if negb (truthy (VStr doctype)) || negb (truthy (VStr name)) || negb (truthy data)
  then Throw (McpError InvalidParams "Doctype, name, and data are required")
  else
    try_catch
      (let* result := updateDocument doctype name data in
       let* t := lift (template [VStr "Updated "; VStr doctype; VStr " "; VStr name;
                                 VStr (newline ++ newline); JSON_stringify_2 result]) in
       succeed (VStr t))
      (fun error =>
         fail [VStr "Failed to update "; VStr doctype; VStr " "; VStr name; VStr ": ";
               message_or_unknown error]).

(** [case "run_report"] *)
Definition run_report (arguments : value) : prog tool_result :=
  let* ok := isAuthenticated in
  if negb ok then refuse else
  let* reportName := lift (ToString (get_opt arguments "report_name")) in
  let filters := get_opt arguments "filters" in
  if negb (truthy (VStr reportName))
  then Throw (McpError InvalidParams "Report name is required")
  else
    try_catch
      (let* result := runReport reportName filters in
       succeed (JSON_stringify_2 result))
      (fun error =>
         fail [VStr "Failed to run report "; VStr reportName; VStr ": ";
               message_or_unknown error]).

(** [documents.length === 0], on a truthy [documents]. *)
Definition no_elements (documents : value) : completion bool :=
  let+ n := length_of documents in
  Normal match n with
         | VNum 0 => true
         | _ => false
         end.

(** [sampleDoc[field]?.toString()?.substring(0, 50) || null] *)
Definition sample_of (v : value) : completion value :=
  match v with
  | VUndefined | VNull => Normal VNull
  | _ =>
      let+ s := toString_method "sampleDoc[field]?.toString" v in
      Normal (or_else (VStr (substring_to 50 s)) VNull)
  end.

(** The object the [map] callback builds for one key. *)
Definition describe (sampleDoc : value) (field : string) : completion value :=
  let v := member sampleDoc field in
  let+ sample := sample_of v in
  Normal (VObj [("fieldname", VStr field); ("value", VStr (typeof v)); ("sample", sample)]).

(** [case "get_doctype_fields"] *)
Definition get_doctype_fields (arguments : value) : prog tool_result :=
  let* ok := isAuthenticated in
  if negb ok then refuse else
  let* doctype := lift (ToString (get_opt arguments "doctype")) in
  if negb (truthy (VStr doctype)) then Throw (McpError InvalidParams "Doctype is required")
  else
    try_catch
      (let* documents := getDocList doctype (VObj []) (VArr [VStr "*"]) (VNum 1) in
       let* empty :=
         lift (if negb (truthy documents) then Normal true else no_elements documents) in
       if empty then
         fail [VStr "No documents found for "; VStr doctype;
               VStr ". Cannot determine fields."]
       else
         let sampleDoc := member documents "0" in
         let* keys := lift (Object_keys sampleDoc) in
         let* fields := lift (cmap (describe sampleDoc) keys) in
         succeed (JSON_stringify_2 (VArr fields)))
      (fun error =>
         fail [VStr "Failed to get fields for "; VStr doctype; VStr ": ";
               message_or_unknown error]).

(** [case "get_doctypes"] *)
Definition get_doctypes : prog tool_result :=
  let* ok := isAuthenticated in
  if negb ok then refuse else
  try_catch
    (let* doctypes := getAllDocTypes in
     succeed (JSON_stringify_2 doctypes))
    (fun error => fail [VStr "Failed to get DocTypes: "; message_or_unknown error]).

(** The handler of [CallToolRequestSchema]: [name] and [arguments] are
    [request.params.name] and [request.params.arguments] ([VUndefined] when
    the request has none). *)
Definition CallTool (name : string) (arguments : value) : prog tool_result :=
  if String.eqb name "get_documents" then get_documents arguments
  else if String.eqb name "create_document" then create_document arguments
  else if String.eqb name "update_document" then update_document arguments
  else if String.eqb name "run_report" then run_report arguments
  else if String.eqb name "get_doctype_fields" then get_doctype_fields arguments
  else if String.eqb name "get_doctypes" then get_doctypes
  else
    let* message := lift (template [VStr "Unknown tool: "; VStr name]) in
    Throw (McpError MethodNotFound message).

(** The handler of [ReadResourceRequestSchema]. *)
Definition ReadResource (uri : string) : prog resource_contents :=
  let* ok := isAuthenticated in
  if negb ok then Throw (McpError InvalidRequest not_authenticated) else
  let* result :=
    if String.eqb uri "erpnext://DocTypes" then
      try_catch
        (let* doctypes := getAllDocTypes in Ret (VObj [("doctypes", doctypes)]))
        (fun error =>
           let* message :=
             lift (template [VStr "Failed to fetch DocTypes: "; message_or_unknown error]) in
           Throw (McpError InternalError message))
    else
      match match_document uri with
      | Some (group1, group2) =>
          let* doctype := lift (decodeURIComponent group1) in
          let* name := lift (decodeURIComponent group2) in
          try_catch (getDocument doctype name)
            (fun error =>
               let* message :=
                 lift (template [VStr "Failed to fetch "; VStr doctype; VStr " "; VStr name;
                                 VStr ": "; message_or_unknown error]) in
               Throw (McpError InvalidRequest message))
      | None => Ret VUndefined
      end in
  if negb (truthy result) then
    let* message := lift (template [VStr "Invalid ERPNext resource URI: "; VStr uri]) in
    Throw (McpError InvalidRequest message)
  else
    Ret {| uri := uri; mimeType := "application/json";
           resource_text := JSON_stringify_2 result |}.

(** The tools [ListToolsRequestSchema] announces, each with the [required]
    list of its input schema. *)
Definition tools : list (string * list string) :=
  [("get_doctypes", []);
   ("get_doctype_fields", ["doctype"]);
   ("get_documents", ["doctype"]);
   ("create_document", ["doctype"; "data"]);
   ("update_document", ["doctype"; "name"; "data"]);
   ("run_report", ["report_name"])].

End Program.

(* ================================================================== *)
(** * Vocabulary of the statements *)

(** The requests of a trace, and the operations entered, in order. *)
Fixpoint requests (t : list event) : list request :=
  match t with
  | [] => []
  | Sent r :: t' => r :: requests t'
  | _ :: t' => requests t'
  end.

Fixpoint calls (t : list event) : list operation :=
  match t with
  | [] => []
  | Called op :: t' => op :: calls t'
  | _ :: t' => calls t'
  end.

(** The entry [k] of a query, if it has one. *)
Definition param (k : string) (query : list (string * value)) : option value :=
  option_map snd (find (fun kv => String.eqb (fst kv) k) query).

Definition nullish (v : value) : bool :=
  match v with
  | VUndefined | VNull => true
  | _ => false
  end.

Definition is_string (v : value) : bool :=
  match v with
  | VStr _ => true
  | _ => false
  end.

(** Two slashes in a row somewhere in [s]. *)
Fixpoint doubled_slash (s : string) : bool :=
  match s with
  | EmptyString => false
  | String c r =>
      (is_slash c && match r with
                     | String d _ => is_slash d
                     | EmptyString => false
                     end)
      || doubled_slash r
  end.

Fixpoint ends_with_slash (s : string) : bool :=
  match s with
  | EmptyString => false
  | String c EmptyString => is_slash c
  | String _ r => ends_with_slash r
  end.

Fixpoint has_slash (s : string) : bool :=
  match s with
  | EmptyString => false
  | String c r => is_slash c || has_slash r
  end.

(** The variable [k] of the environment is set, and not to the empty string. *)
Definition present (env : string -> option string) (k : string) : Prop :=
  exists v, env k = Some v /\ v <> "".

(** The two requests [getAllDocTypes] may send through the client [c]. *)
Definition primary_request (c : ERPNextClient) : request :=
  {| via := axiosInstance c; method := GET; url := "/api/resource/DocType";
     params := doctype_listing; data := VUndefined |}.

Definition alternate_request (c : ERPNextClient) : request :=
  {| via := axiosInstance c; method := GET;
     url := "/api/method/frappe.desk.search.search_link";
     params := doctype_search; data := VUndefined |}.

(** An optional argument of a given type, as the value passed. *)
Definition optional {A : Type} (inject : A -> value) (x : option A) : value :=
  match x with
  | Some a => inject a
  | None => VUndefined
  end.

Definition strings (l : list string) : value := VArr (map VStr l).

(** [fields && fields.length], as a condition. *)
Definition has_length (fields : value) : bool :=
  match fields with
  | VStr s => negb (String.eqb s "")
  | VArr items => negb (Nat.eqb (List.length items) 0)
  | VObj props => truthy (lookup "length" props)
  | _ => false
  end.

(** The query [getDocList] builds from its three optional arguments. *)
Definition query_of (filters fields limit : value) : list (string * value) :=
  ((if has_length fields then [("fields", JSON_stringify fields)] else [])
   ++ (if truthy filters then [("filters", JSON_stringify filters)] else [])
   ++ (if truthy limit then [("limit_page_length", limit)] else []))%list.

Definition list_request (c : ERPNextClient) (doctype : string) (filters fields limit : value)
  : request :=
  {| via := axiosInstance c; method := GET; url := "/api/resource/" ++ doctype;
     params := query_of filters fields limit; data := VUndefined |}.

(** What a [catch] block that throws [new Error(`...`)] throws. *)
Definition rethrown (parts : list value) : thrown :=
  match template parts with
  | Normal message => Error message
  | Thrown e => e
  end.

(** [!documents || documents.length === 0] *)
Definition no_documents (documents : value) : bool :=
  negb (truthy documents)
  || match length_of documents with
     | Normal (VNum 0) => true
     | _ => false
     end.

(** The descriptor of a field [field] holding [v]: its name, the kind of
    [v], and the first 50 code units of [v] as a string ([null] when [v] is
    [undefined] or [null], or when that string is empty). *)
Definition descriptor (field : string) (v : value) : value :=
  VObj [("fieldname", VStr field);
        ("value", VStr (typeof v));
        ("sample", match ToString v with
                   | Normal s =>
                       if nullish v || String.eqb s "" then VNull
                       else VStr (substring_to 50 s)
                   | Thrown _ => VNull
                   end)].

(** A client method, by the record of its call. *)
Definition perform (wording : fault -> string) (op : operation) : prog value :=
  match op with
  | getDocument_call doctype name => getDocument wording doctype name
  | getDocList_call doctype filters fields limit =>
      getDocList wording doctype filters fields limit
  | createDocument_call doctype doc => createDocument wording doctype doc
  | updateDocument_call doctype name doc => updateDocument wording doctype name doc
  | runReport_call reportName filters => runReport wording reportName filters
  | getAllDocTypes_call => getAllDocTypes wording
  end.

(** The paths a method may request. *)
Definition paths (op : operation) : list string :=
  match op with
  | getDocument_call doctype name => ["/api/resource/" ++ doctype ++ "/" ++ name]
  | getDocList_call doctype _ _ _ => ["/api/resource/" ++ doctype]
  | createDocument_call doctype _ => ["/api/resource/" ++ doctype]
  | updateDocument_call doctype name _ => ["/api/resource/" ++ doctype ++ "/" ++ name]
  | runReport_call _ _ => ["/api/method/frappe.desk.query_report.run"]
  | getAllDocTypes_call =>
      ["/api/resource/DocType"; "/api/method/frappe.desk.search.search_link"]
  end.

Definition starts_with_slash (s : string) : bool :=
  match s with
  | String c _ => is_slash c
  | EmptyString => false
  end.

(** The strings a method puts into its request path bring two slashes
    together: the doctype by starting with a slash or holding two in a row,
    and, in a path that goes on with a slash and a name, by being empty or
    ending in a slash; the name by starting with a slash or holding two in a
    row. *)
Definition slashes_meet (op : operation) : bool :=
  match op with
  | getDocument_call doctype name | updateDocument_call doctype name _ =>
      String.eqb doctype "" || starts_with_slash doctype || doubled_slash doctype
      || ends_with_slash doctype || starts_with_slash name || doubled_slash name
  | getDocList_call doctype _ _ _ | createDocument_call doctype _ =>
      starts_with_slash doctype || doubled_slash doctype
  | runReport_call _ _ | getAllDocTypes_call => false
  end.

(** A program that assigns to no field of the client. *)
Inductive readonly {A : Type} : prog A -> Prop :=
| readonly_Ret (a : A) : readonly (Ret a)
| readonly_Throw (e : thrown) : readonly (Throw e)
| readonly_This (k : ERPNextClient -> prog A) :
    (forall c, readonly (k c)) -> readonly (This k)
| readonly_Await (r : request) (k : outcome -> prog A) :
    (forall o, readonly (k o)) -> readonly (Await r k)
| readonly_ConsoleError (args : list value) (k : prog A) :
    readonly k -> readonly (ConsoleError args k)
| readonly_Enter (op : operation) (k : prog A) :
    readonly k -> readonly (Enter op k).

(** ** A bench for the examples: an engine wording, environments and
    backends. *)

Definition node_wording (f : fault) : string :=
  match f with
  | ReadOfNullish VNull prop =>
      "Cannot read properties of null (reading '" ++ prop ++ "')"
  | ReadOfNullish _ prop =>
      "Cannot read properties of undefined (reading '" ++ prop ++ "')"
  | NotCallable site => site ++ " is not a function"
  | KeysOfNullish => "Cannot convert undefined or null to object"
  | NoPrimitive => "Cannot convert object to primitive value"
  | MalformedURI => "URI malformed"
  | Protocol _ message => message
  end.

Definition env_of (l : list (string * string)) (k : string) : option string :=
  option_map snd (find (fun kv => String.eqb (fst kv) k) l).

(** The process after [const erpnext = new ERPNextClient()]. *)
Definition started {S : Type} (serve : S -> request -> outcome * S)
  (env : string -> option string) (s : S) : machine S :=
  final (run serve (constructor env) {| erpnext := fresh; backend := s |}).

Definition with_credentials : string -> option string :=
  env_of [("ERPNEXT_URL", "http://erp.test/");
          ("ERPNEXT_API_KEY", "key"); ("ERPNEXT_API_SECRET", "secret")].

Definition without_credentials : string -> option string :=
  env_of [("ERPNEXT_URL", "http://erp.test/"); ("ERPNEXT_API_KEY", "key")].

(** A backend that answers every request with the same body. *)
Definition answering (body : value) (s : unit) (r : request) : outcome * unit :=
  (Fulfilled body, s).

(** A backend that is down. *)
Definition unreachable (s : unit) (r : request) : outcome * unit :=
  (Rejected (VObj [("message", VStr "connect ECONNREFUSED")]), s).

(** One process with credentials and one without, before any request. *)
Definition up : machine unit := started unreachable with_credentials tt.
Definition locked : machine unit := started unreachable without_credentials tt.

(** A listing that holds a number where a name is expected. *)
Definition numbered : value :=
  VObj [("data", VArr [VObj [("name", VNum 5)]])].

(** Text outside ASCII: [e_acute] is one code unit in two bytes,
    [grinning] (U+1F600) a pair of surrogates in four. *)
Fixpoint times (n : nat) (s : string) : string :=
  match n with
  | O => ""
  | Datatypes.S k => s ++ times k s
  end.

Definition e_acute : string := String (ascii_of_N 195) (String (ascii_of_N 169) "").

Definition grinning : string :=
  String (ascii_of_N 240)
    (String (ascii_of_N 159) (String (ascii_of_N 152) (String (ascii_of_N 128) ""))).

(** A listing of one item. *)
Definition one_item : value :=
  VObj [("data", VArr [VObj [("name", VStr "ITEM-001"); ("qty", VNum 3);
                             ("note", VNull)]])].

(** ** The listing handlers *)

(** An entry of [ListResourcesRequestSchema]'s answer. *)
Record resource : Type := {
  resource_uri : string;
  resource_name : string;
  resource_mimeType : string;
  resource_description : string
}.

(** The handler of [ListResourcesRequestSchema]: it checks nothing and
    calls nothing (the list [commonDoctypes] it declares is not used). *)
Definition ListResources : prog (list resource) :=
  Ret [{| resource_uri := "erpnext://DocTypes";
          resource_name := "All DocTypes";
          resource_mimeType := "application/json";
          resource_description :=
            "List of all available DocTypes in the ERPNext instance" |}].

(** An entry of [ListResourceTemplatesRequestSchema]'s answer. *)
Record resource_template : Type := {
  uriTemplate : string;
  template_name : string;
  template_mimeType : string;
  template_description : string
}.

Definition ListResourceTemplates : prog (list resource_template) :=
  Ret [{| uriTemplate := "erpnext://{doctype}/{name}";
          template_name := "ERPNext Document";
          template_mimeType := "application/json";
          template_description := "Fetch an ERPNext document by doctype and name" |}].

(** ** More vocabulary *)

(** All the requests of a run satisfy [P], when the program is run on the
    client [c]; such a program assigns to no field. *)
Inductive sends {A : Type} (P : request -> Prop) (c : ERPNextClient) : prog A -> Prop :=
| sends_Ret (a : A) : sends P c (Ret a)
| sends_Throw (e : thrown) : sends P c (Throw e)
| sends_This (k : ERPNextClient -> prog A) : sends P c (k c) -> sends P c (This k)
| sends_Await (r : request) (k : outcome -> prog A) :
    P r -> (forall o, sends P c (k o)) -> sends P c (Await r k)
| sends_ConsoleError (args : list value) (k : prog A) :
    sends P c k -> sends P c (ConsoleError args k)
| sends_Enter (op : operation) (k : prog A) :
    sends P c k -> sends P c (Enter op k).

(** What is thrown is an [Error], or was raised by the engine. *)
Definition plain_error (e : thrown) : Prop :=
  match e with
  | Error _ | Runtime _ => True
  | _ => False
  end.

(** The beginning of the message of the [Error] a method throws. *)
Definition failure_prefix (op : operation) : string :=
  match op with
  | getDocument_call doctype name => "Failed to get " ++ doctype ++ " " ++ name ++ ": "
  | getDocList_call doctype _ _ _ => "Failed to get " ++ doctype ++ " list: "
  | createDocument_call doctype _ => "Failed to create " ++ doctype ++ ": "
  | updateDocument_call doctype name _ =>
      "Failed to update " ++ doctype ++ " " ++ name ++ ": "
  | runReport_call reportName _ => "Failed to run report " ++ reportName ++ ": "
  | getAllDocTypes_call => ""
  end.

(** The one request of a method other than [getAllDocTypes], sent through
    the client [c]. *)
Definition request_of (c : ERPNextClient) (op : operation) : request :=
  match op with
  | getDocument_call doctype name =>
      {| via := axiosInstance c; method := GET;
         url := "/api/resource/" ++ doctype ++ "/" ++ name;
         params := []; data := VUndefined |}
  | getDocList_call doctype filters fields limit =>
      list_request c doctype filters fields limit
  | createDocument_call doctype doc =>
      {| via := axiosInstance c; method := POST; url := "/api/resource/" ++ doctype;
         params := []; data := VObj [("data", doc)] |}
  | updateDocument_call doctype name doc =>
      {| via := axiosInstance c; method := PUT;
         url := "/api/resource/" ++ doctype ++ "/" ++ name;
         params := []; data := VObj [("data", doc)] |}
  | runReport_call reportName filters =>
      {| via := axiosInstance c; method := GET;
         url := "/api/method/frappe.desk.query_report.run";
         params := [("report_name", VStr reportName);
                    ("filters", if truthy filters then JSON_stringify filters
                                else VUndefined)];
         data := VUndefined |}
  | getAllDocTypes_call => primary_request c
  end.

(** The field of the response body a method returns. *)
Definition returned_field (op : operation) : string :=
  match op with
  | runReport_call _ _ => "message"
  | _ => "data"
  end.

Fixpoint has_percent (s : string) : bool :=
  match s with
  | EmptyString => false
  | String c r => Ascii.eqb c "%" || has_percent r
  end.

(** A backend that rejects every request with the same reason. *)
Definition rejecting (reason : value) (s : unit) (r : request) : outcome * unit :=
  (Rejected reason, s).

(** What a method throws when what went wrong in its [try] block is
    [error]: an [Error] whose message is the method's prefix followed by
    the message of [error], unless that message does not convert. *)
Definition failure (wording : fault -> string) (op : operation) (error : thrown) : thrown :=
  match ToString (message_or_unknown wording error) with
  | Normal t => Error (failure_prefix op ++ t)
  | Thrown e => e
  end.

(** [error?.message || 'Unknown error'] as text, for an [Error] or a fault
    of the engine. *)
Definition shown (wording : fault -> string) (error : thrown) : string :=
  let or_unknown (m : string) := if String.eqb m "" then "Unknown error" else m in
  match error with
  | Error m => or_unknown m
  | Runtime f => or_unknown (wording f)
  | _ => "Unknown error"
  end.

(** [String(JSON.stringify(v, null, 2))]: the pretty-printed JSON text of
    [v], and "undefined" for [undefined]. *)
Definition pretty (v : value) : string :=
  match SerializeJSONProperty "  " "" v with
  | Some s => s
  | None => "undefined"
  end.

(** The conversion of one of the string arguments of a tool call throws
    [e]. *)
Definition conversion_fault (arguments : value) (e : thrown) : Prop :=
  exists k, In k ["doctype"; "name"; "report_name"]
            /\ ToString (get_opt arguments k) = Thrown e.

(** The request [r] goes through the instance of the client [c], to a path
    under [/api/], with the verb [m]. *)
Definition fits (m : verb) (c : ERPNextClient) (r : request) : Prop :=
  via r = axiosInstance c /\ prefix "/api/" (url r) = true /\ method r = m.

(** The verb of the requests a tool sends. *)
Definition verb_of (name : string) : verb :=
  if String.eqb name "create_document" then POST
  else if String.eqb name "update_document" then PUT
  else GET.

(** Bytes that continue a character; one character; a string that does
    not start inside a character; and lists of characters as [code_points]
    yields them. *)
Fixpoint continued (s : string) : bool :=
  match s with
  | EmptyString => true
  | String c r => continuation c && continued r
  end.

Definition single (ch : string) : bool :=
  match ch with
  | EmptyString => false
  | String _ r => continued r
  end.

Definition clean (s : string) : bool :=
  match s with
  | EmptyString => true
  | String c _ => negb (continuation c)
  end.

Definition tidy (l : list string) : Prop :=
  Forall (fun ch => single ch = true /\ clean ch = true) l.

Definition proper (l : list string) : Prop :=
  match l with
  | [] => True
  | ch :: r => single ch = true /\ tidy r
  end.

(** Reading the entries of a truthy [data] throws: [data.map(item =>
    item.name)] on a value that is not an array, or on an array that holds
    [undefined] or [null]. *)
Definition unreadable (data : value) : bool :=
  match data with
  | VArr entries => existsb nullish entries
  | _ => true
  end.

(** The outcomes of the primary request after which [getAllDocTypes] goes on
    to the alternate one. *)
Definition falls_back (o : outcome) : bool :=
  match o with
  | Rejected _ => true
  | Fulfilled body =>
      truthy body && truthy (get_opt body "data") && unreadable (get_opt body "data")
  end.

(** The headers every instance gets, and the one that carries the
    credentials. *)
Definition json_headers : list (string * string) :=
  [("Content-Type", "application/json"); ("Accept", "application/json")].

Definition authorization (env : string -> option string) : list (string * string) :=
  match env "ERPNEXT_API_KEY", env "ERPNEXT_API_SECRET" with
  | Some key, Some secret =>
      if negb (String.eqb key "") && negb (String.eqb secret "")
      then [("Authorization", "token " ++ key ++ ":" ++ secret)]
      else []
  | _, _ => []
  end.

(* ================================================================== *)
(** * Properties *)

Create HintDb readonly.

Section Properties.

Variable wording : fault -> string.
Variable S : Type.
Variable serve : S -> request -> outcome * S.

(** ** How a run decomposes *)

(** [m] followed by [next]: the trace of [m] comes first, and [next] starts
    from the state [m] leaves. *)
Definition followed_by {A B} (x : execution S A) (next : A -> machine S -> execution S B)
  : execution S B :=
  match result x with
  | Normal a =>
      let y := next a (final x) in
      {| result := result y; trace := trace x ++ trace y; final := final y |}
  | Thrown e => {| result := Thrown e; trace := trace x; final := final x |}
  end.

Definition recovered_by {A} (x : execution S A) (handler : thrown -> machine S -> execution S A)
  : execution S A :=
  match result x with
  | Normal a => x
  | Thrown e =>
      let y := handler e (final x) in
      {| result := result y; trace := trace x ++ trace y; final := final y |}
  end.

Lemma run_bind {A B} (m : prog A) (f : A -> prog B) (w : machine S) :
  run serve (bind m f) w = followed_by (run serve m w) (fun a => run serve (f a)).
Proof.
  revert w.
  induction m as [a | e | k IH | g k IH | r k IH | args k IH | op k IH]; intro w; cbn.
  - unfold followed_by; cbn. now destruct (run serve (f a) w).
  - reflexivity.
  - apply IH.
  - apply IH.
  - destruct (serve (backend w) r) as [o s]. rewrite IH.
    unfold followed_by, logging; cbn.
    now destruct (result (run serve (k o) {| erpnext := erpnext w; backend := s |})).
  - rewrite IH. unfold followed_by, logging; cbn.
    now destruct (result (run serve k w)).
  - rewrite IH. unfold followed_by, logging; cbn.
    now destruct (result (run serve k w)).
Qed.

Lemma run_try_catch {A} (m : prog A) (h : thrown -> prog A) (w : machine S) :
  run serve (try_catch m h) w = recovered_by (run serve m w) (fun e => run serve (h e)).
Proof.
  revert w.
  induction m as [a | e | k IH | g k IH | r k IH | args k IH | op k IH]; intro w; cbn.
  - reflexivity.
  - unfold recovered_by; cbn. now destruct (run serve (h e) w).
  - apply IH.
  - apply IH.
  - destruct (serve (backend w) r) as [o s]. rewrite IH.
    destruct (run serve (k o) {| erpnext := erpnext w; backend := s |}) as [[a | e] t f];
      reflexivity.
  - rewrite IH. destruct (run serve k w) as [[a | e] t f]; reflexivity.
  - rewrite IH. destruct (run serve k w) as [[a | e] t f]; reflexivity.
Qed.

Lemma run_lift {A} (c : completion A) (w : machine S) :
  run serve (lift c) w = {| result := c; trace := []; final := w |}.
Proof. now destruct c. Qed.

(** ** Programs that leave the client alone *)

(** ** Code units *)

Lemma append_empty (s : string) : s ++ "" = s.
Proof. induction s as [ | c s IH]; cbn; congruence. Qed.

Lemma append_assoc (a b c : string) : (a ++ b) ++ c = a ++ (b ++ c).
Proof. induction a as [ | x a IH]; cbn; congruence. Qed.

Lemma single_continued (cur : string) (c : ascii) :
  single cur = true -> continuation c = true -> single (cur ++ String c "") = true.
Proof.
  destruct cur as [ | c0 r]; [discriminate | ]. cbn. intros Hr Hc.
  induction r as [ | d r IH]; cbn in *; [now rewrite Hc | ].
  apply andb_true_iff in Hr. destruct Hr as [-> Hr]. cbn. auto.
Qed.

Lemma clean_append (cur s : string) : cur <> "" -> clean (cur ++ s) = clean cur.
Proof. destruct cur; [contradiction | reflexivity]. Qed.

Lemma single_not_empty (ch : string) : single ch = true -> ch <> "".
Proof. destruct ch; [discriminate | discriminate]. Qed.

Lemma join_code_points_from (s cur : string) : join (code_points_from cur s) = cur ++ s.
Proof.
  revert cur. induction s as [ | c r IH]; intros cur; cbn.
  - destruct cur; cbn; [reflexivity | now rewrite !append_empty].
  - destruct (continuation c).
    + rewrite IH. now rewrite append_assoc.
    + destruct cur as [ | c0 cur]; cbn; rewrite IH; reflexivity.
Qed.

Lemma join_code_points (s : string) : join (code_points s) = s.
Proof. apply (join_code_points_from s ""). Qed.

Lemma tidy_code_points_from (s cur : string) :
  single cur = true -> clean cur = true -> tidy (code_points_from cur s).
Proof.
  revert cur. induction s as [ | c r IH]; intros cur Hs Hc; cbn.
  - destruct cur; [discriminate | ]. repeat constructor; assumption.
  - destruct (continuation c) eqn:E.
    + apply IH; [now apply single_continued | ].
      rewrite clean_append; [assumption | now apply single_not_empty].
    + destruct cur as [ | c0 cur]; [discriminate | ].
      constructor; [now split | ]. apply IH; cbn; [reflexivity | now rewrite E].
Qed.

Lemma tidy_proper (l : list string) : tidy l -> proper l.
Proof. destruct 1 as [ | ch r [H _] Hr]; cbn; auto. Qed.

Lemma proper_code_points_from (s cur : string) :
  cur = "" \/ single cur = true -> proper (code_points_from cur s).
Proof.
  revert cur. induction s as [ | c r IH]; intros cur H; cbn.
  - destruct cur; cbn; [exact I | ]. destruct H as [H | H]; [discriminate | ].
    split; [exact H | constructor].
  - destruct (continuation c) eqn:E.
    + apply IH. right. destruct H as [-> | H]; [reflexivity | now apply single_continued].
    + destruct cur as [ | c0 cur].
      * apply IH. now right.
      * destruct H as [H | H]; [discriminate | ]. split; [exact H | ].
        apply tidy_code_points_from; cbn; [reflexivity | now rewrite E].
Qed.

Lemma proper_code_points (s : string) : proper (code_points s).
Proof. apply proper_code_points_from. now left. Qed.

Lemma code_points_from_continued (a b cur : string) :
  continued a = true -> clean b = true -> cur ++ a <> "" ->
  code_points_from cur (a ++ b) = (cur ++ a) :: code_points b.
Proof.
  revert cur. induction a as [ | c a IH]; intros cur Ha Hb Hne.
  - rewrite append_empty in *. cbn [append].
    destruct b as [ | d b]; cbn.
    + destruct cur; [contradiction | reflexivity].
    + cbn in Hb. apply negb_true_iff in Hb. unfold code_points. cbn. rewrite Hb.
      destruct cur; [contradiction | reflexivity].
  - cbn in Ha. apply andb_true_iff in Ha. destruct Ha as [Hc Ha].
    cbn. rewrite Hc. rewrite IH; [ | assumption | assumption | ].
    + now rewrite append_assoc.
    + rewrite append_assoc. destruct cur; discriminate.
Qed.

Lemma code_points_cons (ch b : string) :
  single ch = true -> clean b = true -> code_points (ch ++ b) = ch :: code_points b.
Proof.
  destruct ch as [ | c0 r]; [discriminate | ]. cbn [single]. intros Hr Hb.
  unfold code_points at 1. cbn.
  destruct (continuation c0);
    apply (@code_points_from_continued r b (String c0 "") Hr Hb); discriminate.
Qed.

Lemma tidy_clean (l : list string) : tidy l -> clean (join l) = true.
Proof.
  destruct 1 as [ | ch r [Hs Hc] _]; [reflexivity | ]. cbn.
  rewrite clean_append; [assumption | now apply single_not_empty].
Qed.

Lemma code_points_join_tidy (l : list string) : tidy l -> code_points (join l) = l.
Proof.
  induction 1 as [ | ch r [Hs Hc] Hr IH]; [reflexivity | ].
  change (join (ch :: r)) with (ch ++ join r).
  rewrite code_points_cons; [now rewrite IH | assumption | now apply tidy_clean].
Qed.

Lemma code_points_join (l : list string) : proper l -> code_points (join l) = l.
Proof.
  destruct l as [ | ch r]; [reflexivity | ]. intros [Hs Hr].
  change (join (ch :: r)) with (ch ++ join r).
  rewrite code_points_cons; [ | assumption | now apply tidy_clean].
  now rewrite code_points_join_tidy.
Qed.

Lemma N_of_ascii_of_N (n : N) : (n < 256)%N -> N_of_ascii (ascii_of_N n) = n.
Proof. apply N_ascii_embedding. Qed.

Lemma continuation_byte (m : N) : continuation (ascii_of_N (128 + m mod 64)) = true.
Proof.
  assert (H : (m mod 64 < 64)%N) by (apply N.mod_lt; discriminate).
  unfold continuation. rewrite N_of_ascii_of_N by (revert H; generalize (m mod 64)%N; lia).
  apply andb_true_iff. revert H. generalize (m mod 64)%N. intros k H.
  split; [apply N.leb_le | apply N.ltb_lt]; lia.
Qed.

Lemma surrogate_shape (u : N) :
  single (surrogate u) = true /\ clean (surrogate u) = true /\ wide (surrogate u) = false.
Proof.
  unfold surrogate. cbn [single clean wide continued].
  rewrite !continuation_byte. repeat split.
Qed.

Lemma tidy_first_units (n : nat) (chs : list string) : tidy chs -> tidy (first_units n chs).
Proof.
  intros H. revert n. induction H as [ | ch r Hch Hr IH]; intros n.
  - destruct n; constructor.
  - destruct n as [ | n]; [constructor | ]. cbn.
    destruct (wide ch).
    + destruct n as [ | n].
      * constructor; [ | constructor].
        destruct (surrogate_shape (55296 + offset ch / 1024)) as (Hs & Hc & _). now split.
      * constructor; [assumption | apply IH].
    + constructor; [assumption | apply IH].
Qed.

Lemma proper_first_units (n : nat) (chs : list string) :
  proper chs -> proper (first_units n chs).
Proof.
  destruct chs as [ | ch r]; [now destruct n | ]. intros [Hs Hr].
  destruct n as [ | n]; [exact I | ]. cbn.
  destruct (wide ch).
  - destruct n as [ | n].
    + split; [ | constructor]. apply surrogate_shape.
    + split; [assumption | now apply tidy_first_units].
  - split; [assumption | now apply tidy_first_units].
Qed.

Lemma first_units_count (n : nat) (chs : list string) :
  List.length (flat_map units_of (first_units n chs)) <= n.
Proof.
  revert n. induction chs as [ | ch r IH]; intros n; [destruct n; cbn; lia | ].
  destruct n as [ | n]; [cbn; lia | ]. cbn [first_units].
  destruct (wide ch) eqn:W.
  - destruct n as [ | n].
    + cbn [flat_map]. unfold units_of, high.
      destruct (surrogate_shape (55296 + offset ch / 1024)) as (_ & _ & ->). cbn. lia.
    + cbn [flat_map]. rewrite length_app. unfold units_of at 1. rewrite W. cbn [List.length].
      specialize (IH n). lia.
  - cbn [flat_map]. rewrite length_app. unfold units_of at 1. rewrite W. cbn [List.length].
    specialize (IH n). lia.
Qed.

(** [s.substring(0, n)] has at most [n] code units. *)
Lemma substring_to_count (n : nat) (s : string) :
  List.length (code_units (substring_to n s)) <= n.
Proof.
  unfold code_units, substring_to.
  rewrite code_points_join by (apply proper_first_units, proper_code_points).
  apply first_units_count.
Qed.

Lemma first_units_all (n : nat) (chs : list string) :
  List.length (flat_map units_of chs) <= n -> first_units n chs = chs.
Proof.
  revert n. induction chs as [ | ch r IH]; intros n; [now destruct n | ].
  cbn [flat_map]. rewrite length_app. unfold units_of at 1.
  destruct (wide ch) eqn:W; cbn [List.length]; intros H.
  - destruct n as [ | [ | n]]; try lia. cbn [first_units]. rewrite W.
    f_equal. apply IH. lia.
  - destruct n as [ | n]; try lia. cbn [first_units]. rewrite W.
    f_equal. apply IH. lia.
Qed.

(** A string of at most [n] code units is its own [substring(0, n)]. *)
Lemma substring_to_all (n : nat) (s : string) :
  List.length (code_units s) <= n -> substring_to n s = s.
Proof.
  intros H. unfold substring_to. rewrite first_units_all by exact H.
  apply join_code_points.
Qed.

Lemma join_app (a b : list string) : join (a ++ b) = join a ++ join b.
Proof.
  induction a as [ | x a IH]; [reflexivity | ].
  change (join ((x :: a) ++ b)) with (x ++ join (a ++ b)).
  change (join (x :: a)) with (x ++ join a).
  now rewrite IH, append_assoc.
Qed.

Lemma first_units_start (n : nat) (chs : list string) :
  (exists rest, chs = (first_units n chs ++ rest)%list)
  \/ (exists p ch rest,
        wide ch = true /\ chs = (p ++ ch :: rest)%list
        /\ first_units n chs = (p ++ [high ch])%list).
Proof.
  revert n. induction chs as [ | ch r IH]; intros n.
  - left. exists []. now destruct n.
  - destruct n as [ | n]; [left; now exists (ch :: r) | ]. cbn [first_units].
    destruct (wide ch) eqn:W.
    + destruct n as [ | n].
      * right. exists [], ch, r. auto.
      * destruct (IH n) as [(rest & E) | (p & ch' & rest & W' & E & F)].
        -- left. exists rest. cbn. now rewrite <- E.
        -- right. exists (ch :: p), ch', rest. cbn. rewrite F. now rewrite <- E.
    + destruct (IH n) as [(rest & E) | (p & ch' & rest & W' & E & F)].
      * left. exists rest. cbn. now rewrite <- E.
      * right. exists (ch :: p), ch', rest. cbn. rewrite F. now rewrite <- E.
Qed.

(** [s.substring(0, n)] begins [s], but for the last code unit when the cut
    falls inside a pair. *)
Lemma substring_to_start (n : nat) (s : string) :
  (exists rest, s = substring_to n s ++ rest)
  \/ (exists p ch rest,
        wide ch = true /\ s = p ++ ch ++ rest /\ substring_to n s = p ++ high ch).
Proof.
  unfold substring_to.
  destruct (first_units_start n (code_points s)) as [(rest & E) | (p & ch & rest & W & E & F)].
  - left. exists (join rest). rewrite <- join_app, <- E. symmetry. apply join_code_points.
  - right. exists (join p), ch, (join rest). split; [exact W | split].
    + rewrite <- (join_code_points s) at 1. rewrite E, join_app. reflexivity.
    + rewrite F, join_app. change (join [high ch]) with (high ch ++ "").
      now rewrite append_empty.
Qed.

Lemma code_points_empty (s : string) : code_points s = [] -> s = "".
Proof. intros H. rewrite <- (join_code_points s), H. reflexivity. Qed.

Lemma code_units_empty (s : string) : code_units s = [] <-> s = "".
Proof.
  split; [ | now intros ->]. unfold code_units.
  destruct (code_points s) as [ | ch r] eqn:E; [intros _; now apply code_points_empty | ].
  cbn. unfold units_of at 1. destruct (wide ch); discriminate.
Qed.

Lemma substring_to_empty (n : nat) (s : string) :
  String.eqb (substring_to (Datatypes.S n) s) "" = String.eqb s "".
Proof.
  destruct (String.eqb_spec s "") as [-> | Hne]; [reflexivity | ].
  apply String.eqb_neq. unfold substring_to.
  pose proof (proper_code_points s) as Hp.
  destruct (code_points s) as [ | ch r] eqn:E; [now apply code_points_empty in E | ].
  destruct Hp as [Hs _]. cbn [first_units].
  destruct (wide ch).
  - destruct n; unfold join; cbn [fold_right];
      [unfold high, surrogate | destruct ch]; discriminate.
  - unfold join. cbn [fold_right]. destruct ch; discriminate.
Qed.

Lemma units_not_zero (s : string) :
  s <> "" -> (Z.of_nat (List.length (code_units s)) =? 0)%Z = false.
Proof.
  intros H. apply Z.eqb_neq.
  destruct (code_units s) as [ | u r] eqn:E; [now apply code_units_empty in E | ].
  cbn [List.length]. lia.
Qed.

(** ** Programs that assign to no field *)

Lemma readonly_bind {A B} (m : prog A) (f : A -> prog B) :
  readonly m -> (forall a, readonly (f a)) -> readonly (bind m f).
Proof.
  intros Hm Hf. induction Hm; cbn; try constructor; auto.
Qed.

Lemma readonly_try_catch {A} (m : prog A) (h : thrown -> prog A) :
  readonly m -> (forall e, readonly (h e)) -> readonly (try_catch m h).
Proof.
  intros Hm Hh. induction Hm; cbn; try constructor; auto.
Qed.

Lemma readonly_lift {A} (c : completion A) : readonly (lift c).
Proof. destruct c; constructor. Qed.

Lemma readonly_run {A} (m : prog A) :
  readonly m -> forall w, erpnext (final (run serve m w)) = erpnext w.
Proof.
  induction 1 as [a | e | k _ IH | r k _ IH | args k _ IH | op k _ IH]; intro w; cbn; auto.
  - destruct (serve (backend w) r) as [o s]. cbn. now rewrite IH.
Qed.

Ltac readonly_tac :=
  repeat first
    [ apply readonly_lift
    | apply readonly_bind
    | apply readonly_try_catch
    | constructor
    | intro
    | match goal with
      | |- readonly (match ?x with _ => _ end) => destruct x
      end ].

Lemma readonly_axios (m : verb) (path : string) (query : list (string * value)) (body : value) :
  readonly (axios m path query body).
Proof. unfold axios. readonly_tac. Qed.

Lemma readonly_throw_Error {A} (parts : list value) : readonly (@throw_Error A parts).
Proof. unfold throw_Error. readonly_tac. Qed.

Lemma readonly_isAuthenticated : readonly isAuthenticated.
Proof. unfold isAuthenticated. readonly_tac. Qed.

#[local] Hint Resolve readonly_axios readonly_throw_Error readonly_isAuthenticated : readonly.

Lemma readonly_getAllDocTypes : readonly (getAllDocTypes wording).
Proof.
  unfold getAllDocTypes, primary_listing, alternate_listing.
  readonly_tac; auto with readonly.
Qed.

Lemma readonly_perform (op : operation) : readonly (perform wording op).
Proof.
  destruct op; cbn [perform]; try apply readonly_getAllDocTypes;
    unfold getDocument, getDocList, createDocument, updateDocument, runReport;
    readonly_tac; auto with readonly.
Qed.

Lemma readonly_CallTool (name : string) (arguments : value) :
  readonly (CallTool wording name arguments).
Proof.
  unfold CallTool, get_documents, create_document, update_document, run_report,
    get_doctype_fields, get_doctypes, refuse, succeed, fail.
  pose proof readonly_perform as P.
  pose proof (P getAllDocTypes_call) as Pall. cbn [perform] in Pall.
  readonly_tac; auto with readonly;
    match goal with
    | |- readonly (getDocList _ ?d ?f ?g ?l) => apply (P (getDocList_call d f g l))
    | |- readonly (createDocument _ ?d ?x) => apply (P (createDocument_call d x))
    | |- readonly (updateDocument _ ?d ?n ?x) => apply (P (updateDocument_call d n x))
    | |- readonly (runReport _ ?n ?f) => apply (P (runReport_call n f))
    end.
Qed.

Lemma readonly_ReadResource (uri : string) : readonly (ReadResource wording uri).
Proof.
  unfold ReadResource.
  pose proof readonly_getAllDocTypes as Pall.
  pose proof (fun d n => readonly_perform (getDocument_call d n)) as Pdoc.
  cbn [perform] in Pdoc.
  readonly_tac; auto with readonly.
Qed.

(** ** The authentication gate *)

(** C2.  While [isAuthenticated()] is false, a call of any of the six tools
    returns the tool result flagged [isError: true] whose text explains that
    the server is not authenticated, and the run enters no client operation
    and sends no request; a resource read throws the protocol-level
    [McpError] instead, again without any client operation. *)
Theorem unauthenticated_requests_are_refused :
  forall (w : machine S) (name : string) (arguments : value) (uri : string),
    authenticated (erpnext w) = false ->
    In name (map fst tools) ->
    run serve (CallTool wording name arguments) w
    = {| result := Normal {| text := VStr not_authenticated; isError := true |};
         trace := []; final := w |}
    /\ run serve (ReadResource wording uri) w
       = {| result := Thrown (McpError InvalidRequest not_authenticated);
            trace := []; final := w |}.
Proof.
  intros w name arguments uri Hauth Hname. split.
  - cbn in Hname.
    repeat (destruct Hname as [<- | Hname]; [cbn; rewrite Hauth; reflexivity | ]).
    contradiction.
  - cbn. rewrite Hauth. reflexivity.
Qed.

Lemma truthy_of_env (env : string -> option string) (k : string) :
  truthy (of_env (env k)) = true <-> present env k.
Proof.
  unfold present. destruct (env k) as [v | ]; cbn.
  - destruct (String.eqb_spec v ""); cbn; split.
    + discriminate.
    + intros (v' & E & N). injection E as <-. contradiction.
    + intros _. exists v. auto.
    + reflexivity.
  - split; [discriminate | intros (v & E & _); discriminate].
Qed.

(** C7.  Once the constructor has returned, [authenticated] is true exactly
    when both [ERPNEXT_API_KEY] and [ERPNEXT_API_SECRET] were present (set,
    and not empty) in the environment it read; [isAuthenticated()] returns
    that field; and no client operation and no request handler changes the
    client, whatever the backend answers. *)
Theorem authenticated_is_fixed_at_construction :
  forall (env : string -> option string) (s : S),
    let born := run serve (constructor env) {| erpnext := fresh; backend := s |} in
    result born = Normal tt ->
    (authenticated (erpnext (final born)) = true
     <-> present env "ERPNEXT_API_KEY" /\ present env "ERPNEXT_API_SECRET")
    /\ (forall w : machine S,
          run serve isAuthenticated w
          = {| result := Normal (authenticated (erpnext w)); trace := []; final := w |})
    /\ (forall (op : operation) (w : machine S),
          erpnext (final (run serve (perform wording op) w)) = erpnext w)
    /\ (forall (name : string) (arguments : value) (w : machine S),
          erpnext (final (run serve (CallTool wording name arguments) w)) = erpnext w)
    /\ (forall (uri : string) (w : machine S),
          erpnext (final (run serve (ReadResource wording uri) w)) = erpnext w).
Proof.
  intros env s born Hborn. split; [ | split; [ | split; [ | split]]].
  - rewrite <- !truthy_of_env, <- andb_true_iff. subst born. revert Hborn.
    unfold constructor. cbn.
    match goal with
    | |- context [if ?b then Throw _ else _] => destruct b
    end; [discriminate | ].
    cbn. intros _.
    destruct (env "ERPNEXT_API_KEY") as [key | ]; cbn; [ | split; discriminate].
    destruct (negb (key =? "")); cbn; [ | split; discriminate].
    destruct (env "ERPNEXT_API_SECRET") as [secret | ]; cbn; [ | split; discriminate].
    destruct (negb (secret =? "")); cbn; split; congruence.
  - reflexivity.
  - intros op w. apply readonly_run, readonly_perform.
  - intros name arguments w. apply readonly_run, readonly_CallTool.
  - intros uri w. apply readonly_run, readonly_ReadResource.
Qed.

(** ** [getAllDocTypes] *)

Lemma cmap_get (k : string) (entries l : list value) :
  cmap (fun item => get item k) entries = Normal l ->
  l = map (fun item => get_opt item k) entries.
Proof.
  revert l. induction entries as [ | e entries IH]; intros l; cbn.
  - now intros [= <-].
  - destruct e; cbn; try discriminate;
      destruct (cmap (fun item => get item k) entries) as [l' | ]; cbn; try discriminate;
      intros [= <-]; now rewrite (IH l' eq_refl).
Qed.

(** What reading a listing out of a response body gives: an array, empty
    or made of the entries' fields. *)
Lemma listing_read (site key field : string) (body v : value) :
  (if truthy body && truthy (get_opt body key)
   then map_method site (get_opt body key) (fun item => get item field)
   else Normal (VArr [])) = Normal v ->
  v = VArr []
  \/ exists entries,
       get_opt body key = VArr entries
       /\ v = VArr (map (fun item => get_opt item field) entries).
Proof.
  destruct (truthy body && truthy (get_opt body key)).
  - destruct (get_opt body key) as [ | | b | n | s | entries | props]; cbn; try discriminate.
    destruct (cmap (fun item => get item field) entries) as [l | ] eqn:E; cbn;
      try discriminate.
    intros [= <-]. right. exists entries. split; [reflexivity | ].
    now rewrite (cmap_get _ _ E).
  - intros [= <-]. now left.
Qed.

Lemma run_primary_listing (w : machine S) :
  run serve primary_listing w
  = let (o, s) := serve (backend w) (primary_request (erpnext w)) in
    {| result :=
         match o with
         | Fulfilled body =>
             if truthy body && truthy (get_opt body "data")
             then map_method "response.data.data.map" (get_opt body "data")
                    (fun item => get item "name")
             else Normal (VArr [])
         | Rejected reason => Thrown (Rejection reason)
         end;
       trace := [Sent (primary_request (erpnext w))];
       final := {| erpnext := erpnext w; backend := s |} |}.
Proof.
  unfold primary_listing, axios, primary_request. cbn.
  destruct (serve (backend w) _) as [[body | reason] s]; cbn; [ | reflexivity].
  destruct (truthy body && truthy (get_opt body "data")); [ | reflexivity].
  rewrite run_lift. reflexivity.
Qed.

Lemma run_alternate_listing (w : machine S) :
  run serve alternate_listing w
  = let (o, s) := serve (backend w) (alternate_request (erpnext w)) in
    {| result :=
         match o with
         | Fulfilled body =>
             if truthy body && truthy (get_opt body "results")
             then map_method "altResponse.data.results.map" (get_opt body "results")
                    (fun item => get item "value")
             else Normal (VArr [])
         | Rejected reason => Thrown (Rejection reason)
         end;
       trace := [Sent (alternate_request (erpnext w))];
       final := {| erpnext := erpnext w; backend := s |} |}.
Proof.
  unfold alternate_listing, axios, alternate_request. cbn.
  destruct (serve (backend w) _) as [[body | reason] s]; cbn; [ | reflexivity].
  destruct (truthy body && truthy (get_opt body "results")); [ | reflexivity].
  rewrite run_lift. reflexivity.
Qed.

(** The three tiers, in terms of the runs of the two [try] bodies. *)
Lemma run_getAllDocTypes (w : machine S) :
  run serve (getAllDocTypes wording) w
  = let first := run serve primary_listing w in
    match result first with
    | Normal v =>
        {| result := Normal v;
           trace := Called getAllDocTypes_call :: trace first;
           final := final first |}
    | Thrown error =>
        let second := run serve alternate_listing (final first) in
        let failed := Logged [VStr "Failed to get DocTypes:"; message_or_unknown wording error] in
        match result second with
        | Normal v =>
            {| result := Normal v;
               trace := Called getAllDocTypes_call :: trace first ++ failed :: trace second;
               final := final second |}
        | Thrown altError =>
            {| result := Normal (VArr (map VStr common_doctypes));
               trace := Called getAllDocTypes_call
                        :: trace first ++ failed :: trace second
                           ++ [Logged [VStr "Alternative DocType fetch failed:";
                                       message_or_unknown wording altError]];
               final := final second |}
        end
    end.
Proof.
  unfold getAllDocTypes. cbn [run]. rewrite run_try_catch. unfold recovered_by.
  destruct (run serve primary_listing w) as [[v | error] t f];
    cbn [run logging result trace final]; [reflexivity | ].
  rewrite run_try_catch. unfold recovered_by.
  destruct (run serve alternate_listing f) as [[v | altError] t' f'];
    cbn [run logging result trace final]; reflexivity.
Qed.

(** The method always returns, and returns an array. *)
Lemma getAllDocTypes_returns (w : machine S) :
  exists items, result (run serve (getAllDocTypes wording) w) = Normal (VArr items).
Proof.
  rewrite run_getAllDocTypes. cbn zeta.
  destruct (result (run serve primary_listing w)) as [v | error] eqn:E1.
  - cbn. rewrite run_primary_listing in E1.
    destruct (serve (backend w) _) as [[body | reason] s]; cbn in E1; [ | discriminate].
    destruct (listing_read _ _ _ _ E1) as [-> | (entries & _ & ->)]; eauto.
  - destruct (result (run serve alternate_listing _)) as [v | altError] eqn:E2.
    + cbn. rewrite run_alternate_listing in E2.
      destruct (serve _ (alternate_request _)) as [[body | reason] s]; cbn in E2;
        [ | discriminate].
      destruct (listing_read _ _ _ _ E2) as [-> | (entries & _ & ->)]; eauto.
    + cbn. eauto.
Qed.

(** C3, as amended.  [getAllDocTypes] never throws and returns an array.
    It sends the primary listing request first.  If that [try] body returns,
    its value is the result and no other request is sent.  If it throws (the
    request is rejected, or reading the response throws), the alternate
    search request is sent, the same whatever was thrown; its value is the
    result if that body returns, and the fixed list of fourteen names if it
    throws too.  A value a [try] body returns is the empty array or the
    array of the [name] (respectively [value]) fields of the entries the
    backend sent, as they are. *)
Theorem getAllDocTypes_degrades_in_order :
  forall w : machine S,
    let first := run serve primary_listing w in
    let second := run serve alternate_listing (final first) in
    let x := run serve (getAllDocTypes wording) w in
    (exists items, result x = Normal (VArr items))
    /\ (exists rest,
          trace x = Called getAllDocTypes_call :: Sent (primary_request (erpnext w)) :: rest)
    /\ match result first with
       | Normal v =>
           result x = Normal v /\ requests (trace x) = [primary_request (erpnext w)]
       | Thrown _ =>
           requests (trace x)
           = [primary_request (erpnext w); alternate_request (erpnext w)]
           /\ match result second with
              | Normal v => result x = Normal v
              | Thrown _ =>
                  result x
                  = Normal (VArr (map VStr
                      ["Customer"; "Supplier"; "Item"; "Sales Order"; "Purchase Order";
                       "Sales Invoice"; "Purchase Invoice"; "Employee"; "Lead";
                       "Opportunity"; "Quotation"; "Payment Entry"; "Journal Entry";
                       "Stock Entry"]))
              end
       end
    /\ (forall v, result first = Normal v ->
          v = VArr []
          \/ exists body entries,
               fst (serve (backend w) (primary_request (erpnext w))) = Fulfilled body
               /\ get_opt body "data" = VArr entries
               /\ v = VArr (map (fun item => get_opt item "name") entries))
    /\ (forall v, result second = Normal v ->
          v = VArr []
          \/ exists body entries,
               fst (serve (backend (final first)) (alternate_request (erpnext w)))
               = Fulfilled body
               /\ get_opt body "results" = VArr entries
               /\ v = VArr (map (fun item => get_opt item "value") entries)).
Proof.
  intros w first second x.
  split; [apply getAllDocTypes_returns | ].
  assert (Hfirst : trace first = [Sent (primary_request (erpnext w))]
                   /\ erpnext (final first) = erpnext w).
  { subst first. rewrite run_primary_listing.
    destruct (serve (backend w) _) as [o s]. now split. }
  destruct Hfirst as [Tfirst Cfirst].
  assert (Tsecond : trace second = [Sent (alternate_request (erpnext w))]).
  { subst second. rewrite run_alternate_listing, Cfirst.
    now destruct (serve (backend (final first)) _) as [o s]. }
  split; [ | split; [ | split]].
  - subst x. rewrite run_getAllDocTypes. cbn zeta. fold first. fold second.
    rewrite Tfirst.
    destruct (result first); [ | destruct (result second)]; cbn; eauto.
  - subst x. rewrite run_getAllDocTypes. cbn zeta. fold first. fold second.
    rewrite Tfirst, Tsecond.
    destruct (result first); [ | destruct (result second)]; cbn; auto.
  - intros v E. subst first. rewrite run_primary_listing in E.
    destruct (serve (backend w) _) as [[body | reason] s]; cbn in E; [ | discriminate].
    destruct (listing_read _ _ _ _ E) as [-> | (entries & D & ->)]; [now left | right].
    exists body, entries. auto.
  - intros v E. subst second. rewrite run_alternate_listing, Cfirst in E.
    destruct (serve (backend (final first)) _) as [[body | reason] s]; cbn in E;
      [ | discriminate].
    destruct (listing_read _ _ _ _ E) as [-> | (entries & D & ->)]; [now left | right].
    exists body, entries. auto.
Qed.

Lemma cmap_get_unreadable (k : string) (entries : list value) :
  match cmap (fun item => get item k) entries with
  | Normal _ => existsb nullish entries = false
  | Thrown _ => existsb nullish entries = true
  end.
Proof.
  induction entries as [ | e entries IH]; cbn; [reflexivity | ].
  destruct e; cbn; try reflexivity;
    destruct (cmap (fun item => get item k) entries); cbn; exact IH.
Qed.

Lemma map_method_unreadable (site k : string) (data : value) :
  match map_method site data (fun item => get item k) with
  | Normal _ => unreadable data = false
  | Thrown _ => unreadable data = true
  end.
Proof.
  destruct data as [ | | b | n | s | entries | props]; cbn; try reflexivity.
  pose proof (cmap_get_unreadable k entries) as H.
  now destruct (cmap (fun item => get item k) entries).
Qed.

(** C9, as amended.  When the primary listing request is answered and the
    body has no [data] field (or a falsy one), [getAllDocTypes] returns the
    empty array having sent that one request only.  The alternate request
    is sent exactly when the first tier throws, which is when the primary
    request is rejected, or is answered with a [data] that is truthy and
    cannot be read: a value that is not an array, or an array holding
    [undefined] or [null].  In every other case the primary request is the
    only one sent. *)
Theorem listing_without_data_is_empty :
  forall (w : machine S) (o : outcome) (s : S),
    serve (backend w) (primary_request (erpnext w)) = (o, s) ->
    let x := run serve (getAllDocTypes wording) w in
    (forall body : value,
       o = Fulfilled body ->
       truthy (get_opt body "data") = false ->
       x = {| result := Normal (VArr []);
              trace := [Called getAllDocTypes_call; Sent (primary_request (erpnext w))];
              final := {| erpnext := erpnext w; backend := s |} |})
    /\ (In (alternate_request (erpnext w)) (requests (trace x)) <-> falls_back o = true)
    /\ (falls_back o = true ->
        requests (trace x) = [primary_request (erpnext w); alternate_request (erpnext w)])
    /\ (falls_back o = false ->
        requests (trace x) = [primary_request (erpnext w)]
        /\ final x = {| erpnext := erpnext w; backend := s |}).
Proof.
  intros w o s Hserve x.
  assert (Hsecond : forall w' : machine S,
             trace (run serve alternate_listing w') = [Sent (alternate_request (erpnext w'))]).
  { intros w'. rewrite run_alternate_listing. now destruct (serve (backend w') _). }
  assert (Hshape : (falls_back o = true
                    /\ requests (trace x)
                       = [primary_request (erpnext w); alternate_request (erpnext w)])
                   \/ (falls_back o = false
                       /\ requests (trace x) = [primary_request (erpnext w)]
                       /\ final x = {| erpnext := erpnext w; backend := s |})).
  { subst x. rewrite run_getAllDocTypes, run_primary_listing, Hserve. cbn zeta.
    cbn [result trace final].
    assert (Hfallen : forall error,
               requests
                 (trace
                    (let second :=
                       run serve alternate_listing {| erpnext := erpnext w; backend := s |} in
                     let failed :=
                       Logged [VStr "Failed to get DocTypes:";
                               message_or_unknown wording error] in
                     match result second with
                     | Normal v =>
                         {| result := Normal v;
                            trace := Called getAllDocTypes_call
                                     :: [Sent (primary_request (erpnext w))]
                                        ++ failed :: trace second;
                            final := final second |}
                     | Thrown altError =>
                         {| result := Normal (VArr (map VStr common_doctypes));
                            trace := Called getAllDocTypes_call
                                     :: [Sent (primary_request (erpnext w))]
                                        ++ failed :: trace second
                                           ++ [Logged [VStr "Alternative DocType fetch failed:";
                                                       message_or_unknown wording altError]];
                            final := final second |}
                     end))
               = [primary_request (erpnext w); alternate_request (erpnext w)]).
    { intros error. cbn zeta.
      destruct (result (run serve alternate_listing _)); cbn [trace];
        rewrite Hsecond; reflexivity. }
    destruct o as [body | reason].
    - cbn [falls_back].
      destruct (truthy body && truthy (get_opt body "data")); cbn [andb].
      + pose proof (map_method_unreadable "response.data.data.map" "name"
                      (get_opt body "data")) as Hread.
        destruct (map_method "response.data.data.map" (get_opt body "data")
                    (fun item => get item "name")) as [v | error].
        * right. rewrite Hread. now split.
        * left. rewrite Hread. split; [reflexivity | apply Hfallen].
      + right. now split.
    - left. split; [reflexivity | apply Hfallen]. }
  split; [ | split; [ | split]].
  - intros body -> Hdata. subst x.
    rewrite run_getAllDocTypes, run_primary_listing, Hserve. cbn.
    rewrite Hdata, andb_false_r. reflexivity.
  - destruct Hshape as [[Hfalls ->] | (Hfalls & -> & _)]; rewrite Hfalls.
    + split; [reflexivity | intros _; right; now left].
    + split; [ | discriminate]. intros [H | []]. discriminate H.
  - intros Hfalls. destruct Hshape as [[_ H] | (H & _)]; [exact H | congruence].
  - intros Hfalls. destruct Hshape as [[H _] | (_ & H)]; [congruence | exact H].
Qed.

(** C10.  On an authenticated client, reading [erpnext://DocTypes] returns
    the contents whose text is the JSON of [{doctypes: [...]}]; it never
    throws, in particular not the [InternalError] of the handler's [catch],
    which no run reaches: with any handler in its place the [try] statement
    runs exactly like its body alone. *)
Theorem reading_DocTypes_always_succeeds :
  forall w : machine S,
    authenticated (erpnext w) = true ->
    let x := run serve (ReadResource wording "erpnext://DocTypes") w in
    let body := let* doctypes := getAllDocTypes wording in Ret (VObj [("doctypes", doctypes)]) in
    (exists items,
       result x
       = Normal {| uri := "erpnext://DocTypes"; mimeType := "application/json";
                   resource_text := JSON_stringify_2 (VObj [("doctypes", VArr items)]) |})
    /\ (forall message, result x <> Thrown (McpError InternalError message))
    /\ (forall (h : thrown -> prog value) (w' : machine S),
          run serve (try_catch body h) w' = run serve body w').
Proof.
  intros w Hauth x body.
  assert (Hbody : forall w', exists items,
             result (run serve body w') = Normal (VObj [("doctypes", VArr items)])).
  { intros w'. subst body. rewrite run_bind. unfold followed_by.
    destruct (getAllDocTypes_returns w') as (items & ->). cbn. eauto. }
  assert (Hx : exists items,
             result x
             = Normal {| uri := "erpnext://DocTypes"; mimeType := "application/json";
                         resource_text := JSON_stringify_2 (VObj [("doctypes", VArr items)]) |}).
  { subst x. unfold ReadResource. cbn [isAuthenticated bind run]. rewrite Hauth.
    cbn [negb String.eqb Ascii.eqb Bool.eqb]. rewrite run_bind. unfold followed_by.
    rewrite run_try_catch. unfold recovered_by. fold body.
    destruct (Hbody w) as (items & E).
    destruct (run serve body w) as [r t f]. cbn in E. subst r. cbn. eauto. }
  split; [exact Hx | split].
  - intros message. destruct Hx as (items & ->). discriminate.
  - intros h w'. rewrite run_try_catch. unfold recovered_by.
    destruct (Hbody w') as (items & ->). reflexivity.
Qed.

(** ** [getDocList] *)

Lemma run_throw_Error {A} (parts : list value) (w : machine S) :
  run serve (@throw_Error A parts) w
  = {| result := Thrown (rethrown parts); trace := []; final := w |}.
Proof.
  unfold throw_Error, rethrown. rewrite run_bind, run_lift. unfold followed_by. cbn.
  now destruct (template parts).
Qed.

(** The run of [getDocList], whatever values it is given. *)
Lemma run_getDocList (w : machine S) (doctype : string) (filters fields limit : value) :
  run serve (getDocList wording doctype filters fields limit) w
  = let r := list_request (erpnext w) doctype filters fields limit in
    let (o, s) := serve (backend w) r in
    let failure error :=
      Thrown (rethrown [VStr "Failed to get "; VStr doctype; VStr " list: ";
                        message_or_unknown wording error]) in
    {| result :=
         match o with
         | Fulfilled body =>
             match get body "data" with
             | Normal documents => Normal documents
             | Thrown error => failure error
             end
         | Rejected reason => failure (Rejection reason)
         end;
       trace := [Called (getDocList_call doctype filters fields limit); Sent r];
       final := {| erpnext := erpnext w; backend := s |} |}.
Proof.
  unfold getDocList, list_request, query_of. cbn [run].
  rewrite run_try_catch, run_bind. unfold recovered_by, followed_by.
  assert (E : exists v, (if truthy fields then length_of fields else Normal fields) = Normal v
                        /\ truthy v = has_length fields).
  { destruct fields as [ | | [ | ] | n | s | items | props]; cbn;
      try (eexists; split; [reflexivity | reflexivity]).
    - destruct (Z.eqb n 0) eqn:Hn; cbn; eexists; (split; [reflexivity | ]); cbn;
        now rewrite ?Hn.
    - destruct (String.eqb_spec s "") as [-> | Hs]; cbn; eexists; (split; [reflexivity | ]).
      + reflexivity.
      + cbn. now rewrite units_not_zero.
    - eexists. split; [reflexivity | ]. cbn. now destruct items. }
  destruct E as (v & -> & Hv). rewrite run_lift. cbn [result final trace app].
  rewrite Hv, run_bind. unfold followed_by, axios. cbn [run].
  destruct (has_length fields), (truthy filters), (truthy limit); cbn [app];
    destruct (serve (backend w) _) as [[body | reason] s];
    cbn [logging result trace final run app]; rewrite ?run_lift;
    cbn [logging result trace final run app];
    try destruct (get body "data"); cbn [logging result trace final run app];
    rewrite ?run_throw_Error; reflexivity.
Qed.

(** C5.  Called with arguments of the declared types, [getDocList] sends one
    [GET /api/resource/{doctype}] whose query has [fields] (the JSON text of
    the array) exactly when a non-empty [fields] is given, [filters] (the
    JSON text of the object) exactly when [filters] is given, and
    [limit_page_length] exactly when [limit] is given and is not 0; with
    limit 0 the request is the one sent with no limit. *)
Theorem getDocList_query :
  forall (w : machine S) (doctype : string)
         (filters : option (list (string * value)))
         (fields : option (list string)) (limit : option Z),
    let sent limit :=
      requests (trace (run serve
        (getDocList wording doctype (optional VObj filters) (optional strings fields)
           (optional VNum limit)) w)) in
    (exists r,
       sent limit = [r]
       /\ method r = GET
       /\ url r = "/api/resource/" ++ doctype
       /\ param "fields" (params r)
          = match fields with
            | Some (f :: l) => Some (JSON_stringify (strings (f :: l)))
            | _ => None
            end
       /\ param "filters" (params r)
          = match filters with
            | Some f => Some (JSON_stringify (VObj f))
            | None => None
            end
       /\ param "limit_page_length" (params r)
          = match limit with
            | Some n => if Z.eqb n 0 then None else Some (VNum n)
            | None => None
            end)
    /\ sent (Some 0%Z) = sent None.
Proof.
  intros w doctype filters fields limit sent. subst sent. cbv beta. split.
  - exists (list_request (erpnext w) doctype (optional VObj filters)
              (optional strings fields) (optional VNum limit)).
    split; [ | split; [reflexivity | split; [reflexivity | ]]].
    + rewrite run_getDocList. cbn zeta. now destruct (serve (backend w) _).
    + unfold list_request, query_of. cbn [params].
      destruct fields as [[ | f l] | ]; destruct filters as [flt | ];
        destruct limit as [n | ]; try destruct (Z.eqb_spec n 0) as [-> | Hn];
        cbn -[JSON_stringify]; try (destruct n; [contradiction | | ]);
        repeat split; reflexivity.
  - rewrite !run_getDocList. cbn zeta.
    change (list_request (erpnext w) doctype (optional VObj filters)
              (optional strings fields) (optional VNum (Some 0%Z)))
      with (list_request (erpnext w) doctype (optional VObj filters)
              (optional strings fields) (optional VNum None)).
    now destruct (serve (backend w) _).
Qed.

(** ** [get_doctype_fields] *)

Lemma emptiness (documents : value) :
  (if negb (truthy documents) then Normal true else no_elements documents)
  = Normal (no_documents documents).
Proof.
  unfold no_documents, no_elements.
  destruct documents as [ | | [ | ] | n | s | items | props]; cbn; try reflexivity.
  - now destruct (Z.eqb n 0).
  - now destruct (String.eqb s "").
Qed.

Lemma describe_convertible (sampleDoc : value) (field : string) (s : string) :
  ToString (member sampleDoc field) = Normal s ->
  describe sampleDoc field = Normal (descriptor field (member sampleDoc field)).
Proof.
  unfold describe, descriptor, sample_of. intros E. rewrite E.
  pose proof (substring_to_empty 49 s) as Hsub.
  destruct (member sampleDoc field) as [ | | b | n | t | items | props];
    cbn [nullish orb cbind]; try reflexivity;
    try (unfold toString_method; rewrite E; cbn [cbind]; unfold or_else; cbn [truthy];
         rewrite Hsub; now destruct (String.eqb s "")).
  unfold toString_method. cbn in E.
  destruct (has_own "toString" props); [discriminate | ].
  injection E as <-. cbn [cbind]. unfold or_else. cbn [truthy]. now rewrite Hsub.
Qed.

Lemma describe_all (sampleDoc : value) (keys : list string) :
  Forall (fun field => exists s, ToString (member sampleDoc field) = Normal s) keys ->
  cmap (describe sampleDoc) keys
  = Normal (map (fun field => descriptor field (member sampleDoc field)) keys).
Proof.
  induction 1 as [ | field keys (s & E) _ IH]; cbn; [reflexivity | ].
  now rewrite (describe_convertible _ _ E), IH.
Qed.

Lemma run_isAuthenticated (w : machine S) :
  run serve isAuthenticated w
  = {| result := Normal (authenticated (erpnext w)); trace := []; final := w |}.
Proof. reflexivity. Qed.

Lemma followed_by_pure {A B} (a : A) (w : machine S) (next : A -> machine S -> execution S B) :
  followed_by {| result := Normal a; trace := []; final := w |} next = next a w.
Proof. unfold followed_by. cbn. now destruct (next a w). Qed.

Lemma nonempty_truthy (s : string) : s <> "" -> truthy (VStr s) = true.
Proof. intros H. cbn. now destruct (String.eqb_spec s ""). Qed.

(** ** What conversions can throw *)

Lemma ToString_thrown :
  forall (v : value) (e : thrown), ToString v = Thrown e -> e = Runtime NoPrimitive.
Proof.
  fix IH 1. intros v e.
  destruct v as [ | | [ | ] | n | s | items | props]; cbn; try discriminate.
  - induction items as [ | x items IHitems]; [discriminate | ].
    assert (Helement : forall e',
               match x with
               | VUndefined | VNull => Normal ""
               | _ => ToString x
               end = Thrown e' -> e' = Runtime NoPrimitive).
    { pose proof (IH x) as IHx. intros e'. destruct x; try discriminate; apply IHx. }
    destruct items as [ | y items]; [apply Helement | ].
    destruct (match x with
              | VUndefined | VNull => Normal ""
              | _ => ToString x
              end) as [s | e'] eqn:E; cbn.
    + intros H. apply IHitems. revert H.
      match goal with
      | |- cbind ?j _ = _ -> ?j' = _ => change j' with j; destruct j; cbn
      end; [discriminate | now intros [= ->]].
    + intros [= <-]. now apply Helement.
  - destruct (has_own "toString" props); [now intros [= <-] | discriminate].
Qed.

Lemma template_thrown (parts : list value) (e : thrown) :
  template parts = Thrown e -> e = Runtime NoPrimitive.
Proof.
  induction parts as [ | v parts IH]; cbn; [discriminate | ].
  destruct (ToString v) as [s | e'] eqn:E; cbn.
  - destruct (template parts); cbn; [discriminate | ]. intros [= <-]. now apply IH.
  - intros [= <-]. now apply (ToString_thrown v).
Qed.

(** A [catch] block that reports [error?.message || 'Unknown error'] in a
    tool result returns it when the error is an [Error] or was raised by the
    engine. *)
Lemma fail_returns (parts : list value) (error : thrown) (w : machine S) :
  (forall e, template parts = Thrown e -> False) ->
  match error with
  | Error _ | Runtime _ => True
  | _ => False
  end ->
  exists t,
    run serve (fail (parts ++ [message_or_unknown wording error])) w
    = {| result := Normal {| text := VStr t; isError := true |}; trace := []; final := w |}.
Proof.
  intros Hparts Herror. unfold fail. rewrite run_bind, run_lift.
  assert (exists t, template (parts ++ [message_or_unknown wording error]) = Normal t)
    as (t & ->).
  { assert (exists m, message_or_unknown wording error = VStr m) as (m & ->).
    { unfold message_or_unknown, or_else.
      destruct error; try contradiction; cbn;
        match goal with |- context [if ?b then _ else _] => destruct b end; eauto. }
    clear Herror. induction parts as [ | v parts IH]; cbn; [eauto | ].
    destruct (ToString v) as [s | e] eqn:E.
    - cbn. destruct IH as (t & ->).
      + intros e H. apply (Hparts e). cbn. now rewrite E, H.
      + cbn. eauto.
    - exfalso. apply (Hparts e). cbn. now rewrite E. }
  rewrite followed_by_pure. cbn. eauto.
Qed.

Lemma rethrown_kind (parts : list value) :
  match rethrown parts with
  | Error _ | Runtime _ => True
  | _ => False
  end.
Proof.
  unfold rethrown. destruct (template parts) as [m | e] eqn:E; [exact I | ].
  now rewrite (template_thrown _ E).
Qed.

(** ** Required arguments *)

(** The check that does work: a call without [data] is rejected before
    anything else happens. *)
Lemma missing_data_is_rejected (w : machine S) (arguments : value) :
  authenticated (erpnext w) = true ->
  get_opt arguments "doctype" = VStr "Customer" ->
  get_opt arguments "data" = VUndefined ->
  run serve (CallTool wording "create_document" arguments) w
  = {| result := Thrown (McpError InvalidParams "Doctype and data are required");
       trace := []; final := w |}.
Proof.
  intros Hauth Hdoctype Hdata.
  change (CallTool wording "create_document" arguments)
    with (create_document wording arguments).
  unfold create_document.
  rewrite run_bind, run_isAuthenticated, followed_by_pure, Hauth. cbn [negb].
  rewrite Hdoctype, Hdata. reflexivity.
Qed.

(** C1, at the failing input.  On an authenticated client, a [get_documents]
    call whose arguments have no [doctype] is not rejected: [String(undefined)]
    is the non-empty string "undefined", so the handler calls [getDocList]
    with it, the request [GET /api/resource/undefined] is sent, and the
    handler returns a tool result. *)
Theorem missing_doctype_reaches_the_backend :
  forall (w : machine S) (arguments : value),
    authenticated (erpnext w) = true ->
    get_opt arguments "doctype" = VUndefined ->
    let x := run serve (CallTool wording "get_documents" arguments) w in
    let filters := get_opt arguments "filters" in
    let fields := get_opt arguments "fields" in
    let limit := get_opt arguments "limit" in
    trace x = [Called (getDocList_call "undefined" filters fields limit);
               Sent (list_request (erpnext w) "undefined" filters fields limit)]
    /\ url (list_request (erpnext w) "undefined" filters fields limit)
       = "/api/resource/undefined"
    /\ exists r, result x = Normal r.
Proof.
  intros w arguments Hauth Hmissing x filters fields limit.
  subst x.
  change (CallTool wording "get_documents" arguments)
    with (get_documents wording arguments).
  unfold get_documents.
  rewrite run_bind, run_isAuthenticated, followed_by_pure, Hauth. cbn [negb].
  rewrite Hmissing. cbn [ToString]. rewrite run_bind, run_lift, followed_by_pure.
  change (truthy (VStr "undefined")) with true. cbn [negb].
  fold filters fields limit.
  rewrite run_try_catch, run_bind, run_getDocList. cbn zeta.
  destruct (serve (backend w) _) as [o s].
  unfold recovered_by, followed_by. cbn [result trace final].
  assert (Hfail : forall parts,
             exists t,
               run serve
                 (fail [VStr "Failed to get "; VStr "undefined"; VStr " documents: ";
                        message_or_unknown wording (rethrown parts)])
                 {| erpnext := erpnext w; backend := s |}
               = {| result := Normal {| text := VStr t; isError := true |};
                    trace := []; final := {| erpnext := erpnext w; backend := s |} |}).
  { intros parts.
    apply (@fail_returns [VStr "Failed to get "; VStr "undefined"; VStr " documents: "]);
      [cbn; discriminate | apply rethrown_kind]. }
  destruct o as [body | reason]; [destruct (get body "data") as [documents | error] | ];
    cbn [result trace final];
    try match goal with
        | |- context [rethrown ?parts] => destruct (Hfail parts) as (t & ->)
        end;
    cbn; (split; [reflexivity | split; [reflexivity | eauto]]).
Qed.

(** ** The requests of the client *)

(** The run of a method made of one request and one property read. *)
Lemma run_request (op : operation) (m : verb) (path : string)
    (query : list (string * value)) (body : value) (key : string)
    (parts : thrown -> list value) (w : machine S) :
  run serve
    (Enter op
       (try_catch
          (let* response_data := axios m path query body in lift (get response_data key))
          (fun error => throw_Error (parts error)))) w
  = let r := {| via := axiosInstance (erpnext w); method := m; url := path;
                params := query; data := body |} in
    let (o, s) := serve (backend w) r in
    {| result :=
         match o with
         | Fulfilled response_data =>
             match get response_data key with
             | Normal v => Normal v
             | Thrown error => Thrown (rethrown (parts error))
             end
         | Rejected reason => Thrown (rethrown (parts (Rejection reason)))
         end;
       trace := [Called op; Sent r];
       final := {| erpnext := erpnext w; backend := s |} |}.
Proof.
  cbn [run]. rewrite run_try_catch, run_bind. unfold axios. cbn [run].
  destruct (serve (backend w) _) as [[response_data | reason] s];
    unfold recovered_by, followed_by; cbn [logging run result trace final app];
    rewrite ?run_lift; cbn [logging run result trace final app];
    try destruct (get response_data key); cbn [logging run result trace final app];
    rewrite ?run_throw_Error; reflexivity.
Qed.

Lemma run_getDocument (doctype name : string) (w : machine S) :
  run serve (getDocument wording doctype name) w
  = let r := {| via := axiosInstance (erpnext w); method := GET;
                url := "/api/resource/" ++ doctype ++ "/" ++ name;
                params := []; data := VUndefined |} in
    let (o, s) := serve (backend w) r in
    let failure error :=
      Thrown (rethrown [VStr "Failed to get "; VStr doctype; VStr " "; VStr name; VStr ": ";
                        message_or_unknown wording error]) in
    {| result :=
         match o with
         | Fulfilled response_data =>
             match get response_data "data" with
             | Normal v => Normal v
             | Thrown error => failure error
             end
         | Rejected reason => failure (Rejection reason)
         end;
       trace := [Called (getDocument_call doctype name); Sent r];
       final := {| erpnext := erpnext w; backend := s |} |}.
Proof.
  unfold getDocument.
  apply (run_request (getDocument_call doctype name) GET _ [] VUndefined "data"
           (fun error => [VStr "Failed to get "; VStr doctype; VStr " "; VStr name; VStr ": ";
                          message_or_unknown wording error])).
Qed.

(** Every request of a method goes through the client's instance, to one of
    the method's paths. *)
Lemma sent_by_perform (op : operation) (w : machine S) (r : request) :
  In r (requests (trace (run serve (perform wording op) w))) ->
  via r = axiosInstance (erpnext w) /\ In (url r) (paths op).
Proof.
  destruct op as [doctype name | doctype filters fields limit | doctype doc
                 | doctype name doc | reportName filters | ]; cbn [perform paths].
  - rewrite run_getDocument. cbn zeta. destruct (serve (backend w) _). cbn.
    intros [<- | []]. cbn. auto.
  - rewrite run_getDocList. cbn zeta. destruct (serve (backend w) _). cbn.
    intros [<- | []]. cbn. auto.
  - unfold createDocument.
    rewrite (run_request (createDocument_call doctype doc) POST _ [] _ "data"
               (fun error => [VStr "Failed to create "; VStr doctype; VStr ": ";
                              message_or_unknown wording error])).
    cbn zeta. destruct (serve (backend w) _). cbn. intros [<- | []]. cbn. auto.
  - unfold updateDocument.
    rewrite (run_request (updateDocument_call doctype name doc) PUT _ [] _ "data"
               (fun error => [VStr "Failed to update "; VStr doctype; VStr " "; VStr name;
                              VStr ": "; message_or_unknown wording error])).
    cbn zeta. destruct (serve (backend w) _). cbn. intros [<- | []]. cbn. auto.
  - unfold runReport.
    rewrite (run_request (runReport_call reportName filters) GET _ _ VUndefined "message"
               (fun error => [VStr "Failed to run report "; VStr reportName; VStr ": ";
                              message_or_unknown wording error])).
    cbn zeta. destruct (serve (backend w) _). cbn. intros [<- | []]. cbn. auto.
  - rewrite run_getAllDocTypes. cbn zeta.
    assert (H1 : forall w', exists o s,
               run serve primary_listing w'
               = {| result := o; trace := [Sent (primary_request (erpnext w'))];
                    final := {| erpnext := erpnext w'; backend := s |} |}).
    { intros w'. rewrite run_primary_listing. destruct (serve (backend w') _); eauto. }
    assert (H2 : forall w', exists o s,
               run serve alternate_listing w'
               = {| result := o; trace := [Sent (alternate_request (erpnext w'))];
                    final := {| erpnext := erpnext w'; backend := s |} |}).
    { intros w'. rewrite run_alternate_listing. destruct (serve (backend w') _); eauto. }
    destruct (H1 w) as (o1 & s1 & ->). cbn [result trace final].
    destruct o1 as [v | error].
    + cbn. intros [<- | []]. cbn. auto.
    + destruct (H2 {| erpnext := erpnext w; backend := s1 |}) as (o2 & s2 & ->).
      cbn [result trace final erpnext]. destruct o2; cbn; intros [<- | [<- | []]]; cbn; auto.
Qed.

(** ** Slashes *)

Lemma append_not_empty (s t : string) : t <> "" -> String.eqb (s ++ t) "" = false.
Proof. intros H. destruct s; cbn; [ | reflexivity]. now destruct t. Qed.

Lemma strip_trailing_slash_append (u : string) : strip_trailing_slash (u ++ "/") = u.
Proof.
  induction u as [ | c u IH]; cbn; [reflexivity | ].
  rewrite append_not_empty by discriminate. rewrite andb_false_r. now rewrite IH.
Qed.

Lemma has_slash_join (a b : string) : has_slash (a ++ String "/" b) = true.
Proof. induction a as [ | c a IH]; cbn; [reflexivity | ]. rewrite IH. apply orb_true_r. Qed.

Lemma doubled_slash_concat (a b : string) :
  doubled_slash (a ++ b)
  = doubled_slash a || (ends_with_slash a && starts_with_slash b) || doubled_slash b.
Proof.
  induction a as [ | c a IH]; [reflexivity | ].
  destruct a as [ | d a].
  - cbn. destruct (is_slash c), b; reflexivity.
  - change (String c (String d a) ++ b) with (String c (String d a ++ b)).
    change (String d a ++ b) with (String d (a ++ b)) in *.
    change (ends_with_slash (String c (String d a))) with (ends_with_slash (String d a)).
    cbn [doubled_slash] in *. rewrite IH. now rewrite !orb_assoc.
Qed.

Lemma doubled_slash_one (doctype : string) :
  doubled_slash ("/api/resource/" ++ doctype)
  = starts_with_slash doctype || doubled_slash doctype.
Proof. rewrite doubled_slash_concat. reflexivity. Qed.

Lemma doubled_slash_two (doctype name : string) :
  doubled_slash ("/api/resource/" ++ doctype ++ "/" ++ name)
  = String.eqb doctype "" || starts_with_slash doctype || doubled_slash doctype
    || ends_with_slash doctype || starts_with_slash name || doubled_slash name.
Proof.
  rewrite doubled_slash_one, doubled_slash_concat.
  assert (Hstart : starts_with_slash (doctype ++ "/" ++ name)
                   = String.eqb doctype "" || starts_with_slash doctype)
    by (destruct doctype; reflexivity).
  assert (Hname : doubled_slash ("/" ++ name) = starts_with_slash name || doubled_slash name)
    by (destruct name; reflexivity).
  rewrite Hstart, Hname.
  change (starts_with_slash ("/" ++ name)) with true.
  now rewrite andb_true_r, !orb_assoc.
Qed.

(** The paths of a method start with [/api/], and two slashes meet in one
    exactly as [slashes_meet] says. *)
Lemma paths_slashes (op : operation) (p : string) :
  In p (paths op) ->
  prefix "/api/" p = true /\ doubled_slash p = slashes_meet op.
Proof.
  destruct op as [doctype name | doctype filters fields limit | doctype doc
                 | doctype name doc | reportName filters | ]; cbn [paths slashes_meet];
    intros H; repeat (destruct H as [<- | H]); try contradiction;
    (split; [reflexivity | ]); try reflexivity; apply doubled_slash_two.
Qed.

Lemma constructed (env : string -> option string) (u : string) (s : S) :
  env "ERPNEXT_URL" = Some u ->
  u <> "" ->
  let born := run serve (constructor env) {| erpnext := fresh; backend := s |} in
  result born = Normal tt
  /\ baseUrl (erpnext (final born)) = strip_trailing_slash u
  /\ baseURL (axiosInstance (erpnext (final born))) = strip_trailing_slash u.
Proof.
  intros Hurl Hne born. subst born. unfold constructor. rewrite Hurl.
  cbn [of_env]. unfold or_else. rewrite (nonempty_truthy Hne).
  cbn [run erpnext backend set_baseUrl baseUrl]. rewrite (nonempty_truthy Hne).
  cbn [negb run erpnext backend set_baseUrl baseUrl set_axiosInstance axiosInstance].
  destruct (env "ERPNEXT_API_KEY") as [key | ]; cbn [of_env truthy andb];
    [destruct (negb (key =? "")); cbn [andb] | ]; try (cbn; now auto).
  destruct (env "ERPNEXT_API_SECRET") as [secret | ]; cbn [of_env truthy];
    [destruct (negb (secret =? "")) | ]; cbn; auto.
Qed.

(** C6, as amended.  When [ERPNEXT_URL] ends in a slash, the constructor
    succeeds and stores the value without that one slash, in [baseUrl] and as
    the [baseURL] of the instance; a value ending in two slashes is stored
    ending in one.  Every request a client method then sends goes through
    that instance, to a path that starts with [/api/].  The doctype and the
    name are put into the path as they are given, so the path has two
    slashes in a row exactly when they bring them together
    ([slashes_meet]): a name such as [SO/0001] does not, an empty doctype
    before a name, or a name such as [/x], does. *)
Theorem trailing_slash_is_stripped_once :
  forall (env : string -> option string) (u : string) (s : S),
    env "ERPNEXT_URL" = Some (u ++ "/") ->
    let born := run serve (constructor env) {| erpnext := fresh; backend := s |} in
    let client := erpnext (final born) in
    result born = Normal tt
    /\ baseUrl client = u
    /\ baseURL (axiosInstance client) = u
    /\ forall (op : operation) (s' : S) (r : request),
         In r (requests (trace (run serve (perform wording op)
                                  {| erpnext := client; backend := s' |}))) ->
         baseURL (via r) = u
         /\ prefix "/api/" (url r) = true
         /\ doubled_slash (url r) = slashes_meet op.
Proof.
  intros env u s Hurl born client.
  destruct (@constructed env (u ++ "/") s Hurl) as (Hborn & Hbase & Hinstance).
  { destruct u; discriminate. }
  rewrite strip_trailing_slash_append in Hbase, Hinstance.
  split; [exact Hborn | split; [exact Hbase | split; [exact Hinstance | ]]].
  intros op s' r H.
  destruct (sent_by_perform op _ r H) as [Hvia Hpath]. cbn [erpnext] in Hvia.
  destruct (paths_slashes op _ Hpath) as [Hprefix Hslashes].
  split; [rewrite Hvia; exact Hinstance | split; assumption].
Qed.

(** ** Resource URIs *)

Lemma strip_prefix_append (p t : string) : strip_prefix p (p ++ t) = Some t.
Proof.
  induction p as [ | c p IH]; cbn; [now destruct t | ]. now rewrite Ascii.eqb_refl.
Qed.

Lemma strip_prefix_inv (p s t : string) : strip_prefix p s = Some t -> s = p ++ t.
Proof.
  revert s. induction p as [ | c p IH]; intros s; cbn.
  - now intros [= ->].
  - destruct s as [ | d s]; [discriminate | ].
    destruct (Ascii.eqb_spec c d) as [-> | ]; [ | discriminate].
    intros H. now rewrite (IH _ H).
Qed.

Lemma cut_at_slash_append (a b : string) :
  has_slash a = false -> cut_at_slash (a ++ String "/" b) = Some (a, b).
Proof.
  induction a as [ | c a IH]; cbn; [reflexivity | ].
  intros H. apply orb_false_iff in H. destruct H as [-> H]. now rewrite (IH H).
Qed.

Lemma cut_at_slash_inv (s a b : string) :
  cut_at_slash s = Some (a, b) -> s = a ++ String "/" b /\ has_slash a = false.
Proof.
  revert a. induction s as [ | c s IH]; intros a; cbn; [discriminate | ].
  destruct (is_slash c) eqn:Hc.
  - intros [= <- <-]. unfold is_slash in Hc. apply Ascii.eqb_eq in Hc. now subst.
  - destruct (cut_at_slash s) as [[a' b'] | ]; [ | discriminate].
    intros [= <- <-]. destruct (IH a' eq_refl) as [-> Ha]. cbn. now rewrite Hc.
Qed.

(** The pattern matches exactly the URIs [erpnext://{doctype}/{name}] whose
    [doctype] is the non-empty text up to the first slash and whose [name] is
    the non-empty rest, on one line. *)
Lemma match_document_spec (uri doctype name : string) :
  match_document uri = Some (doctype, name)
  <-> uri = "erpnext://" ++ doctype ++ "/" ++ name
      /\ doctype <> "" /\ has_slash doctype = false
      /\ name <> "" /\ has_line_terminator name = false.
Proof.
  unfold match_document. split.
  - destruct (strip_prefix "erpnext://" uri) as [rest | ] eqn:P; [ | discriminate].
    destruct (cut_at_slash rest) as [[d n] | ] eqn:C; [ | discriminate].
    destruct (String.eqb_spec d ""); [discriminate | ].
    destruct (String.eqb_spec n ""); [discriminate | ].
    destruct (has_line_terminator n) eqn:L; [discriminate | ].
    cbn. intros [= <- <-]. apply strip_prefix_inv in P.
    apply cut_at_slash_inv in C. destruct C as [-> Hd]. auto.
  - intros (-> & Hd & Hs & Hn & Hl).
    rewrite strip_prefix_append.
    change (doctype ++ "/" ++ name) with (doctype ++ String "/" name).
    rewrite (@cut_at_slash_append doctype name Hs), Hl.
    destruct (String.eqb_spec doctype ""); [contradiction | ].
    destruct (String.eqb_spec name ""); [contradiction | ]. reflexivity.
Qed.

Lemma match_document_DocTypes (uri : string) (groups : string * string) :
  match_document uri = Some groups -> String.eqb uri "erpnext://DocTypes" = false.
Proof.
  destruct groups as [doctype name]. intros H.
  apply match_document_spec in H. destruct H as (-> & _ & _ & _ & _).
  apply String.eqb_neq. intros E.
  assert (F : has_slash (doctype ++ String "/" name) = has_slash "DocTypes")
    by (f_equal; now injection E).
  rewrite has_slash_join in F. discriminate.
Qed.

Lemma template_two (a b : string) : template [VStr a; VStr b] = Normal (a ++ b).
Proof. cbn. now rewrite append_empty. Qed.

(** C4.  On an authenticated client:
    the URI [erpnext://DocTypes] makes the handler call [getAllDocTypes()]
    and return its result wrapped as [{doctypes: [...]}];
    a URI [erpnext://{doctype}/{name}] (the first segment up to the first
    slash, the rest as name) whose two parts percent-decode without error
    makes it call [getDocument] on the decoded parts, and nothing else,
    returning the document when there is one and throwing "Invalid ERPNext
    resource URI" when [getDocument] returns nothing;
    a URI that is neither throws that error without any call.
    A URI of the second form with a part that does not percent-decode is
    answered in none of these ways: [decodeURIComponent] is called outside
    every [try], and what the handler throws is the [URIError] itself, not
    the protocol error that every other path throws. *)
Theorem resource_reads_dispatch_on_the_uri :
  forall w : machine S,
    authenticated (erpnext w) = true ->
    (let x := run serve (ReadResource wording "erpnext://DocTypes") w in
     let listing := run serve (getAllDocTypes wording) w in
     trace x = trace listing
     /\ (exists rest, trace x = Called getAllDocTypes_call :: rest)
     /\ exists items,
          result listing = Normal (VArr items)
          /\ result x
             = Normal {| uri := "erpnext://DocTypes"; mimeType := "application/json";
                         resource_text :=
                           JSON_stringify_2 (VObj [("doctypes", VArr items)]) |})
    /\ (forall doctype name d n : string,
          doctype <> "" -> has_slash doctype = false ->
          name <> "" -> has_line_terminator name = false ->
          decodeURIComponent doctype = Normal d ->
          decodeURIComponent name = Normal n ->
          let uri := "erpnext://" ++ doctype ++ "/" ++ name in
          let x := run serve (ReadResource wording uri) w in
          let fetch := run serve (getDocument wording d n) w in
          trace x = trace fetch
          /\ calls (trace x) = [getDocument_call d n]
          /\ forall v,
               result fetch = Normal v ->
               result x
               = if truthy v
                 then Normal {| uri := uri; mimeType := "application/json";
                                resource_text := JSON_stringify_2 v |}
                 else Thrown (McpError InvalidRequest
                                ("Invalid ERPNext resource URI: " ++ uri)))
    /\ (forall uri : string,
          uri <> "erpnext://DocTypes" ->
          match_document uri = None ->
          run serve (ReadResource wording uri) w
          = {| result := Thrown (McpError InvalidRequest
                                   ("Invalid ERPNext resource URI: " ++ uri));
               trace := []; final := w |})
    /\ (forall uri doctype name : string,
          match_document uri = Some (doctype, name) ->
          (exists e, decodeURIComponent doctype = Thrown e)
          \/ (exists e, decodeURIComponent name = Thrown e) ->
          run serve (ReadResource wording uri) w
          = {| result := Thrown (Runtime MalformedURI); trace := []; final := w |}
          /\ forall code message,
               result (run serve (ReadResource wording uri) w) <> Thrown (McpError code message)).
Proof.
  intros w Hauth.
  assert (Hgate : forall k : prog resource_contents,
             run serve (let* ok := isAuthenticated in
                        if negb ok then Throw (McpError InvalidRequest not_authenticated)
                        else k) w
             = run serve k w).
  { intros k. now rewrite run_bind, run_isAuthenticated, followed_by_pure, Hauth. }
  split; [ | split; [ | split]].
  - cbn zeta. unfold ReadResource.
    rewrite Hgate.
    change ("erpnext://DocTypes" =? "erpnext://DocTypes") with true. cbn iota.
    rewrite run_bind, run_try_catch, run_bind.
    destruct (getAllDocTypes_returns w) as (items & Hitems).
    pose proof (run_getAllDocTypes w) as Hshape. cbn zeta in Hshape.
    destruct (run serve (getAllDocTypes wording) w) as [r t f]. cbn in Hitems. subst r.
    unfold followed_by, recovered_by. cbn.
    rewrite !app_nil_r. split; [reflexivity | split; [ | eauto]].
    destruct (result (run serve primary_listing w));
      [ | destruct (result (run serve alternate_listing _))];
      injection Hshape as _ ->; eauto.
  - intros doctype name d n Hd Hs Hn Hl Dd Dn uri x fetch.
    assert (Hmatch : match_document uri = Some (doctype, name))
      by (apply match_document_spec; auto).
    subst x. unfold ReadResource. rewrite Hgate.
    rewrite (match_document_DocTypes _ Hmatch), Hmatch.
    rewrite run_bind, run_bind, run_lift, Dd, followed_by_pure.
    rewrite run_bind, run_lift, Dn, followed_by_pure.
    rewrite run_try_catch. fold fetch.
    assert (Hfetch : trace fetch
                     = [Called (getDocument_call d n);
                        Sent {| via := axiosInstance (erpnext w); method := GET;
                                url := "/api/resource/" ++ d ++ "/" ++ n;
                                params := []; data := VUndefined |}]).
    { subst fetch. rewrite run_getDocument. cbn zeta. now destruct (serve (backend w) _). }
    assert (Hthrows : forall t (w' : machine S),
               exists e,
                 run serve (let* message := lift t in
                            Throw (McpError InvalidRequest message) : prog value) w'
                 = {| result := Thrown e; trace := []; final := w' |}).
    { intros t w'. rewrite run_bind, run_lift. unfold followed_by. cbn.
      destruct t; eauto. }
    clearbody fetch. unfold recovered_by, followed_by.
    destruct (result fetch) as [v | error] eqn:Hresult.
    + rewrite Hresult. destruct (truthy v) eqn:Hv; cbn [negb].
      * cbn. rewrite app_nil_r, Hfetch.
        split; [reflexivity | split; [reflexivity | ]].
        intros ? [= <-]. now rewrite Hv.
      * rewrite run_bind, run_lift, template_two, followed_by_pure. cbn.
        rewrite app_nil_r, Hfetch.
        split; [reflexivity | split; [reflexivity | ]].
        intros ? [= <-]. now rewrite Hv.
    + cbn [result trace final].
      match goal with
      | |- context [run serve (let* message := lift ?t in _) ?w'] =>
          destruct (Hthrows t w') as (e & ->)
      end.
      cbn [result trace final]. rewrite app_nil_r, Hfetch.
      split; [reflexivity | split; [reflexivity | ]]. intros v [=].
  - intros uri Hne Hnone. unfold ReadResource. rewrite Hgate.
    apply String.eqb_neq in Hne. rewrite Hne, Hnone.
    rewrite run_bind. cbn [run]. rewrite followed_by_pure. cbn [truthy negb].
    rewrite run_bind, run_lift, template_two, followed_by_pure. reflexivity.
  - intros uri doctype name Hmatch Hbad.
    assert (Hrun : run serve (ReadResource wording uri) w
                   = {| result := Thrown (Runtime MalformedURI); trace := []; final := w |}).
    { unfold ReadResource. rewrite Hgate.
      rewrite (match_document_DocTypes _ Hmatch), Hmatch.
      rewrite run_bind, run_bind, run_lift.
      unfold decodeURIComponent in *.
      destruct (decode Outside doctype) as [d | ].
      - rewrite followed_by_pure, run_bind, run_lift.
        destruct (decode Outside name) as [n | ].
        + destruct Hbad as [(e & H) | (e & H)]; discriminate H.
        + unfold followed_by. cbn. now destruct w.
      - unfold followed_by. cbn. now destruct w. }
    split; [exact Hrun | ]. intros code message. rewrite Hrun. discriminate.
Qed.

(* ------------------------------------------------------------------ *)
(** ** What a run sends, and what it throws *)

Lemma sends_bind {A B} (P : request -> Prop) (c : ERPNextClient)
    (m : prog A) (f : A -> prog B) :
  sends P c m -> (forall a, sends P c (f a)) -> sends P c (bind m f).
Proof. intros Hm Hf. induction Hm; cbn; try constructor; auto. Qed.

Lemma sends_try_catch {A} (P : request -> Prop) (c : ERPNextClient)
    (m : prog A) (h : thrown -> prog A) :
  sends P c m -> (forall e, sends P c (h e)) -> sends P c (try_catch m h).
Proof. intros Hm Hh. induction Hm; cbn; try constructor; auto. Qed.

Lemma sends_lift {A} (P : request -> Prop) (c : ERPNextClient) (x : completion A) :
  sends P c (lift x).
Proof. destruct x; constructor. Qed.

Lemma sends_run {A} (P : request -> Prop) (c : ERPNextClient) (m : prog A) :
  sends P c m ->
  forall w, erpnext w = c ->
    Forall P (requests (trace (run serve m w))) /\ erpnext (final (run serve m w)) = c.
Proof.
  induction 1 as [a | e | k _ IH | r k Hr _ IH | args k _ IH | op k _ IH];
    intros w Hw; cbn; auto.
  - rewrite Hw. now apply IH.
  - destruct (serve (backend w) r) as [o s]. cbn.
    destruct (IH o {| erpnext := erpnext w; backend := s |} Hw) as [Hall Hc]. auto.
Qed.

Ltac sends_tac :=
  repeat first
    [ apply sends_lift
    | apply sends_bind
    | apply sends_try_catch
    | apply sends_Ret | apply sends_Throw | apply sends_This
    | apply sends_ConsoleError | apply sends_Enter
    | apply sends_Await
    | intro
    | match goal with
      | |- sends _ _ (match ?x with _ => _ end) => destruct x
      end ].

(** A program throws only what satisfies [Q]. *)
Definition raises {A} (Q : thrown -> Prop) (m : prog A) : Prop :=
  forall (w : machine S) (e : thrown), result (run serve m w) = Thrown e -> Q e.

Lemma raises_Ret {A} (Q : thrown -> Prop) (a : A) : raises Q (Ret a).
Proof. intros w e. discriminate. Qed.

Lemma raises_Throw {A} (Q : thrown -> Prop) (e : thrown) : Q e -> raises Q (@Throw A e).
Proof. intros H w e' [= <-]. exact H. Qed.

Lemma raises_lift {A} (Q : thrown -> Prop) (x : completion A) :
  (forall e, x = Thrown e -> Q e) -> raises Q (lift x).
Proof. intros H w e. rewrite run_lift. apply H. Qed.

Lemma raises_bind {A B} (Q : thrown -> Prop) (m : prog A) (f : A -> prog B) :
  raises Q m -> (forall a, raises Q (f a)) -> raises Q (bind m f).
Proof.
  intros Hm Hf w e. rewrite run_bind. unfold followed_by.
  destruct (result (run serve m w)) as [a | e'] eqn:E; cbn.
  - apply Hf.
  - intros [= <-]. now apply (Hm w).
Qed.

Lemma raises_try_catch {A} (Q R : thrown -> Prop) (m : prog A) (h : thrown -> prog A) :
  raises R m -> (forall e, R e -> raises Q (h e)) -> raises Q (try_catch m h).
Proof.
  intros Hm Hh w e. rewrite run_try_catch. unfold recovered_by.
  destruct (result (run serve m w)) as [a | e'] eqn:E; cbn.
  - congruence.
  - apply Hh. now apply (Hm w).
Qed.

Lemma raises_Enter {A} (Q : thrown -> Prop) (op : operation) (k : prog A) :
  raises Q k -> raises Q (Enter op k).
Proof. intros H w e. cbn. apply H. Qed.

Lemma raises_gate {A} (Q : thrown -> Prop) (blocked k : prog A) :
  raises Q blocked -> raises Q k ->
  raises Q (let* ok := isAuthenticated in if negb ok then blocked else k).
Proof.
  intros Hb Hk w e. rewrite run_bind, run_isAuthenticated, followed_by_pure.
  destruct (negb (authenticated (erpnext w))); [apply Hb | apply Hk].
Qed.

Lemma raises_weaken {A} (Q R : thrown -> Prop) (m : prog A) :
  (forall e, R e -> Q e) -> raises R m -> raises Q m.
Proof. intros H Hm w e E. apply H. now apply (Hm w). Qed.

(** The conversions throw engine faults only. *)
Lemma get_thrown (v : value) (k : string) (e : thrown) :
  get v k = Thrown e -> plain_error e.
Proof. destruct v; cbn; try discriminate; now intros [= <-]. Qed.

Lemma cmap_thrown {A B} (Q : thrown -> Prop) (f : A -> completion B) (l : list A) (e : thrown) :
  (forall a e', f a = Thrown e' -> Q e') -> cmap f l = Thrown e -> Q e.
Proof.
  intros Hf. induction l as [ | a l IH]; cbn; [discriminate | ].
  destruct (f a) as [b | e'] eqn:E; cbn.
  - destruct (cmap f l); cbn; [discriminate | ]. intros [= <-]. now apply IH.
  - intros [= <-]. now apply (Hf a).
Qed.

Lemma toString_method_thrown (site : string) (v : value) (e : thrown) :
  toString_method site v = Thrown e -> plain_error e.
Proof.
  unfold toString_method.
  destruct v as [ | | b | n | s | items | props];
    try (intros E; now rewrite (ToString_thrown _ E));
    try (now intros [= <-]).
  destruct (has_own "toString" props); [now intros [= <-] | discriminate].
Qed.

Lemma describe_thrown (sampleDoc : value) (field : string) (e : thrown) :
  describe sampleDoc field = Thrown e -> plain_error e.
Proof.
  unfold describe, sample_of.
  destruct (member sampleDoc field) as [ | | b | n | s | items | props];
    try discriminate;
    match goal with
    | |- context [toString_method ?site ?v] =>
        destruct (toString_method site v) as [t | e'] eqn:E; cbn; [discriminate | ];
        intros [= <-]; now apply (toString_method_thrown _ _ E)
    end.
Qed.

Lemma fail_raises (parts : list value) : raises plain_error (fail parts).
Proof.
  unfold fail. apply raises_bind; [ | intros a; apply raises_Ret].
  apply raises_lift. intros e E. now rewrite (template_thrown _ E).
Qed.

(** A [catch] block that reports the error in a tool result returns, when
    what it caught is plain. *)
Lemma fail_reports (parts : list value) (error : thrown) :
  (forall e, template parts = Thrown e -> False) ->
  plain_error error ->
  raises (fun _ => False) (fail (parts ++ [message_or_unknown wording error])).
Proof.
  intros Hparts Herror w e.
  destruct (@fail_returns parts error w Hparts) as (t & ->); [ | discriminate].
  destruct error; try contradiction; exact I.
Qed.

(* ------------------------------------------------------------------ *)
(** ** The methods of the client, one by one *)

Lemma template_prefixed (prefix : list string) (v : value) :
  template (map VStr prefix ++ [v])
  = let+ t := ToString v in Normal (String.concat "" prefix ++ t).
Proof.
  induction prefix as [ | a prefix IH].
  - cbn. destruct (ToString v); cbn; [now rewrite append_empty | reflexivity].
  - change (template (map VStr (a :: prefix) ++ [v]))
      with (let+ t := template (map VStr prefix ++ [v]) in Normal (a ++ t)).
    rewrite IH. destruct (ToString v) as [t | e]; cbn; [ | reflexivity].
    f_equal. destruct prefix as [ | b prefix].
    + reflexivity.
    + change (String.concat "" (a :: b :: prefix))
        with (a ++ String.concat "" (b :: prefix)).
      now rewrite append_assoc.
Qed.

Lemma rethrown_prefixed (prefix : list string) (op : operation) (error : thrown) :
  String.concat "" prefix = failure_prefix op ->
  rethrown (map VStr prefix ++ [message_or_unknown wording error])
  = failure wording op error.
Proof.
  intros H. unfold rethrown, failure. rewrite template_prefixed, H.
  now destruct (ToString (message_or_unknown wording error)).
Qed.

(** The run of any method but [getAllDocTypes]: one request, whose answer
    decides the result. *)
Lemma run_perform (op : operation) (w : machine S) :
  op <> getAllDocTypes_call ->
  run serve (perform wording op) w
  = let r := request_of (erpnext w) op in
    let (o, s) := serve (backend w) r in
    {| result :=
         match o with
         | Fulfilled body =>
             match get body (returned_field op) with
             | Normal v => Normal v
             | Thrown error => Thrown (failure wording op error)
             end
         | Rejected reason => Thrown (failure wording op (Rejection reason))
         end;
       trace := [Called op; Sent r];
       final := {| erpnext := erpnext w; backend := s |} |}.
Proof.
  intros Hop.
  destruct op as [doctype name | doctype filters fields limit | doctype doc
                 | doctype name doc | reportName filters | ];
    [ | | | | | contradiction]; cbn [perform request_of returned_field].
  - rewrite run_getDocument. cbn zeta.
    destruct (serve (backend w) _) as [[body | reason] s];
      try destruct (get body "data"); f_equal; f_equal;
      apply (rethrown_prefixed ["Failed to get "; doctype; " "; name; ": "]
               (getDocument_call doctype name));
      cbn; now rewrite ?append_empty.
  - rewrite run_getDocList. cbn zeta.
    destruct (serve (backend w) _) as [[body | reason] s];
      try destruct (get body "data"); f_equal; f_equal;
      apply (rethrown_prefixed ["Failed to get "; doctype; " list: "]
               (getDocList_call doctype filters fields limit));
      cbn; now rewrite ?append_empty.
  - unfold createDocument.
    rewrite (run_request (createDocument_call doctype doc) POST _ [] _ "data"
               (fun error => [VStr "Failed to create "; VStr doctype; VStr ": ";
                              message_or_unknown wording error])).
    cbn zeta.
    destruct (serve (backend w) _) as [[body | reason] s];
      try destruct (get body "data"); f_equal; f_equal;
      apply (rethrown_prefixed ["Failed to create "; doctype; ": "]
               (createDocument_call doctype doc));
      cbn; now rewrite ?append_empty.
  - unfold updateDocument.
    rewrite (run_request (updateDocument_call doctype name doc) PUT _ [] _ "data"
               (fun error => [VStr "Failed to update "; VStr doctype; VStr " "; VStr name;
                              VStr ": "; message_or_unknown wording error])).
    cbn zeta.
    destruct (serve (backend w) _) as [[body | reason] s];
      try destruct (get body "data"); f_equal; f_equal;
      apply (rethrown_prefixed ["Failed to update "; doctype; " "; name; ": "]
               (updateDocument_call doctype name doc));
      cbn; now rewrite ?append_empty.
  - unfold runReport.
    rewrite (run_request (runReport_call reportName filters) GET _ _ VUndefined "message"
               (fun error => [VStr "Failed to run report "; VStr reportName; VStr ": ";
                              message_or_unknown wording error])).
    cbn zeta.
    destruct (serve (backend w) _) as [[body | reason] s];
      try destruct (get body "message"); f_equal; f_equal;
      apply (rethrown_prefixed ["Failed to run report "; reportName; ": "]
               (runReport_call reportName filters));
      cbn; now rewrite ?append_empty.
Qed.

Lemma operation_is_getAllDocTypes (op : operation) :
  op = getAllDocTypes_call \/ op <> getAllDocTypes_call.
Proof. destruct op; (now left) || (right; discriminate). Qed.

Lemma methods_trace (op : operation) (w : machine S) :
  op <> getAllDocTypes_call ->
  trace (run serve (perform wording op) w)
  = [Called op; Sent (request_of (erpnext w) op)].
Proof.
  intros Hop. rewrite (run_perform w Hop). cbn zeta.
  now destruct (serve (backend w) _).
Qed.

(** X1.  Whatever the backend answers, a method other than [getAllDocTypes]
    sends exactly one request, the one [request_of] describes, and writes
    nothing to the console: a rejected request is not tried again. *)
Theorem methods_send_one_request :
  forall (op : operation) (w : machine S),
    op <> getAllDocTypes_call ->
    requests (trace (run serve (perform wording op) w)) = [request_of (erpnext w) op]
    /\ calls (trace (run serve (perform wording op) w)) = [op]
    /\ List.length (trace (run serve (perform wording op) w)) = 2%nat.
Proof.
  intros op w Hop. rewrite (methods_trace w Hop). now repeat split.
Qed.

(** X2.  When its request is answered, a method other than [getAllDocTypes]
    returns the [data] field of the body ([message] for [runReport]), which
    is [undefined] when the body has no such field; only a body that is
    [undefined] or [null] makes it throw. *)
Theorem methods_return_the_field :
  forall (op : operation) (w : machine S) (body : value) (s : S),
    op <> getAllDocTypes_call ->
    serve (backend w) (request_of (erpnext w) op) = (Fulfilled body, s) ->
    result (run serve (perform wording op) w)
    = if nullish body
      then Thrown (failure wording op (Runtime (ReadOfNullish body (returned_field op))))
      else Normal (get_opt body (returned_field op)).
Proof.
  intros op w body s Hop Hserve. rewrite (run_perform w Hop). cbn zeta.
  rewrite Hserve. cbn. now destruct body.
Qed.

(** X3.  When its request is rejected, a method other than [getAllDocTypes]
    throws an [Error] whose message is the method's prefix followed by the
    [message] of the rejection, or by "Unknown error" when the rejection has
    no message or an empty one. *)
Theorem methods_wrap_rejections :
  forall (op : operation) (w : machine S) (reason : value) (s : S),
    op <> getAllDocTypes_call ->
    serve (backend w) (request_of (erpnext w) op) = (Rejected reason, s) ->
    (forall m : string,
       get_opt reason "message" = VStr m ->
       result (run serve (perform wording op) w)
       = Thrown (Error (failure_prefix op
                        ++ (if String.eqb m "" then "Unknown error" else m))))
    /\ (nullish (get_opt reason "message") = true ->
        result (run serve (perform wording op) w)
        = Thrown (Error (failure_prefix op ++ "Unknown error"))).
Proof.
  intros op w reason s Hop Hserve. rewrite (run_perform w Hop). cbn zeta.
  rewrite Hserve. cbn [result]. unfold failure, message_or_unknown, or_else.
  cbn [message_of]. split.
  - intros m ->. cbn. now destruct (String.eqb m "").
  - destruct (get_opt reason "message"); try discriminate; reflexivity.
Qed.

Lemma perform_raises (op : operation) :
  raises (fun e => (exists t, e = Error (failure_prefix op ++ t)) \/ e = Runtime NoPrimitive)
    (perform wording op).
Proof.
  assert (Hfailure : forall error,
             (exists t, failure wording op error = Error (failure_prefix op ++ t))
             \/ failure wording op error = Runtime NoPrimitive).
  { intros error. unfold failure.
    destruct (ToString (message_or_unknown wording error)) as [t | e] eqn:E; eauto.
    right. apply (ToString_thrown _ E). }
  intros w e.
  destruct (operation_is_getAllDocTypes op) as [-> | Hop].
  - cbn [perform]. destruct (getAllDocTypes_returns w) as (items & ->). discriminate.
  - rewrite (run_perform w Hop). cbn zeta.
    destruct (serve (backend w) _) as [[body | reason] s]; cbn;
      try destruct (get body (returned_field op)); intros [= <-]; apply Hfailure.
Qed.

(** X4.  A method of the client never lets the rejection of the transport
    (or any other value) through: what it throws is an [Error] whose message
    starts with the method's prefix, or the engine's fault when the message
    to report cannot be converted to a string; and [getAllDocTypes] throws
    nothing. *)
Theorem methods_throw_their_own_errors :
  forall (op : operation) (w : machine S) (e : thrown),
    result (run serve (perform wording op) w) = Thrown e ->
    op <> getAllDocTypes_call
    /\ ((exists t, e = Error (failure_prefix op ++ t)) \/ e = Runtime NoPrimitive).
Proof.
  intros op w e H. split.
  - intros ->. cbn [perform] in H.
    destruct (getAllDocTypes_returns w) as (items & E). congruence.
  - exact (perform_raises op w H).
Qed.

(* ------------------------------------------------------------------ *)
(** ** The tool handlers, one by one *)

(** A program that sends nothing, logs nothing and leaves the state. *)
Definition quiet {A} (m : prog A) : Prop :=
  forall w : machine S, trace (run serve m w) = [] /\ final (run serve m w) = w.

Lemma quiet_Ret {A} (a : A) : quiet (Ret a).
Proof. intros w. now split. Qed.

Lemma quiet_Throw {A} (e : thrown) : quiet (@Throw A e).
Proof. intros w. now split. Qed.

Lemma quiet_lift {A} (x : completion A) : quiet (lift x).
Proof. intros w. rewrite run_lift. now split. Qed.

Lemma quiet_bind {A B} (m : prog A) (f : A -> prog B) :
  quiet m -> (forall a, quiet (f a)) -> quiet (bind m f).
Proof.
  intros Hm Hf w. rewrite run_bind. unfold followed_by.
  destruct (Hm w) as [Ht Hw].
  destruct (result (run serve m w)) as [a | e]; cbn; [ | now split].
  rewrite Ht, Hw. cbn. apply Hf.
Qed.

Lemma quiet_fail (parts : list value) : quiet (fail parts).
Proof. unfold fail. apply quiet_bind; [apply quiet_lift | intros; apply quiet_Ret]. Qed.

Lemma quiet_succeed (t : value) : quiet (succeed t).
Proof. apply quiet_Ret. Qed.

(** [try { v = await m; k v } catch (e) { h e }] with quiet [k] and [h]:
    the trace and the final state are those of [m]. *)
Lemma run_caught {A B} (m : prog A) (k : A -> prog B) (h : thrown -> prog B)
    (w : machine S) :
  (forall a, quiet (k a)) -> (forall e, quiet (h e)) ->
  let called := run serve m w in
  let x := run serve (try_catch (let* v := m in k v) h) w in
  trace x = trace called
  /\ final x = final called
  /\ result x
     = match result called with
       | Normal v =>
           match result (run serve (k v) (final called)) with
           | Normal b => Normal b
           | Thrown e => result (run serve (h e) (final called))
           end
       | Thrown e => result (run serve (h e) (final called))
       end.
Proof.
  intros Hk Hh called x. subst x. rewrite run_try_catch, run_bind. fold called.
  unfold recovered_by, followed_by.
  destruct (result called) as [v | e]; cbn [result trace final].
  - destruct (Hk v (final called)) as [Tk Fk].
    destruct (result (run serve (k v) (final called))) as [b | e] eqn:E;
      cbn [result trace final]; rewrite ?Tk, ?Fk, ?app_nil_r; auto.
    destruct (Hh e (final called)) as [Th Fh].
    rewrite Th, Fh, !app_nil_r. auto.
  - destruct (Hh e (final called)) as [Th Fh]. rewrite Th, Fh, app_nil_r. auto.
Qed.

Lemma shown_message (error : thrown) :
  plain_error error -> message_or_unknown wording error = VStr (shown wording error).
Proof.
  unfold message_or_unknown, or_else, shown.
  destruct error as [m | f | | ]; try contradiction; intros _; cbn.
  - now destruct (String.eqb m "").
  - now destruct (String.eqb (wording f) "").
Qed.

(** What a [catch] block returns that reports a plain error after the
    strings [prefix]. *)
Lemma run_fail_prefixed (prefix : list string) (error : thrown) (w : machine S) :
  plain_error error ->
  run serve (fail (map VStr prefix ++ [message_or_unknown wording error])) w
  = {| result := Normal {| text := VStr (fold_right append (shown wording error) prefix);
                           isError := true |};
       trace := []; final := w |}.
Proof.
  intros H. unfold fail. rewrite run_bind, run_lift, (shown_message error H).
  assert (E : template (map VStr prefix ++ [VStr (shown wording error)])
              = Normal (fold_right append (shown wording error) prefix)).
  { induction prefix as [ | a prefix IH]; cbn.
    - now rewrite append_empty.
    - cbn in IH. now rewrite IH. }
  rewrite E. now rewrite followed_by_pure.
Qed.

Lemma failure_plain (op : operation) (error : thrown) : plain_error (failure wording op error).
Proof.
  unfold failure. destruct (ToString (message_or_unknown wording error)) as [t | e] eqn:E.
  - exact I.
  - now rewrite (ToString_thrown _ E).
Qed.

Lemma run_gate {A} (blocked k : prog A) (w : machine S) :
  authenticated (erpnext w) = true ->
  run serve (let* ok := isAuthenticated in if negb ok then blocked else k) w
  = run serve k w.
Proof.
  intros H. now rewrite run_bind, run_isAuthenticated, followed_by_pure, H.
Qed.

Lemma run_converted {A} (v : value) (s : string) (k : string -> prog A) (w : machine S) :
  ToString v = Normal s ->
  run serve (let* x := lift (ToString v) in k x) w = run serve (k s) w.
Proof. intros H. now rewrite run_bind, run_lift, H, followed_by_pure. Qed.

Lemma pretty_text (v : value) : ToString (JSON_stringify_2 v) = Normal (pretty v).
Proof. unfold JSON_stringify_2, pretty. now destruct (SerializeJSONProperty "  " "" v). Qed.

(** X5.  On an authenticated client, [get_documents] with a [doctype] that
    converts to a non-empty string calls [getDocList] once, handing over
    [filters], [fields] and [limit] as they came; it returns the pretty JSON
    text of what [getDocList] returns, and, when [getDocList] throws, the
    tool result flagged [isError] whose text is "Failed to get {doctype}
    documents: " followed by the message of what was thrown.  It never
    throws. *)
Theorem get_documents_reports_the_list :
  forall (w : machine S) (arguments : value) (doctype : string),
    authenticated (erpnext w) = true ->
    ToString (get_opt arguments "doctype") = Normal doctype ->
    doctype <> "" ->
    let op := getDocList_call doctype (get_opt arguments "filters")
                (get_opt arguments "fields") (get_opt arguments "limit") in
    let called := run serve (perform wording op) w in
    let x := run serve (CallTool wording "get_documents" arguments) w in
    trace x = [Called op; Sent (request_of (erpnext w) op)]
    /\ result x
       = match result called with
         | Normal documents =>
             Normal {| text := JSON_stringify_2 documents; isError := false |}
         | Thrown error =>
             Normal {| text := VStr ("Failed to get " ++ doctype ++ " documents: "
                                     ++ shown wording error);
                       isError := true |}
         end.
Proof.
  intros w arguments doctype Hauth Hdoctype Hne op called x. subst x.
  change (CallTool wording "get_documents" arguments)
    with (get_documents wording arguments).
  unfold get_documents. rewrite (run_gate _ _ w Hauth), (run_converted _ _ w Hdoctype).
  rewrite (nonempty_truthy Hne). cbn [negb].
  assert (Hop : op <> getAllDocTypes_call) by discriminate.
  destruct (run_caught (perform wording op)
              (fun documents => succeed (JSON_stringify_2 documents))
              (fun error => fail [VStr "Failed to get "; VStr doctype; VStr " documents: ";
                                  message_or_unknown wording error]) w)
    as (Htrace & _ & Hresult);
    [intros; apply quiet_succeed | intros; apply quiet_fail | ].
  cbn zeta in Htrace, Hresult. fold called in Htrace, Hresult.
  split.
  - rewrite <- (methods_trace w Hop). exact Htrace.
  - etransitivity; [exact Hresult | ].
    pose proof (perform_raises op w) as Hraises. fold called in Hraises.
    destruct (result called) as [documents | error]; [reflexivity | ].
    change [VStr "Failed to get "; VStr doctype; VStr " documents: ";
            message_or_unknown wording error]
      with (map VStr ["Failed to get "; doctype; " documents: "]
            ++ [message_or_unknown wording error])%list.
    rewrite run_fail_prefixed; [reflexivity | ].
    destruct (Hraises error eq_refl) as [(t & ->) | ->]; exact I.
Qed.

Lemma template_nested (prefix : list string) (v : value) :
  template (map VStr prefix ++ [v])
  = let+ t := ToString v in Normal (fold_right append t prefix).
Proof.
  induction prefix as [ | a prefix IH]; cbn.
  - destruct (ToString v); cbn; [now rewrite append_empty | reflexivity].
  - cbn in IH. rewrite IH. now destruct (ToString v).
Qed.

(** X6.  On an authenticated client, [run_report] with a [report_name] that
    converts to a non-empty string calls [runReport] once, with [filters] as
    they came; it returns the pretty JSON text of the report, and, when
    [runReport] throws, the tool result flagged [isError] whose text is
    "Failed to run report {name}: " followed by the message of what was
    thrown.  It never throws. *)
Theorem run_report_reports_the_report :
  forall (w : machine S) (arguments : value) (reportName : string),
    authenticated (erpnext w) = true ->
    ToString (get_opt arguments "report_name") = Normal reportName ->
    reportName <> "" ->
    let op := runReport_call reportName (get_opt arguments "filters") in
    let called := run serve (perform wording op) w in
    let x := run serve (CallTool wording "run_report" arguments) w in
    trace x = [Called op; Sent (request_of (erpnext w) op)]
    /\ result x
       = match result called with
         | Normal report => Normal {| text := JSON_stringify_2 report; isError := false |}
         | Thrown error =>
             Normal {| text := VStr ("Failed to run report " ++ reportName ++ ": "
                                     ++ shown wording error);
                       isError := true |}
         end.
Proof.
  intros w arguments reportName Hauth Hname Hne op called x. subst x.
  change (CallTool wording "run_report" arguments) with (run_report wording arguments).
  unfold run_report. rewrite (run_gate _ _ w Hauth), (run_converted _ _ w Hname).
  rewrite (nonempty_truthy Hne). cbn [negb].
  assert (Hop : op <> getAllDocTypes_call) by discriminate.
  destruct (run_caught (perform wording op)
              (fun report => succeed (JSON_stringify_2 report))
              (fun error => fail [VStr "Failed to run report "; VStr reportName; VStr ": ";
                                  message_or_unknown wording error]) w)
    as (Htrace & _ & Hresult);
    [intros; apply quiet_succeed | intros; apply quiet_fail | ].
  cbn zeta in Htrace, Hresult. fold called in Htrace, Hresult.
  split.
  - rewrite <- (methods_trace w Hop). exact Htrace.
  - etransitivity; [exact Hresult | ].
    pose proof (perform_raises op w) as Hraises. fold called in Hraises.
    destruct (result called) as [report | error]; [reflexivity | ].
    change [VStr "Failed to run report "; VStr reportName; VStr ": ";
            message_or_unknown wording error]
      with (map VStr ["Failed to run report "; reportName; ": "]
            ++ [message_or_unknown wording error])%list.
    rewrite run_fail_prefixed; [reflexivity | ].
    destruct (Hraises error eq_refl) as [(t & ->) | ->]; exact I.
Qed.

(** X7.  On an authenticated client, [update_document] with a [doctype] and
    a [name] that convert to non-empty strings and a truthy [data] calls
    [updateDocument] once.  Whatever that returns, [undefined] included, the
    handler answers "Updated {doctype} {name}", an empty line and the pretty
    JSON text of it; when [updateDocument] throws, it answers the tool
    result flagged [isError] whose text is "Failed to update {doctype}
    {name}: " followed by the message of what was thrown. *)
Theorem update_document_reports_the_update :
  forall (w : machine S) (arguments : value) (doctype name : string),
    authenticated (erpnext w) = true ->
    ToString (get_opt arguments "doctype") = Normal doctype ->
    ToString (get_opt arguments "name") = Normal name ->
    doctype <> "" -> name <> "" ->
    truthy (get_opt arguments "data") = true ->
    let op := updateDocument_call doctype name (get_opt arguments "data") in
    let called := run serve (perform wording op) w in
    let x := run serve (CallTool wording "update_document" arguments) w in
    trace x = [Called op; Sent (request_of (erpnext w) op)]
    /\ result x
       = match result called with
         | Normal updated =>
             Normal {| text := VStr ("Updated " ++ doctype ++ " " ++ name
                                     ++ newline ++ newline ++ pretty updated);
                       isError := false |}
         | Thrown error =>
             Normal {| text := VStr ("Failed to update " ++ doctype ++ " " ++ name ++ ": "
                                     ++ shown wording error);
                       isError := true |}
         end.
Proof.
  intros w arguments doctype name Hauth Hdoctype Hname Hd Hn Hdata op called x. subst x.
  change (CallTool wording "update_document" arguments)
    with (update_document wording arguments).
  unfold update_document.
  rewrite (run_gate _ _ w Hauth), (run_converted _ _ w Hdoctype),
    (run_converted _ _ w Hname).
  rewrite (nonempty_truthy Hd), (nonempty_truthy Hn), Hdata. cbn [negb orb].
  assert (Hop : op <> getAllDocTypes_call) by discriminate.
  destruct (run_caught (perform wording op)
              (fun updated =>
                 let* t := lift (template [VStr "Updated "; VStr doctype; VStr " ";
                                           VStr name; VStr (newline ++ newline);
                                           JSON_stringify_2 updated]) in
                 succeed (VStr t))
              (fun error => fail [VStr "Failed to update "; VStr doctype; VStr " ";
                                  VStr name; VStr ": ";
                                  message_or_unknown wording error]) w)
    as (Htrace & _ & Hresult);
    [intros; apply quiet_bind; [apply quiet_lift | intros; apply quiet_succeed]
    | intros; apply quiet_fail | ].
  cbn zeta in Htrace, Hresult. fold called in Htrace, Hresult.
  split.
  - rewrite <- (methods_trace w Hop). exact Htrace.
  - etransitivity; [exact Hresult | ].
    pose proof (perform_raises op w) as Hraises. fold called in Hraises.
    destruct (result called) as [updated | error].
    + rewrite run_bind, run_lift.
      change [VStr "Updated "; VStr doctype; VStr " "; VStr name;
              VStr (newline ++ newline); JSON_stringify_2 updated]
        with (map VStr ["Updated "; doctype; " "; name; (newline ++ newline)%string]
              ++ [JSON_stringify_2 updated])%list.
      rewrite template_nested, pretty_text. cbn [cbind]. now rewrite followed_by_pure.
    + change [VStr "Failed to update "; VStr doctype; VStr " "; VStr name; VStr ": ";
              message_or_unknown wording error]
        with (map VStr ["Failed to update "; doctype; " "; name; ": "]
              ++ [message_or_unknown wording error])%list.
      rewrite run_fail_prefixed; [reflexivity | ].
      destruct (Hraises error eq_refl) as [(t & ->) | ->]; exact I.
Qed.

Lemma template_created (a d c nn : string) (name json : value) :
  template [VStr a; VStr d; VStr c; name; VStr nn; json]
  = let+ n := ToString name in
    let+ j := ToString json in
    Normal (a ++ d ++ c ++ n ++ nn ++ j).
Proof.
  cbn. destruct (ToString name) as [n | e]; cbn; [ | reflexivity].
  destruct (ToString json) as [j | e]; cbn; [ | reflexivity].
  now rewrite append_empty.
Qed.

(** X8.  On an authenticated client, [create_document] with a [doctype] that
    converts to a non-empty string and a truthy [data] calls
    [createDocument] once.  When that returns a document, the handler
    answers "Created {doctype}: {name}", an empty line and the pretty JSON
    text of the document, [name] being the document's field converted to a
    string ("undefined" when it has none).  When [createDocument] returns
    [undefined] or [null] (the response had no [data], though the request
    was sent and answered), reading [name] throws and the handler answers
    the tool result flagged [isError], as it does when [createDocument]
    throws: "Failed to create {doctype}: " followed by the message. *)
Theorem create_document_reports_the_document :
  forall (w : machine S) (arguments : value) (doctype : string),
    authenticated (erpnext w) = true ->
    ToString (get_opt arguments "doctype") = Normal doctype ->
    doctype <> "" ->
    truthy (get_opt arguments "data") = true ->
    let op := createDocument_call doctype (get_opt arguments "data") in
    let called := run serve (perform wording op) w in
    let x := run serve (CallTool wording "create_document" arguments) w in
    let failed error :=
      Normal {| text := VStr ("Failed to create " ++ doctype ++ ": " ++ shown wording error);
                isError := true |} in
    trace x = [Called op; Sent (request_of (erpnext w) op)]
    /\ result x
       = match result called with
         | Normal created =>
             if nullish created then failed (Runtime (ReadOfNullish created "name"))
             else
               match ToString (get_opt created "name") with
               | Normal name =>
                   Normal {| text := VStr ("Created " ++ doctype ++ ": " ++ name
                                           ++ newline ++ newline ++ pretty created);
                             isError := false |}
               | Thrown e => failed e
               end
         | Thrown error => failed error
         end.
Proof.
  intros w arguments doctype Hauth Hdoctype Hne Hdata op called x failed. subst x.
  change (CallTool wording "create_document" arguments)
    with (create_document wording arguments).
  unfold create_document. rewrite (run_gate _ _ w Hauth), (run_converted _ _ w Hdoctype).
  rewrite (nonempty_truthy Hne), Hdata. cbn [negb orb].
  assert (Hop : op <> getAllDocTypes_call) by discriminate.
  destruct (run_caught (perform wording op)
              (fun created =>
                 let* name := lift (get created "name") in
                 let* t := lift (template [VStr "Created "; VStr doctype; VStr ": "; name;
                                           VStr (newline ++ newline);
                                           JSON_stringify_2 created]) in
                 succeed (VStr t))
              (fun error => fail [VStr "Failed to create "; VStr doctype; VStr ": ";
                                  message_or_unknown wording error]) w)
    as (Htrace & _ & Hresult);
    [intros; repeat (apply quiet_bind; [apply quiet_lift | intros]); apply quiet_succeed
    | intros; apply quiet_fail | ].
  cbn zeta in Htrace, Hresult. fold called in Htrace, Hresult.
  split; [rewrite <- (methods_trace w Hop); exact Htrace | ].
  etransitivity; [exact Hresult | ].
  pose proof (perform_raises op w) as Hraises. fold called in Hraises.
  assert (Hfailed : forall error w',
             plain_error error ->
             result (run serve (fail [VStr "Failed to create "; VStr doctype; VStr ": ";
                                      message_or_unknown wording error]) w')
             = failed error).
  { intros error w' Hplain.
    change [VStr "Failed to create "; VStr doctype; VStr ": ";
            message_or_unknown wording error]
      with (map VStr ["Failed to create "; doctype; ": "]
            ++ [message_or_unknown wording error])%list.
    now rewrite run_fail_prefixed. }
  destruct (result called) as [created | error].
  - rewrite run_bind, run_lift.
    destruct (nullish created) eqn:Hnull.
    + destruct created; try discriminate; unfold followed_by; cbn [get result];
        now rewrite Hfailed.
    + assert (Hget : get created "name" = Normal (get_opt created "name"))
        by (destruct created; try discriminate; reflexivity).
      rewrite Hget, followed_by_pure.
      rewrite run_bind, run_lift, template_created, pretty_text.
      destruct (ToString (get_opt created "name")) as [name | e] eqn:E; cbn [cbind].
      * rewrite followed_by_pure. unfold newline. reflexivity.
      * unfold followed_by. cbn [result]. rewrite Hfailed; [reflexivity | ].
        now rewrite (ToString_thrown _ E).
  - rewrite Hfailed; [reflexivity | ].
    destruct (Hraises error eq_refl) as [(t & ->) | ->]; exact I.
Qed.

(** X9.  On an authenticated client, [get_doctypes] always answers the
    pretty JSON text of the array [getAllDocTypes] returns, never flagged
    [isError]; its trace is that of [getAllDocTypes]. *)
Theorem get_doctypes_always_answers :
  forall (w : machine S) (arguments : value),
    authenticated (erpnext w) = true ->
    let listing := run serve (getAllDocTypes wording) w in
    let x := run serve (CallTool wording "get_doctypes" arguments) w in
    trace x = trace listing
    /\ exists items,
         result listing = Normal (VArr items)
         /\ result x = Normal {| text := JSON_stringify_2 (VArr items); isError := false |}.
Proof.
  intros w arguments Hauth listing x. subst x.
  change (CallTool wording "get_doctypes" arguments) with (get_doctypes wording).
  unfold get_doctypes. rewrite (run_gate _ _ w Hauth).
  destruct (run_caught (getAllDocTypes wording)
              (fun doctypes => succeed (JSON_stringify_2 doctypes))
              (fun error => fail [VStr "Failed to get DocTypes: ";
                                  message_or_unknown wording error]) w)
    as (Htrace & _ & Hresult);
    [intros; apply quiet_succeed | intros; apply quiet_fail | ].
  cbn zeta in Htrace, Hresult. fold listing in Htrace, Hresult.
  split; [exact Htrace | ].
  destruct (getAllDocTypes_returns w) as (items & Hitems). fold listing in Hitems.
  exists items. split; [exact Hitems | ]. rewrite Hresult, Hitems. reflexivity.
Qed.

(* ------------------------------------------------------------------ *)
(** ** What a tool call can throw *)

Lemma catch_reports {A} (prefix : list string) (m : prog A) (k : A -> prog tool_result) :
  raises plain_error m -> (forall a, raises plain_error (k a)) ->
  raises (fun _ => False)
    (try_catch (let* v := m in k v)
       (fun error => fail (map VStr prefix ++ [message_or_unknown wording error]))).
Proof.
  intros Hm Hk. apply (@raises_try_catch _ _ plain_error).
  - now apply raises_bind.
  - intros error Hplain w e. rewrite (@run_fail_prefixed prefix error w Hplain). discriminate.
Qed.

Lemma perform_raises_plain (op : operation) : raises plain_error (perform wording op).
Proof.
  apply (@raises_weaken _ _ (fun e => (exists t, e = Error (failure_prefix op ++ t))
                                       \/ e = Runtime NoPrimitive)).
  - intros e [(t & ->) | ->]; exact I.
  - apply perform_raises.
Qed.

Lemma lift_raises_plain {A} (x : completion A) :
  (forall e, x = Thrown e -> plain_error e) -> raises plain_error (lift x).
Proof. apply raises_lift. Qed.

Lemma template_raises_plain (parts : list value) : raises plain_error (lift (template parts)).
Proof. apply raises_lift. intros e E. now rewrite (template_thrown _ E). Qed.

Lemma succeed_raises (Q : thrown -> Prop) (t : value) : raises Q (succeed t).
Proof. apply raises_Ret. Qed.

(** The [try] statement of each tool never throws. *)
Lemma get_documents_guarded (doctype : string) (filters fields limit : value) :
  raises (fun _ => False)
    (try_catch
       (let* documents := getDocList wording doctype filters fields limit in
        succeed (JSON_stringify_2 documents))
       (fun error =>
          fail [VStr "Failed to get "; VStr doctype; VStr " documents: ";
                message_or_unknown wording error])).
Proof.
  apply (catch_reports ["Failed to get "; doctype; " documents: "]).
  - apply (perform_raises_plain (getDocList_call doctype filters fields limit)).
  - intros. apply succeed_raises.
Qed.

Lemma create_document_guarded (doctype : string) (data : value) :
  raises (fun _ => False)
    (try_catch
       (let* result := createDocument wording doctype data in
        let* name := lift (get result "name") in
        let* t := lift (template [VStr "Created "; VStr doctype; VStr ": "; name;
                                  VStr (newline ++ newline); JSON_stringify_2 result]) in
        succeed (VStr t))
       (fun error =>
          fail [VStr "Failed to create "; VStr doctype; VStr ": ";
                message_or_unknown wording error])).
Proof.
  apply (catch_reports ["Failed to create "; doctype; ": "]).
  - apply (perform_raises_plain (createDocument_call doctype data)).
  - intros result. apply raises_bind.
    + apply raises_lift. intros e. apply get_thrown.
    + intros name. apply raises_bind; [apply template_raises_plain | ].
      intros. apply succeed_raises.
Qed.

Lemma update_document_guarded (doctype name : string) (data : value) :
  raises (fun _ => False)
    (try_catch
       (let* result := updateDocument wording doctype name data in
        let* t := lift (template [VStr "Updated "; VStr doctype; VStr " "; VStr name;
                                  VStr (newline ++ newline); JSON_stringify_2 result]) in
        succeed (VStr t))
       (fun error =>
          fail [VStr "Failed to update "; VStr doctype; VStr " "; VStr name; VStr ": ";
                message_or_unknown wording error])).
Proof.
  apply (catch_reports ["Failed to update "; doctype; " "; name; ": "]).
  - apply (perform_raises_plain (updateDocument_call doctype name data)).
  - intros result. apply raises_bind; [apply template_raises_plain | ].
    intros. apply succeed_raises.
Qed.

Lemma run_report_guarded (reportName : string) (filters : value) :
  raises (fun _ => False)
    (try_catch
       (let* result := runReport wording reportName filters in
        succeed (JSON_stringify_2 result))
       (fun error =>
          fail [VStr "Failed to run report "; VStr reportName; VStr ": ";
                message_or_unknown wording error])).
Proof.
  apply (catch_reports ["Failed to run report "; reportName; ": "]).
  - apply (perform_raises_plain (runReport_call reportName filters)).
  - intros. apply succeed_raises.
Qed.

Lemma get_doctype_fields_guarded (doctype : string) :
  raises (fun _ => False)
    (try_catch
       (let* documents := getDocList wording doctype (VObj []) (VArr [VStr "*"]) (VNum 1) in
        let* empty :=
          lift (if negb (truthy documents) then Normal true else no_elements documents) in
        if empty then
          fail [VStr "No documents found for "; VStr doctype;
                VStr ". Cannot determine fields."]
        else
          let sampleDoc := member documents "0" in
          let* keys := lift (Object_keys sampleDoc) in
          let* fields := lift (cmap (describe sampleDoc) keys) in
          succeed (JSON_stringify_2 (VArr fields)))
       (fun error =>
          fail [VStr "Failed to get fields for "; VStr doctype; VStr ": ";
                message_or_unknown wording error])).
Proof.
  apply (catch_reports ["Failed to get fields for "; doctype; ": "]).
  - apply (perform_raises_plain
             (getDocList_call doctype (VObj []) (VArr [VStr "*"]) (VNum 1))).
  - intros documents. apply raises_bind.
    + rewrite emptiness. apply raises_lift. discriminate.
    + intros [ | ]; [apply fail_raises | ]. cbn zeta. apply raises_bind.
      * apply raises_lift. intros e.
        destruct (member documents "0"); cbn; try discriminate; now intros [= <-].
      * intros keys. apply raises_bind; [ | intros; apply succeed_raises].
        apply raises_lift. intros e. apply cmap_thrown. intros field e'.
        apply describe_thrown.
Qed.

Lemma get_doctypes_guarded :
  raises (fun _ => False)
    (try_catch
       (let* doctypes := getAllDocTypes wording in succeed (JSON_stringify_2 doctypes))
       (fun error => fail [VStr "Failed to get DocTypes: "; message_or_unknown wording error])).
Proof.
  apply (catch_reports ["Failed to get DocTypes: "]).
  - apply (perform_raises_plain getAllDocTypes_call).
  - intros. apply succeed_raises.
Qed.

Lemma conversion_raises {A} (arguments : value) (k : string) (Q : thrown -> Prop)
    (next : string -> prog A) :
  In k ["doctype"; "name"; "report_name"] ->
  (forall e, conversion_fault arguments e -> Q e) ->
  (forall s, ToString (get_opt arguments k) = Normal s -> raises Q (next s)) ->
  raises Q (let* s := lift (ToString (get_opt arguments k)) in next s).
Proof.
  intros Hk Hq Hnext w e. rewrite run_bind, run_lift.
  destruct (ToString (get_opt arguments k)) as [s | e'] eqn:E.
  - rewrite followed_by_pure. now apply Hnext.
  - unfold followed_by. cbn. intros [= <-]. apply Hq. now exists k.
Qed.

(** An announced tool throws the invalid-params error, or the fault of
    converting a string argument, and nothing else. *)
Lemma announced_raises (name : string) (arguments : value) :
  In name (map fst tools) ->
  raises (fun e => (exists m, e = McpError InvalidParams m) \/ conversion_fault arguments e)
    (CallTool wording name arguments).
Proof.
  intros Hname.
  assert (Hnever : forall m : prog tool_result,
             raises (fun _ => False) m ->
             raises (fun e => (exists m, e = McpError InvalidParams m)
                              \/ conversion_fault arguments e) m).
  { intros m. apply raises_weaken. contradiction. }
  cbn in Hname.
  repeat (destruct Hname as [<- | Hname]); try contradiction;
    match goal with
    | |- raises _ (CallTool _ ?n _) =>
        let h := eval cbv beta iota delta [CallTool String.eqb Ascii.eqb Bool.eqb]
                   in (CallTool wording n arguments) in
        change (CallTool wording n arguments) with h
    end.
  - unfold get_doctypes. apply raises_gate; [apply raises_Ret | ].
    apply Hnever, get_doctypes_guarded.
  - unfold get_doctype_fields. apply raises_gate; [apply raises_Ret | ].
    apply conversion_raises; [cbn; tauto | tauto | ]. intros doctype _.
    destruct (negb (truthy (VStr doctype))); [apply raises_Throw; eauto | ].
    apply Hnever, get_doctype_fields_guarded.
  - unfold get_documents. apply raises_gate; [apply raises_Ret | ].
    apply conversion_raises; [cbn; tauto | tauto | ]. intros doctype _.
    destruct (negb (truthy (VStr doctype))); [apply raises_Throw; eauto | ].
    apply Hnever, get_documents_guarded.
  - unfold create_document. apply raises_gate; [apply raises_Ret | ].
    apply conversion_raises; [cbn; tauto | tauto | ]. intros doctype _.
    destruct (negb (truthy (VStr doctype)) || negb (truthy (get_opt arguments "data")));
      [apply raises_Throw; eauto | ].
    apply Hnever, create_document_guarded.
  - unfold update_document. apply raises_gate; [apply raises_Ret | ].
    apply conversion_raises; [cbn; tauto | tauto | ]. intros doctype _.
    apply conversion_raises; [cbn; tauto | tauto | ]. intros name _.
    destruct (negb (truthy (VStr doctype)) || negb (truthy (VStr name))
              || negb (truthy (get_opt arguments "data")));
      [apply raises_Throw; eauto | ].
    apply Hnever, update_document_guarded.
  - unfold run_report. apply raises_gate; [apply raises_Ret | ].
    apply conversion_raises; [cbn; tauto | tauto | ]. intros reportName _.
    destruct (negb (truthy (VStr reportName))); [apply raises_Throw; eauto | ].
    apply Hnever, run_report_guarded.
Qed.

Lemma announced_or_not (name : string) :
  In name (map fst tools) \/ ~ In name (map fst tools).
Proof.
  cbn.
  destruct (String.eqb_spec "get_doctypes" name); [tauto | ].
  destruct (String.eqb_spec "get_doctype_fields" name); [tauto | ].
  destruct (String.eqb_spec "get_documents" name); [tauto | ].
  destruct (String.eqb_spec "create_document" name); [tauto | ].
  destruct (String.eqb_spec "update_document" name); [tauto | ].
  destruct (String.eqb_spec "run_report" name); tauto.
Qed.

Lemma run_unknown_tool (name : string) (arguments : value) (w : machine S) :
  ~ In name (map fst tools) ->
  run serve (CallTool wording name arguments) w
  = {| result := Thrown (McpError MethodNotFound ("Unknown tool: " ++ name));
       trace := []; final := w |}.
Proof.
  intros H. cbn in H. unfold CallTool.
  repeat match goal with
         | |- context [String.eqb name ?lit] =>
             destruct (String.eqb_spec name lit) as [-> | _]; [exfalso; tauto | ]
         end.
  rewrite run_bind, run_lift, template_two, followed_by_pure. reflexivity.
Qed.

(** X10.  Whatever the arguments, the client and the backend, a tool call
    throws nothing but: the invalid-params error; the method-not-found
    error, for a name that is not announced; or the fault of converting one
    of its string arguments (an object with an own [toString] entry).  No
    failure of the backend or of reading its answer is thrown. *)
Theorem tool_calls_throw_protocol_errors_only :
  forall (name : string) (arguments : value) (w : machine S) (e : thrown),
    result (run serve (CallTool wording name arguments) w) = Thrown e ->
    (exists m, e = McpError InvalidParams m)
    \/ (e = McpError MethodNotFound ("Unknown tool: " ++ name)
        /\ ~ In name (map fst tools))
    \/ (e = Runtime NoPrimitive /\ conversion_fault arguments e).
Proof.
  intros name arguments w e H.
  destruct (announced_or_not name) as [Hin | Hout].
  - destruct (announced_raises arguments Hin w H) as [Hparams | Hfault]; [now left | ].
    right. right. split; [ | exact Hfault].
    destruct Hfault as (k & _ & E). apply (ToString_thrown _ E).
  - rewrite (run_unknown_tool arguments w Hout) in H. injection H as <-.
    right. left. now split.
Qed.

(** X11.  The tools [ListTools] announces are exactly the names [CallTool]
    handles: a call answers "method not found" if and only if its name is
    not announced, and then it does so whether or not the client is
    authenticated, before anything else happens. *)
Theorem announced_tools_are_the_handled_ones :
  forall (name : string) (arguments : value) (w : machine S),
    ((exists m, result (run serve (CallTool wording name arguments) w)
                = Thrown (McpError MethodNotFound m))
     <-> ~ In name (map fst tools))
    /\ (~ In name (map fst tools) ->
        run serve (CallTool wording name arguments) w
        = {| result := Thrown (McpError MethodNotFound ("Unknown tool: " ++ name));
             trace := []; final := w |}).
Proof.
  intros name arguments w. split; [split | ].
  - intros (m & H) Hin.
    destruct (announced_raises arguments Hin w H) as [(m' & Heq) | (k & _ & E)].
    + congruence.
    + pose proof (ToString_thrown _ E). discriminate.
  - intros Hout. rewrite (run_unknown_tool arguments w Hout). eexists. reflexivity.
  - apply run_unknown_tool.
Qed.

Lemma Number_toString_not_empty (n : Z) : Number_toString n <> "".
Proof.
  unfold Number_toString.
  destruct n as [ | p | p]; cbn; try discriminate;
    destruct (Pos.to_uint p); discriminate.
Qed.

Lemma ToString_empty (v : value) :
  ToString v = Normal "" -> v = VStr "" \/ exists items, v = VArr items.
Proof.
  destruct v as [ | | [ | ] | n | s | items | props]; cbn; try discriminate.
  - intros [= H]. now destruct (Number_toString_not_empty n H).
  - intros [= ->]. now left.
  - eauto.
  - destruct (has_own "toString" props); discriminate.
Qed.

(** X12.  On an authenticated client, [get_documents] throws "Doctype is
    required", before any call, if and only if its [doctype] argument
    converts to the empty string; and a value that is not an array converts
    to the empty string only if it is the empty string itself.  So a
    missing [doctype], [null], a number, a boolean or an object all pass the
    check. *)
Theorem doctype_check_fires_on_the_empty_string :
  forall (w : machine S) (arguments : value),
    authenticated (erpnext w) = true ->
    (run serve (CallTool wording "get_documents" arguments) w
     = {| result := Thrown (McpError InvalidParams "Doctype is required");
          trace := []; final := w |}
     <-> ToString (get_opt arguments "doctype") = Normal "")
    /\ (ToString (get_opt arguments "doctype") = Normal "" ->
        get_opt arguments "doctype" = VStr ""
        \/ exists items, get_opt arguments "doctype" = VArr items).
Proof.
  intros w arguments Hauth. split; [ | apply ToString_empty].
  change (CallTool wording "get_documents" arguments)
    with (get_documents wording arguments).
  unfold get_documents. rewrite (run_gate _ _ w Hauth), run_bind, run_lift.
  destruct (ToString (get_opt arguments "doctype")) as [doctype | e] eqn:E.
  - rewrite followed_by_pure.
    destruct (String.eqb_spec doctype "") as [-> | Hne].
    + cbn. tauto.
    + rewrite (nonempty_truthy Hne). cbn [negb]. split.
      * intros H. exfalso.
        apply (get_documents_guarded doctype (get_opt arguments "filters")
                 (get_opt arguments "fields") (get_opt arguments "limit") w
                 (e := McpError InvalidParams "Doctype is required")).
        now rewrite H.
      * intros [= H]. contradiction.
  - unfold followed_by. cbn. split; [ | discriminate].
    intros [= H]. pose proof (ToString_thrown _ E). congruence.
Qed.

Lemma describe_returned (sampleDoc : value) (field : string) (y : value) :
  describe sampleDoc field = Normal y ->
  exists s, ToString (member sampleDoc field) = Normal s.
Proof.
  unfold describe, sample_of.
  destruct (member sampleDoc field) as [ | | b | n | s | items | props] eqn:E;
    try (intros _; eexists; reflexivity).
  - destruct b; intros _; eexists; reflexivity.
  - unfold toString_method.
    destruct (ToString (VArr items)) as [s | e]; [eauto | discriminate].
  - unfold toString_method. cbn [ToString].
    destruct (has_own "toString" props); [discriminate | eauto].
Qed.

Lemma describe_all_returned (sampleDoc : value) (keys : list string) (fields : list value) :
  cmap (describe sampleDoc) keys = Normal fields ->
  Forall (fun field => exists s, ToString (member sampleDoc field) = Normal s) keys.
Proof.
  revert fields. induction keys as [ | field keys IH]; intros fields; [constructor | ].
  cbn [cmap]. destruct (describe sampleDoc field) as [y | e] eqn:E; [ | discriminate].
  cbn [cbind]. destruct (cmap (describe sampleDoc) keys) as [ys | e]; [ | discriminate].
  intros _. constructor; [exact (describe_returned _ _ E) | now apply (IH ys)].
Qed.

(** C8, as amended.  On an authenticated client, a [get_doctype_fields] call
    whose [doctype] argument converts to a non-empty string [doctype] calls
    [getDocList(doctype, {}, ["*"], 1)] and nothing else, and returns a tool
    result whatever comes back: it does not throw.  When [getDocList]
    returns no documents, the result is flagged [isError: true] and its text
    is "No documents found for {doctype}. Cannot determine fields.".
    Otherwise the first document decides:
    when it is [undefined] or [null], and when one of its fields does not
    convert to a string, the result is flagged [isError: true] and its text
    is "Failed to get fields for {doctype}: " followed by the message of the
    error;
    when it is anything else and each of its fields converts to a string,
    the result is the JSON text of the list holding, for each own key in
    order, the [descriptor] of that field: its name, the [typeof] of its
    value, and the first 50 code units of the value as a string ([null] for
    [undefined], [null] and the empty string). *)
Theorem get_doctype_fields_describes_first_document :
  forall (w : machine S) (arguments : value) (doctype : string),
    authenticated (erpnext w) = true ->
    ToString (get_opt arguments "doctype") = Normal doctype ->
    doctype <> "" ->
    let x := run serve (CallTool wording "get_doctype_fields" arguments) w in
    let listing :=
      run serve (getDocList wording doctype (VObj []) (VArr [VStr "*"]) (VNum 1)) w in
    let failed error :=
      Normal {| text := VStr ("Failed to get fields for " ++ doctype ++ ": "
                              ++ shown wording error);
                isError := true |} in
    trace x = trace listing
    /\ calls (trace x) = [getDocList_call doctype (VObj []) (VArr [VStr "*"]) (VNum 1)]
    /\ (exists r, result x = Normal r)
    /\ forall documents : value,
         result listing = Normal documents ->
         (no_documents documents = true ->
          result x
          = Normal {| text := VStr ("No documents found for " ++ doctype
                                    ++ ". Cannot determine fields.");
                      isError := true |})
         /\ (no_documents documents = false ->
             let sampleDoc := member documents "0" in
             let keys := map fst (own_properties sampleDoc) in
             let convertible field :=
               exists s, ToString (member sampleDoc field) = Normal s in
             (nullish sampleDoc = true -> result x = failed (Runtime KeysOfNullish))
             /\ (nullish sampleDoc = false ->
                 Forall convertible keys ->
                 result x
                 = Normal {| text := JSON_stringify_2
                                       (VArr (map (fun field =>
                                                     descriptor field (member sampleDoc field))
                                                keys));
                             isError := false |})
             /\ (nullish sampleDoc = false ->
                 ~ Forall convertible keys ->
                 exists error, plain_error error /\ result x = failed error)).
Proof.
  intros w arguments doctype Hauth Hdoctype Hnonempty x listing failed.
  assert (Hx : x = recovered_by
                 (followed_by listing
                    (fun documents =>
                       run serve
                         (let* empty :=
                            lift (if negb (truthy documents) then Normal true
                                  else no_elements documents) in
                          if empty then
                            fail [VStr "No documents found for "; VStr doctype;
                                  VStr ". Cannot determine fields."]
                          else
                            let sampleDoc := member documents "0" in
                            let* keys := lift (Object_keys sampleDoc) in
                            let* fields := lift (cmap (describe sampleDoc) keys) in
                            succeed (JSON_stringify_2 (VArr fields)))))
                 (fun error =>
                    run serve
                      (fail [VStr "Failed to get fields for "; VStr doctype; VStr ": ";
                             message_or_unknown wording error]))).
  { subst x listing.
    change (CallTool wording "get_doctype_fields" arguments)
      with (get_doctype_fields wording arguments).
    unfold get_doctype_fields.
    rewrite run_bind, run_isAuthenticated, followed_by_pure, Hauth. cbn [negb].
    rewrite run_bind, run_lift, Hdoctype, followed_by_pure.
    rewrite (nonempty_truthy Hnonempty). cbn [negb].
    now rewrite run_try_catch, run_bind. }
  assert (Hlisting : trace listing
                     = [Called (getDocList_call doctype (VObj []) (VArr [VStr "*"]) (VNum 1));
                        Sent (list_request (erpnext w) doctype (VObj []) (VArr [VStr "*"])
                                (VNum 1))]).
  { subst listing. rewrite run_getDocList. cbn zeta. now destruct (serve (backend w) _). }
  assert (Hfail : forall parts (w' : machine S),
             trace (run serve (fail parts) w') = []).
  { intros parts w'. unfold fail. rewrite run_bind, run_lift. unfold followed_by. cbn.
    now destruct (template parts). }
  assert (Hfailed : forall error w',
             plain_error error ->
             result (run serve (fail [VStr "Failed to get fields for "; VStr doctype;
                                      VStr ": "; message_or_unknown wording error]) w')
             = failed error).
  { intros error w' Hplain.
    change [VStr "Failed to get fields for "; VStr doctype; VStr ": ";
            message_or_unknown wording error]
      with (map VStr ["Failed to get fields for "; doctype; ": "]
            ++ [message_or_unknown wording error])%list.
    now rewrite run_fail_prefixed. }
  assert (Htrace : trace x = trace listing).
  { rewrite Hx. unfold recovered_by, followed_by.
    destruct (result listing) as [documents | error]; cbn [result trace final].
    - rewrite run_bind, run_lift, emptiness. unfold followed_by. cbn [result trace final app].
      destruct (no_documents documents).
      + unfold fail. rewrite run_bind, run_lift. cbn.
        now rewrite app_nil_r.
      + cbn zeta. rewrite run_bind, run_lift. unfold followed_by. cbn [result trace final app].
        destruct (Object_keys (member documents "0")) as [keys | e];
          cbn [result trace final app].
        * rewrite run_bind, run_lift. unfold followed_by. cbn [result trace final app].
          destruct (cmap (describe (member documents "0")) keys);
            cbn [result trace final app run succeed];
            rewrite ?Hfail, ?app_nil_r; reflexivity.
        * now rewrite Hfail, !app_nil_r.
    - now rewrite Hfail, app_nil_r. }
  split; [exact Htrace | split; [now rewrite Htrace, Hlisting | split]].
  { destruct (result x) as [r | e] eqn:E; [eauto | exfalso].
    subst x.
    change (CallTool wording "get_doctype_fields" arguments)
      with (get_doctype_fields wording arguments) in E.
    unfold get_doctype_fields in E.
    rewrite (run_gate _ _ w Hauth), (run_converted _ _ w Hdoctype) in E.
    rewrite (nonempty_truthy Hnonempty) in E.
    exact (get_doctype_fields_guarded doctype w E). }
  intros documents Hdocs. rewrite Hx. unfold recovered_by, followed_by. rewrite Hdocs.
  rewrite run_bind, run_lift, emptiness. unfold followed_by. cbn [result trace final app].
  split.
  - intros ->. reflexivity.
  - intros ->. cbn zeta.
    set (sampleDoc := member documents "0").
    set (keys := map fst (own_properties sampleDoc)).
    rewrite run_bind, run_lift. unfold followed_by.
    split; [ | split].
    + intros Hnull.
      assert (Hkeys : Object_keys sampleDoc = Thrown (Runtime KeysOfNullish))
        by (destruct sampleDoc; try discriminate; reflexivity).
      rewrite Hkeys. cbn [result final trace]. now apply Hfailed.
    + intros Hsome Hfields.
      assert (Hkeys : Object_keys sampleDoc = Normal keys)
        by (destruct sampleDoc; try discriminate; reflexivity).
      rewrite Hkeys. cbn [result trace final app].
      rewrite run_bind, run_lift, (describe_all _ Hfields). reflexivity.
    + intros Hsome Hfields.
      assert (Hkeys : Object_keys sampleDoc = Normal keys)
        by (destruct sampleDoc; try discriminate; reflexivity).
      rewrite Hkeys. cbn [result trace final app].
      rewrite run_bind, run_lift.
      destruct (cmap (describe sampleDoc) keys) as [fields | error] eqn:C.
      * exfalso. apply Hfields. exact (describe_all_returned _ _ C).
      * assert (Hplain : plain_error error).
        { revert C. apply cmap_thrown. intros field e'. apply describe_thrown. }
        exists error. split; [exact Hplain | ].
        unfold followed_by. cbn [result final trace]. now apply Hfailed.
Qed.

(** X13.  On an authenticated client, [get_doctype_fields] with a [doctype]
    that converts to a non-empty string never throws.  When [getDocList]
    throws, and when it returns documents of which the first is [undefined]
    or [null] (a list starting with [null], or [data] that is no list at
    all), it answers the tool result flagged [isError] whose text is
    "Failed to get fields for {doctype}: " followed by the message. *)
Theorem get_doctype_fields_reports_failures :
  forall (w : machine S) (arguments : value) (doctype : string),
    authenticated (erpnext w) = true ->
    ToString (get_opt arguments "doctype") = Normal doctype ->
    doctype <> "" ->
    let op := getDocList_call doctype (VObj []) (VArr [VStr "*"]) (VNum 1) in
    let called := run serve (perform wording op) w in
    let x := run serve (CallTool wording "get_doctype_fields" arguments) w in
    let failed error :=
      Normal {| text := VStr ("Failed to get fields for " ++ doctype ++ ": "
                              ++ shown wording error);
                isError := true |} in
    (exists r, result x = Normal r)
    /\ (forall error, result called = Thrown error -> result x = failed error)
    /\ (forall documents,
          result called = Normal documents ->
          no_documents documents = false ->
          nullish (member documents "0") = true ->
          result x = failed (Runtime KeysOfNullish)).
Proof.
  intros w arguments doctype Hauth Hdoctype Hne op called x failed.
  assert (Hx : x = run serve
                 (try_catch
                    (let* documents := perform wording op in
                     let* empty :=
                       lift (if negb (truthy documents) then Normal true
                             else no_elements documents) in
                     if empty then
                       fail [VStr "No documents found for "; VStr doctype;
                             VStr ". Cannot determine fields."]
                     else
                       let sampleDoc := member documents "0" in
                       let* keys := lift (Object_keys sampleDoc) in
                       let* fields := lift (cmap (describe sampleDoc) keys) in
                       succeed (JSON_stringify_2 (VArr fields)))
                    (fun error =>
                       fail [VStr "Failed to get fields for "; VStr doctype; VStr ": ";
                             message_or_unknown wording error])) w).
  { subst x.
    change (CallTool wording "get_doctype_fields" arguments)
      with (get_doctype_fields wording arguments).
    unfold get_doctype_fields.
    rewrite (run_gate _ _ w Hauth), (run_converted _ _ w Hdoctype).
    now rewrite (nonempty_truthy Hne). }
  assert (Hfailed : forall error w',
             plain_error error ->
             result (run serve (fail [VStr "Failed to get fields for "; VStr doctype;
                                      VStr ": "; message_or_unknown wording error]) w')
             = failed error).
  { intros error w' Hplain.
    change [VStr "Failed to get fields for "; VStr doctype; VStr ": ";
            message_or_unknown wording error]
      with (map VStr ["Failed to get fields for "; doctype; ": "]
            ++ [message_or_unknown wording error])%list.
    now rewrite run_fail_prefixed. }
  split; [ | split].
  - destruct (result x) as [r | e] eqn:E; [eauto | exfalso].
    rewrite Hx in E. exact (get_doctype_fields_guarded doctype w E).
  - intros error Hcalled. rewrite Hx, run_try_catch, run_bind. fold called.
    unfold recovered_by, followed_by. rewrite Hcalled. cbn [result final].
    apply Hfailed. pose proof (perform_raises_plain op w Hcalled). assumption.
  - intros documents Hcalled Hsome Hnull.
    rewrite Hx, run_try_catch, run_bind. fold called.
    unfold followed_by at 1. rewrite Hcalled.
    rewrite run_bind, run_lift, emptiness, Hsome, followed_by_pure. cbn zeta.
    rewrite run_bind, run_lift.
    assert (Hkeys : Object_keys (member documents "0") = Thrown (Runtime KeysOfNullish))
      by (destruct (member documents "0"); try discriminate; reflexivity).
    rewrite Hkeys. unfold followed_by, recovered_by. cbn [result final trace].
    now apply Hfailed.
Qed.

Lemma toString_method_value (site : string) (v : value) (s : string) :
  toString_method site v = Normal s -> ToString v = Normal s.
Proof.
  unfold toString_method.
  destruct v as [ | | b | n | t | items | props]; try discriminate; try easy.
  cbn. now destruct (has_own "toString" props).
Qed.

(** X14.  The sample of a field is [null], or a non-empty string of at most
    50 code units cut from the start of the field's value as a string: the
    whole of it when that has at most 50 code units, and otherwise a
    beginning of it, but for the last code unit when the cut falls inside a
    surrogate pair, of which the first half is kept. *)
Theorem samples_are_short :
  forall (v sample : value),
    sample_of v = Normal sample ->
    sample = VNull
    \/ exists s t,
         sample = VStr s /\ s <> "" /\ ToString v = Normal t
         /\ List.length (code_units s) <= 50
         /\ (List.length (code_units t) <= 50 -> s = t)
         /\ ((exists rest, t = s ++ rest)
             \/ (exists p ch rest,
                   wide ch = true /\ t = p ++ ch ++ rest /\ s = p ++ high ch)).
Proof.
  intros v sample. unfold sample_of.
  assert (Hgeneral :
            (let+ s := toString_method "sampleDoc[field]?.toString" v in
             Normal (or_else (VStr (substring_to 50 s)) VNull)) = Normal sample ->
            sample = VNull
            \/ exists s t,
                 sample = VStr s /\ s <> "" /\ ToString v = Normal t
                 /\ List.length (code_units s) <= 50
                 /\ (List.length (code_units t) <= 50 -> s = t)
                 /\ ((exists rest, t = s ++ rest)
                     \/ (exists p ch rest,
                           wide ch = true /\ t = p ++ ch ++ rest /\ s = p ++ high ch))).
  { destruct (toString_method "sampleDoc[field]?.toString" v) as [str | e] eqn:E;
      cbn [cbind]; [ | discriminate].
    unfold or_else. cbn [truthy].
    destruct (String.eqb_spec (substring_to 50 str) "") as [Hempty | Hsome]; cbn [negb].
    - intros [= <-]. now left.
    - intros [= <-]. right. exists (substring_to 50 str), str.
      split; [reflexivity | split; [exact Hsome | ]].
      split; [exact (toString_method_value _ _ E) | ].
      split; [apply substring_to_count | ].
      split; [intros H; now apply substring_to_all | apply substring_to_start]. }
  destruct v; try exact Hgeneral; intros [= <-]; now left.
Qed.

Lemma run_converted_uri {A} (g s : string) (k : string -> prog A) (w : machine S) :
  decodeURIComponent g = Normal s ->
  run serve (let* x := lift (decodeURIComponent g) in k x) w = run serve (k s) w.
Proof. intros H. now rewrite run_bind, run_lift, H, followed_by_pure. Qed.

(* ------------------------------------------------------------------ *)
(** ** Reading a document *)

Lemma decode_escape_free (s : string) :
  has_percent s = false -> decode Outside s = Some s.
Proof.
  induction s as [ | c s IH]; cbn; [reflexivity | ].
  intros H. apply orb_false_iff in H. destruct H as [-> H]. now rewrite (IH H).
Qed.

Lemma decode_dangling (s : string) (st : decoding) : decode st (s ++ "%") = None.
Proof.
  revert st.
  assert (Hhex : hex_value "%" = None) by reflexivity.
  induction s as [ | c s IH]; intros st.
  - destruct st; cbn; rewrite ?Hhex; reflexivity.
  - cbn [append decode]. destruct st as [ | octets more | octets more hi | octets more].
    + destruct (Ascii.eqb c "%"); rewrite IH; reflexivity.
    + destruct (hex_value c); [apply IH | reflexivity].
    + destruct (hex_value c) as [lo | ]; [ | reflexivity].
      cbv zeta. destruct octets as [ | o octets].
      * destruct (sequence_length (16 * hi + lo)) as [[ | [ | n]] | ];
          rewrite ?IH; reflexivity.
      * destruct more as [ | [ | more]]; try apply IH.
        destruct (well_formed _); [rewrite IH | ]; reflexivity.
    + destruct (Ascii.eqb c "%"); [apply IH | reflexivity].
Qed.

Lemma decodeURIComponent_thrown (s : string) (e : thrown) :
  decodeURIComponent s = Thrown e -> e = Runtime MalformedURI.
Proof.
  unfold decodeURIComponent. destruct (decode Outside s); [discriminate | ].
  now intros [= <-].
Qed.

(** The run of the handler on a document URI whose two groups decode. *)
Lemma run_ReadResource_document (w : machine S) (uri group1 group2 d n : string) :
  authenticated (erpnext w) = true ->
  match_document uri = Some (group1, group2) ->
  decodeURIComponent group1 = Normal d ->
  decodeURIComponent group2 = Normal n ->
  let fetch := run serve (perform wording (getDocument_call d n)) w in
  let x := run serve (ReadResource wording uri) w in
  trace x = trace fetch
  /\ result x
     = match result fetch with
       | Normal document =>
           if truthy document
           then Normal {| uri := uri; mimeType := "application/json";
                          resource_text := JSON_stringify_2 document |}
           else Thrown (McpError InvalidRequest ("Invalid ERPNext resource URI: " ++ uri))
       | Thrown error =>
           Thrown (McpError InvalidRequest
                     ("Failed to fetch " ++ d ++ " " ++ n ++ ": " ++ shown wording error))
       end.
Proof.
  intros Hauth Hmatch Hd Hn fetch x. subst x.
  unfold ReadResource. rewrite (run_gate _ _ w Hauth).
  rewrite (match_document_DocTypes _ Hmatch), Hmatch.
  rewrite run_bind, (run_converted_uri _ _ w Hd), (run_converted_uri _ _ w Hn).
  rewrite run_try_catch.
  change (getDocument wording d n) with (perform wording (getDocument_call d n)).
  fold fetch.
  pose proof (perform_raises_plain (getDocument_call d n) w) as Hplain. fold fetch in Hplain.
  unfold recovered_by, followed_by.
  destruct (result fetch) as [document | error] eqn:Hresult.
  - rewrite Hresult. destruct (truthy document); cbn [negb].
    + cbn. now rewrite app_nil_r.
    + rewrite run_bind, run_lift, template_two, followed_by_pure. cbn.
      now rewrite app_nil_r.
  - cbn [result trace final]. rewrite run_bind, run_lift.
    change [VStr "Failed to fetch "; VStr d; VStr " "; VStr n; VStr ": ";
            message_or_unknown wording error]
      with (map VStr ["Failed to fetch "; d; " "; n; ": "]
            ++ [message_or_unknown wording error])%list.
    rewrite template_nested, (shown_message error (Hplain error eq_refl)).
    cbn [ToString cbind]. rewrite followed_by_pure. cbn. now rewrite app_nil_r.
Qed.

(** X15.  On an authenticated client, when [getDocument] throws while a
    document URI is read, the handler throws the invalid-request error whose
    message is "Failed to fetch {doctype} {name}: " followed by the message
    of what [getDocument] threw, which itself begins "Failed to get
    {doctype} {name}: "; the one request of [getDocument] was sent. *)
Theorem failed_reads_are_invalid_requests :
  forall (w : machine S) (uri group1 group2 d n : string) (error : thrown),
    authenticated (erpnext w) = true ->
    match_document uri = Some (group1, group2) ->
    decodeURIComponent group1 = Normal d ->
    decodeURIComponent group2 = Normal n ->
    result (run serve (perform wording (getDocument_call d n)) w) = Thrown error ->
    let x := run serve (ReadResource wording uri) w in
    result x
    = Thrown (McpError InvalidRequest
                ("Failed to fetch " ++ d ++ " " ++ n ++ ": " ++ shown wording error))
    /\ calls (trace x) = [getDocument_call d n]
    /\ ((exists t, shown wording error = "Failed to get " ++ d ++ " " ++ n ++ ": " ++ t)
        \/ error = Runtime NoPrimitive).
Proof.
  intros w uri group1 group2 d n error Hauth Hmatch Hd Hn Herror x.
  destruct (run_ReadResource_document w uri Hauth Hmatch Hd Hn) as [Htrace Hresult].
  fold x in Htrace, Hresult. rewrite Herror in Hresult.
  split; [exact Hresult | split].
  - rewrite Htrace, methods_trace by discriminate. reflexivity.
  - destruct (perform_raises (getDocument_call d n) w Herror) as [(t & ->) | ->];
      [left | now right].
    exists t. cbn. repeat (rewrite append_assoc; cbn). reflexivity.
Qed.

(** X16.  On an authenticated client, a URI [erpnext://{doctype}/{name}]
    without any percent sign is dispatched as it is written: the handler
    calls [getDocument(doctype, name)], and nothing else. *)
Theorem plain_uris_are_dispatched_as_written :
  forall (w : machine S) (doctype name : string),
    authenticated (erpnext w) = true ->
    doctype <> "" -> has_slash doctype = false -> has_percent doctype = false ->
    name <> "" -> has_line_terminator name = false -> has_percent name = false ->
    let x := run serve (ReadResource wording ("erpnext://" ++ doctype ++ "/" ++ name)) w in
    calls (trace x) = [getDocument_call doctype name]
    /\ requests (trace x)
       = [{| via := axiosInstance (erpnext w); method := GET;
             url := "/api/resource/" ++ doctype ++ "/" ++ name;
             params := []; data := VUndefined |}].
Proof.
  intros w doctype name Hauth Hd Hs Hpd Hn Hl Hpn x.
  assert (Hmatch : match_document ("erpnext://" ++ doctype ++ "/" ++ name)
                   = Some (doctype, name))
    by (apply match_document_spec; auto).
  assert (Hdd : decodeURIComponent doctype = Normal doctype)
    by (unfold decodeURIComponent; now rewrite decode_escape_free).
  assert (Hdn : decodeURIComponent name = Normal name)
    by (unfold decodeURIComponent; now rewrite decode_escape_free).
  destruct (run_ReadResource_document w _ Hauth Hmatch Hdd Hdn) as [Htrace _].
  fold x in Htrace. rewrite Htrace, methods_trace by discriminate. now split.
Qed.

(** X17.  On an authenticated client, a document URI that ends in a percent
    sign is never dispatched: decoding throws the [URIError], which the
    handler lets through, and no request is sent. *)
Theorem dangling_percent_is_a_URI_error :
  forall (w : machine S) (uri group1 group2 t : string),
    authenticated (erpnext w) = true ->
    match_document uri = Some (group1, group2) ->
    group2 = t ++ "%" ->
    run serve (ReadResource wording uri) w
    = {| result := Thrown (Runtime MalformedURI); trace := []; final := w |}.
Proof.
  intros w uri group1 group2 t Hauth Hmatch ->.
  unfold ReadResource. rewrite (run_gate _ _ w Hauth).
  rewrite (match_document_DocTypes _ Hmatch), Hmatch.
  rewrite run_bind, run_bind, run_lift.
  destruct (decodeURIComponent group1) as [d | e] eqn:Hd.
  - rewrite followed_by_pure, run_bind, run_lift.
    unfold decodeURIComponent at 1. rewrite decode_dangling. reflexivity.
  - rewrite (decodeURIComponent_thrown _ Hd). reflexivity.
Qed.

(** X18.  The pattern of the handler matches exactly the URIs
    [erpnext://{doctype}/{name}] in which [doctype] is not empty and holds
    no slash and [name] is not empty and holds no line terminator; the groups
    are then [doctype] and [name], so the first slash after the scheme is
    where the URI is cut, and [erpnext://DocTypes] is not such a URI. *)
Theorem document_uris_are_cut_at_the_first_slash :
  forall uri doctype name : string,
    (match_document uri = Some (doctype, name)
     <-> uri = "erpnext://" ++ doctype ++ "/" ++ name
         /\ doctype <> "" /\ has_slash doctype = false
         /\ name <> "" /\ has_line_terminator name = false)
    /\ match_document "erpnext://DocTypes" = None.
Proof.
  intros uri doctype name. split; [apply match_document_spec | reflexivity].
Qed.

(* ------------------------------------------------------------------ *)
(** ** The requests of the handlers *)

Ltac sends_step :=
  first
    [ apply sends_lift
    | apply sends_bind
    | apply sends_try_catch
    | apply sends_Ret | apply sends_Throw
    | apply sends_This; cbv beta
    | apply sends_ConsoleError | apply sends_Enter
    | apply sends_Await; [repeat split | ]
    | intro
    | match goal with
      | |- sends _ _ (match ?x with _ => _ end) => destruct x
      end ].

Lemma perform_sends (c : ERPNextClient) (op : operation) :
  sends (fits match op with
              | createDocument_call _ _ => POST
              | updateDocument_call _ _ _ => PUT
              | _ => GET
              end c) c (perform wording op).
Proof.
  destruct op; cbn [perform];
    unfold getDocument, getDocList, createDocument, updateDocument, runReport,
      getAllDocTypes, primary_listing, alternate_listing, throw_Error, axios;
    repeat sends_step.
Qed.

Lemma CallTool_sends (c : ERPNextClient) (name : string) (arguments : value) :
  sends (fits (verb_of name) c) c (CallTool wording name arguments).
Proof.
  pose proof (perform_sends c) as P.
  pose proof (P getAllDocTypes_call) as Pall. cbn [perform] in Pall.
  unfold CallTool.
  repeat match goal with
         | |- sends _ _ (if String.eqb name ?lit then _ else _) =>
             destruct (String.eqb_spec name lit) as [-> | ?]
         end;
    unfold get_documents, create_document, update_document, run_report,
      get_doctype_fields, get_doctypes, refuse, succeed, fail, isAuthenticated;
    repeat sends_step;
    match goal with
    | |- sends _ _ (getDocList _ ?d ?f ?g ?l) => apply (P (getDocList_call d f g l))
    | |- sends _ _ (createDocument _ ?d ?x) => apply (P (createDocument_call d x))
    | |- sends _ _ (updateDocument _ ?d ?n ?x) => apply (P (updateDocument_call d n x))
    | |- sends _ _ (runReport _ ?n ?f) => apply (P (runReport_call n f))
    | |- sends _ _ (getAllDocTypes _) => exact Pall
    end.
Qed.

Lemma ReadResource_sends (c : ERPNextClient) (uri : string) :
  sends (fits GET c) c (ReadResource wording uri).
Proof.
  pose proof (perform_sends c getAllDocTypes_call) as Pall. cbn [perform] in Pall.
  pose proof (fun d n => perform_sends c (getDocument_call d n)) as Pdoc.
  cbn [perform] in Pdoc.
  unfold ReadResource, isAuthenticated. repeat sends_step; auto.
Qed.

(** X19.  Every request a handler sends goes through the client's instance
    (so with its base URL and its headers), to a path under [/api/]; the
    requests of [create_document] are POSTs, those of [update_document] are
    PUTs, and every other tool, like every resource read, sends GETs only.
    No handler changes the client. *)
Theorem handlers_send_through_the_client :
  forall (w : machine S) (name uri : string) (arguments : value) (r : request),
    (In r (requests (trace (run serve (CallTool wording name arguments) w))) ->
     via r = axiosInstance (erpnext w)
     /\ prefix "/api/" (url r) = true
     /\ method r = verb_of name)
    /\ (In r (requests (trace (run serve (ReadResource wording uri) w))) ->
        via r = axiosInstance (erpnext w)
        /\ prefix "/api/" (url r) = true
        /\ method r = GET).
Proof.
  intros w name uri arguments r. split; intros H.
  - destruct (sends_run (CallTool_sends (erpnext w) name arguments) w eq_refl) as [Hall _].
    rewrite Forall_forall in Hall. exact (Hall r H).
  - destruct (sends_run (ReadResource_sends (erpnext w) uri) w eq_refl) as [Hall _].
    rewrite Forall_forall in Hall. exact (Hall r H).
Qed.

(* ------------------------------------------------------------------ *)
(** ** The constructor *)

(** X20.  Without [ERPNEXT_URL], or with an empty one, the constructor
    throws "ERPNEXT_URL environment variable is required" before anything is
    sent, whatever the credentials, and leaves the client unauthenticated. *)
Theorem constructor_needs_a_url :
  forall (env : string -> option string) (s : S),
    env "ERPNEXT_URL" = None \/ env "ERPNEXT_URL" = Some "" ->
    let born := run serve (constructor env) {| erpnext := fresh; backend := s |} in
    result born = Thrown (Error "ERPNEXT_URL environment variable is required")
    /\ trace born = []
    /\ authenticated (erpnext (final born)) = false.
Proof.
  intros env s H born. subst born. unfold constructor.
  destruct H as [-> | ->]; cbn; auto.
Qed.

Lemma strip_trailing_slash_cases (u : string) :
  (ends_with_slash u = true -> strip_trailing_slash u ++ "/" = u)
  /\ (ends_with_slash u = false -> strip_trailing_slash u = u).
Proof.
  induction u as [ | c u [IH1 IH2]]; cbn; [split; [discriminate | reflexivity] | ].
  destruct u as [ | d u].
  - cbn. unfold is_slash. destruct (Ascii.eqb_spec c "/") as [-> | Hc]; cbn;
      split; try discriminate; reflexivity.
  - change (String.eqb (String d u) "") with false. rewrite andb_false_r.
    split; intros H; cbn [append]; f_equal; auto.
Qed.

Lemma constructor_trace (env : string -> option string) (w : machine S) :
  trace (run serve (constructor env) w) = [].
Proof.
  unfold constructor. cbn [run trace logging erpnext backend].
  match goal with
  | |- context [if ?b then Throw _ else _] => destruct b
  end; [reflexivity | ].
  cbn [run trace logging erpnext backend].
  destruct (truthy (of_env (env "ERPNEXT_API_KEY"))
            && truthy (of_env (env "ERPNEXT_API_SECRET"))); [ | reflexivity].
  rewrite run_bind, run_lift.
  destruct (template _) as [token | e]; reflexivity.
Qed.

(** X21.  With a non-empty [ERPNEXT_URL] the constructor returns, having
    sent nothing, and the URL it stores (in [baseUrl] and as the [baseURL]
    of the instance) is the given one when that does not end in a slash, and
    the given one less its last slash when it does: one slash at most is
    dropped, and none anywhere else. *)
Theorem stored_url_drops_one_slash_at_most :
  forall (env : string -> option string) (u : string) (s : S),
    env "ERPNEXT_URL" = Some u ->
    u <> "" ->
    let born := run serve (constructor env) {| erpnext := fresh; backend := s |} in
    let stored := baseUrl (erpnext (final born)) in
    result born = Normal tt
    /\ trace born = []
    /\ baseURL (axiosInstance (erpnext (final born))) = stored
    /\ (ends_with_slash u = false -> stored = u)
    /\ (ends_with_slash u = true -> stored ++ "/" = u).
Proof.
  intros env u s Hurl Hne born stored.
  destruct (constructed env s Hurl Hne) as (Hresult & Hbase & Hinstance).
  fold born in Hresult, Hbase, Hinstance.
  destruct (strip_trailing_slash_cases u) as [Hslash Hnone].
  subst stored. rewrite Hbase.
  split; [exact Hresult | split; [ | split; [exact Hinstance | split; assumption]]].
  apply constructor_trace.
Qed.

Lemma constructor_headers (env : string -> option string) (s : S) :
  let born := run serve (constructor env) {| erpnext := fresh; backend := s |} in
  result born = Normal tt ->
  headers (axiosInstance (erpnext (final born))) = (json_headers ++ authorization env)%list
  /\ withCredentials (axiosInstance (erpnext (final born))) = true.
Proof.
  intros born. subst born. unfold constructor, authorization. cbn.
  match goal with
  | |- context [if ?b then Throw _ else _] => destruct b
  end; [discriminate | ].
  cbn. intros _.
  destruct (env "ERPNEXT_API_KEY") as [key | ]; cbn; [ | now split].
  destruct (negb (key =? "")); cbn; [ | destruct (env "ERPNEXT_API_SECRET"); now split].
  destruct (env "ERPNEXT_API_SECRET") as [secret | ]; cbn; [ | now split].
  destruct (negb (secret =? "")); cbn; [ | now split].
  rewrite append_empty. now split.
Qed.

(** X22.  The instance the constructor builds has [withCredentials] set and
    carries the two JSON headers, followed by
    [Authorization: token <key>:<secret>] exactly when both credentials are
    set and not empty; [authenticated] is true exactly when that header is
    there; and every request a tool call or a resource read sends afterwards
    goes out with these headers. *)
Theorem credentials_travel_with_every_request :
  forall (env : string -> option string) (s : S),
    let born := run serve (constructor env) {| erpnext := fresh; backend := s |} in
    let client := erpnext (final born) in
    result born = Normal tt ->
    headers (axiosInstance client) = (json_headers ++ authorization env)%list
    /\ withCredentials (axiosInstance client) = true
    /\ (authenticated client = true
        <-> exists token, authorization env = [("Authorization", token)])
    /\ (forall (name uri : string) (arguments : value) (s' : S) (r : request),
          In r (requests (trace (run serve (CallTool wording name arguments)
                                   {| erpnext := client; backend := s' |})))
          \/ In r (requests (trace (run serve (ReadResource wording uri)
                                      {| erpnext := client; backend := s' |}))) ->
          headers (via r) = (json_headers ++ authorization env)%list
          /\ withCredentials (via r) = true).
Proof.
  intros env s born client Hborn.
  destruct (constructor_headers env s Hborn) as [Hheaders Hcredentials].
  fold born in Hheaders, Hcredentials. fold client in Hheaders, Hcredentials.
  split; [exact Hheaders | split; [exact Hcredentials | split]].
  - subst client born. revert Hborn.
    unfold constructor, authorization. cbn.
    match goal with
    | |- context [if ?b then Throw _ else _] => destruct b
    end; [discriminate | ].
    cbn. intros _.
    destruct (env "ERPNEXT_API_KEY") as [key | ]; cbn;
      [ | split; [discriminate | intros [? ?]; discriminate]].
    destruct (negb (key =? "")); cbn;
      [ | destruct (env "ERPNEXT_API_SECRET");
          (split; [discriminate | intros [? ?]; discriminate])].
    destruct (env "ERPNEXT_API_SECRET") as [secret | ]; cbn;
      [ | split; [discriminate | intros [? ?]; discriminate]].
    destruct (negb (secret =? "")); cbn;
      [ | split; [discriminate | intros [? ?]; discriminate]].
    split; [intros _; eexists; reflexivity | reflexivity].
  - intros name uri arguments s' r [H | H].
    + destruct (sends_run (CallTool_sends client name arguments)
                  {| erpnext := client; backend := s' |} eq_refl) as [Hall _].
      rewrite Forall_forall in Hall. destruct (Hall r H) as (Hvia & _).
      rewrite Hvia. now split.
    + destruct (sends_run (ReadResource_sends client uri)
                  {| erpnext := client; backend := s' |} eq_refl) as [Hall _].
      rewrite Forall_forall in Hall. destruct (Hall r H) as (Hvia & _).
      rewrite Hvia. now split.
Qed.

(* ------------------------------------------------------------------ *)
(** ** What [getAllDocTypes] logs, and the listing handlers *)

(** X23.  [getAllDocTypes] writes to [console.error] once for each tier
    that fails, right after the request of that tier and before anything
    else is sent: "Failed to get DocTypes:" and then "Alternative DocType
    fetch failed:", each with the message of what was caught, or "Unknown
    error" when that has no truthy [message].  A tier that returns logs
    nothing, and nothing follows it. *)
Theorem getAllDocTypes_logs_each_failure :
  forall w : machine S,
    let first := run serve primary_listing w in
    let second := run serve alternate_listing (final first) in
    trace (run serve (getAllDocTypes wording) w)
    = Called getAllDocTypes_call
      :: Sent (primary_request (erpnext w))
      :: match result first with
         | Normal _ => []
         | Thrown error =>
             Logged [VStr "Failed to get DocTypes:"; message_or_unknown wording error]
             :: Sent (alternate_request (erpnext w))
             :: match result second with
                | Normal _ => []
                | Thrown altError =>
                    [Logged [VStr "Alternative DocType fetch failed:";
                             message_or_unknown wording altError]]
                end
         end
    /\ (forall reason : value,
          truthy (get_opt reason "message") = false ->
          message_or_unknown wording (Rejection reason) = VStr "Unknown error")
    /\ (forall reason : value,
          truthy (get_opt reason "message") = true ->
          message_or_unknown wording (Rejection reason) = get_opt reason "message").
Proof.
  intros w first second. split; [ | split].
  - rewrite run_getAllDocTypes. cbn zeta. fold first. fold second.
    assert (Hfirst : trace first = [Sent (primary_request (erpnext w))]
                     /\ erpnext (final first) = erpnext w).
    { subst first. rewrite run_primary_listing.
      destruct (serve (backend w) _) as [o s]. now split. }
    destruct Hfirst as [Hfirst Hclient].
    assert (Hsecond : trace second = [Sent (alternate_request (erpnext w))]).
    { subst second. rewrite run_alternate_listing, Hclient.
      now destruct (serve (backend (final first)) _) as [o s]. }
    destruct (result first) as [v | error]; cbn [trace]; rewrite Hfirst;
      [reflexivity | ].
    destruct (result second) as [v | altError]; cbn [trace]; rewrite Hsecond;
      reflexivity.
  - intros reason H. unfold message_or_unknown, message_of, or_else. now rewrite H.
  - intros reason H. unfold message_or_unknown, message_of, or_else. now rewrite H.
Qed.

(** X24.  The two listing handlers check nothing and send nothing: they
    answer the same on every process, authenticated or not.  What
    [ListResources] lists can be read: on an authenticated process the read
    of a listed URI returns contents under that URI and the listed MIME
    type, whatever the backend answers; on a process without credentials the
    same read is refused as an invalid request, although the resource was
    listed. *)
Theorem listed_resources_are_readable :
  forall w : machine S,
    exists (resources : list resource) (templates : list resource_template),
      run serve ListResources w
      = {| result := Normal resources; trace := []; final := w |}
      /\ run serve ListResourceTemplates w
         = {| result := Normal templates; trace := []; final := w |}
      /\ resources <> []
      /\ forall listed : resource,
           In listed resources ->
           let x := run serve (ReadResource wording (resource_uri listed)) w in
           if authenticated (erpnext w)
           then exists t, result x = Normal {| uri := resource_uri listed;
                                               mimeType := resource_mimeType listed;
                                               resource_text := t |}
           else x = {| result := Thrown (McpError InvalidRequest not_authenticated);
                       trace := []; final := w |}.
Proof.
  intros w. do 2 eexists.
  split; [reflexivity | split; [reflexivity | split; [discriminate | ]]].
  intros listed [<- | []]. cbn [resource_uri resource_mimeType].
  destruct (authenticated (erpnext w)) eqn:Hauth.
  - unfold ReadResource. rewrite (run_gate _ _ w Hauth).
    cbn [String.eqb Ascii.eqb Bool.eqb]. rewrite run_bind. unfold followed_by.
    rewrite run_try_catch. unfold recovered_by.
    rewrite run_bind. unfold followed_by.
    destruct (getAllDocTypes_returns w) as (items & E).
    destruct (run serve (getAllDocTypes wording) w) as [r t f]. cbn in E. subst r.
    cbn. eauto.
  - unfold ReadResource. rewrite run_bind, run_isAuthenticated, followed_by_pure, Hauth.
    destruct w. reflexivity.
Qed.

End Properties.

(* ================================================================== *)
(** * The statements at work on the bench *)

Lemma missing_doctype_reaches_the_backend_witness :
  authenticated (erpnext up) = true
  /\ get_opt (VObj []) "doctype" = VUndefined
  /\ calls (trace (run unreachable (CallTool node_wording "get_documents" (VObj [])) up))
     = [getDocList_call "undefined" VUndefined VUndefined VUndefined].
Proof.
  split; [reflexivity | split; [reflexivity | ]].
  destruct (missing_doctype_reaches_the_backend node_wording unreachable up (VObj [])
              eq_refl eq_refl) as (Htrace & _ & _).
  rewrite Htrace. reflexivity.
Defined.

(** The same coercion lets the other tools through: each call below lacks a
    required string and still reaches the client. *)
Example missing_strings_on_the_bench :
  calls (trace (run unreachable (CallTool node_wording "get_doctype_fields" VUndefined) up))
  = [getDocList_call "undefined" (VObj []) (VArr [VStr "*"]) (VNum 1)]
  /\ calls (trace (run unreachable
                     (CallTool node_wording "create_document"
                        (VObj [("data", VObj [])])) up))
     = [createDocument_call "undefined" (VObj [])]
  /\ calls (trace (run unreachable
                     (CallTool node_wording "update_document"
                        (VObj [("doctype", VStr "Item"); ("data", VObj [])])) up))
     = [updateDocument_call "Item" "undefined" (VObj [])]
  /\ calls (trace (run unreachable (CallTool node_wording "run_report" (VObj [])) up))
     = [runReport_call "undefined" VUndefined].
Proof. repeat split. Qed.

Lemma unauthenticated_requests_are_refused_witness :
  authenticated (erpnext locked) = false
  /\ In "create_document" (map fst tools)
  /\ run unreachable
       (CallTool node_wording "create_document" (VObj [("doctype", VStr "Customer")])) locked
     = {| result := Normal {| text := VStr not_authenticated; isError := true |};
          trace := []; final := locked |}
  /\ run unreachable (ReadResource node_wording "erpnext://Item/ITEM-001") locked
     = {| result := Thrown (McpError InvalidRequest not_authenticated);
          trace := []; final := locked |}.
Proof.
  assert (Hname : In "create_document" (map fst tools))
    by (simpl; do 3 right; left; reflexivity).
  split; [reflexivity | split; [exact Hname | ]].
  exact (unauthenticated_requests_are_refused node_wording unreachable locked
           (VObj [("doctype", VStr "Customer")]) "erpnext://Item/ITEM-001" eq_refl Hname).
Defined.

(** C3 as stated fails: the listing [numbered] makes [getAllDocTypes]
    return an array holding the number 5. *)
Lemma getAllDocTypes_may_return_a_number :
  exists items,
    result (run (answering numbered) (getAllDocTypes node_wording) up) = Normal (VArr items)
    /\ forallb is_string items = false.
Proof. exists [VNum 5%Z]. split; reflexivity. Qed.

(** C4 as stated fails: [erpnext://Item/%] matches the pattern, yet the
    handler neither calls [getDocument] nor throws the "Invalid ERPNext
    resource URI" error; the malformed escape makes [decodeURIComponent]
    throw, and the handler lets that through. *)
Lemma malformed_escape_is_not_dispatched :
  match_document "erpnext://Item/%" = Some ("Item", "%")
  /\ run (answering one_item) (ReadResource node_wording "erpnext://Item/%") up
     = {| result := Thrown (Runtime MalformedURI); trace := []; final := up |}.
Proof. split; reflexivity. Qed.

Lemma resource_reads_dispatch_on_the_uri_witness :
  authenticated (erpnext up) = true
  /\ match_document "erpnext://Item/%" = Some ("Item", "%")
  /\ decodeURIComponent "%" = Thrown (Runtime MalformedURI)
  /\ run (answering one_item) (ReadResource node_wording "erpnext://Item/%") up
     = {| result := Thrown (Runtime MalformedURI); trace := []; final := up |}
  /\ decodeURIComponent "ITEM%2D001" = Normal "ITEM-001"
  /\ calls (trace (run (answering one_item)
                     (ReadResource node_wording "erpnext://Item/ITEM%2D001") up))
     = [getDocument_call "Item" "ITEM-001"].
Proof.
  destruct (resource_reads_dispatch_on_the_uri node_wording (answering one_item) up eq_refl)
    as (_ & Hdocument & _ & Hmalformed).
  split; [reflexivity | split; [reflexivity | split; [reflexivity | split]]].
  - exact (proj1 (Hmalformed "erpnext://Item/%" "Item" "%" eq_refl
                    (or_intror (ex_intro _ (Runtime MalformedURI) eq_refl)))).
  - split; [reflexivity | ].
    assert (Hitem : "Item" <> "") by discriminate.
    assert (Hname : "ITEM%2D001" <> "") by discriminate.
    destruct (Hdocument "Item" "ITEM%2D001" "Item" "ITEM-001"
                Hitem eq_refl Hname eq_refl eq_refl eq_refl) as (_ & Hcalls & _).
    exact Hcalls.
Defined.

(** C6 as stated fails: with [ERPNEXT_URL] ending in a slash, reading
    [erpnext://Item//x] (doctype [Item], name [/x]) makes the client request
    a path with a doubled slash. *)
Lemma doubled_slash_in_a_request_path :
  with_credentials "ERPNEXT_URL" = Some "http://erp.test/"
  /\ exists r,
       requests (trace (run unreachable (ReadResource node_wording "erpnext://Item//x") up))
       = [r]
       /\ url r = "/api/resource/Item//x"
       /\ doubled_slash (url r) = true.
Proof. split; [reflexivity | ]. eexists. split; [reflexivity | split; reflexivity]. Qed.

Lemma trailing_slash_is_stripped_once_witness :
  with_credentials "ERPNEXT_URL" = Some ("http://erp.test" ++ "/")
  /\ baseUrl (erpnext up) = "http://erp.test"
  /\ baseURL (axiosInstance (erpnext up)) = "http://erp.test"
  /\ (forall r : request,
        In r (requests (trace (run unreachable
                                 (perform node_wording
                                    (getDocument_call "Sales Order" "SO/0001")) up))) ->
        doubled_slash (url r) = false)
  /\ (forall r : request,
        In r (requests (trace (run unreachable
                                 (perform node_wording (getDocument_call "Item" "/x")) up))) ->
        doubled_slash (url r) = true).
Proof.
  split; [reflexivity | ].
  destruct (trailing_slash_is_stripped_once node_wording unreachable with_credentials
              "http://erp.test" tt eq_refl) as (_ & Hstored & Hinstance & Hrequests).
  split; [exact Hstored | split; [exact Hinstance | split]]; intros r H.
  - exact (proj2 (proj2 (Hrequests (getDocument_call "Sales Order" "SO/0001") tt r H))).
  - exact (proj2 (proj2 (Hrequests (getDocument_call "Item" "/x") tt r H))).
Defined.

Lemma authenticated_is_fixed_at_construction_witness :
  result (run unreachable (constructor with_credentials) {| erpnext := fresh; backend := tt |})
  = Normal tt
  /\ (authenticated (erpnext up) = true
      <-> present with_credentials "ERPNEXT_API_KEY"
          /\ present with_credentials "ERPNEXT_API_SECRET")
  /\ forall (op : operation) (w : machine unit),
       erpnext (final (run unreachable (perform node_wording op) w)) = erpnext w.
Proof.
  split; [reflexivity | ].
  destruct (authenticated_is_fixed_at_construction node_wording unreachable
              with_credentials tt eq_refl) as (Hflag & _ & Hop & _).
  split; assumption.
Defined.

(** A variable set to the empty string counts as absent, for the key as for
    the URL. *)
Example empty_key_is_absent :
  let env := env_of [("ERPNEXT_URL", "http://erp.test"); ("ERPNEXT_API_KEY", "");
                     ("ERPNEXT_API_SECRET", "secret")] in
  authenticated (erpnext (started unreachable env tt)) = false
  /\ result (run unreachable (constructor (env_of [("ERPNEXT_URL", "")]))
               {| erpnext := fresh; backend := tt |})
     = Thrown (Error "ERPNEXT_URL environment variable is required").
Proof. split; reflexivity. Qed.

Lemma get_doctype_fields_describes_first_document_witness :
  let arguments := VObj [("doctype", VStr "Item")] in
  let body := VObj [("data", VArr [VObj [("name", VStr (times 30 e_acute));
                                         ("qty", VNum 3); ("note", VNull)]])] in
  authenticated (erpnext up) = true
  /\ ToString (get_opt arguments "doctype") = Normal "Item"
  /\ "Item" <> ""
  /\ calls (trace (run (answering body) (CallTool node_wording "get_doctype_fields" arguments)
                     up))
     = [getDocList_call "Item" (VObj []) (VArr [VStr "*"]) (VNum 1)]
  /\ result (run (answering body) (CallTool node_wording "get_doctype_fields" arguments) up)
     = Normal {| text :=
                   JSON_stringify_2
                     (VArr [VObj [("fieldname", VStr "name"); ("value", VStr "string");
                                  ("sample", VStr (times 30 e_acute))];
                            VObj [("fieldname", VStr "qty"); ("value", VStr "number");
                                  ("sample", VStr "3")];
                            VObj [("fieldname", VStr "note"); ("value", VStr "object");
                                  ("sample", VNull)]]);
                 isError := false |}.
Proof.
  intros arguments body.
  assert (Hne : "Item" <> "") by discriminate.
  split; [reflexivity | split; [reflexivity | split; [exact Hne | ]]].
  destruct (get_doctype_fields_describes_first_document node_wording (answering body) up
              arguments eq_refl eq_refl Hne) as (_ & Hcalls & _ & Hdocuments).
  split; [exact Hcalls | ].
  destruct (Hdocuments (get_opt body "data") eq_refl) as (_ & Hsome).
  destruct (Hsome eq_refl) as (_ & Hfields & _).
  refine (Hfields eq_refl _).
  repeat constructor; eexists; reflexivity.
Defined.

(** C8 as stated fails: a listing whose first entry is [null] is not empty,
    and the handler returns no descriptors for it. *)
Lemma a_null_first_document_is_not_described :
  let arguments := VObj [("doctype", VStr "Item")] in
  let body := VObj [("data", VArr [VNull])] in
  result (run (answering body)
            (getDocList node_wording "Item" (VObj []) (VArr [VStr "*"]) (VNum 1)) up)
  = Normal (VArr [VNull])
  /\ no_documents (VArr [VNull]) = false
  /\ result (run (answering body) (CallTool node_wording "get_doctype_fields" arguments) up)
     = Normal {| text := VStr "Failed to get fields for Item: Cannot convert undefined or null to object";
                 isError := true |}.
Proof. split; [reflexivity | split; reflexivity]. Qed.

Lemma listing_without_data_is_empty_witness :
  answering (VObj []) (backend up) (primary_request (erpnext up)) = (Fulfilled (VObj []), tt)
  /\ truthy (get_opt (VObj []) "data") = false
  /\ run (answering (VObj [])) (getAllDocTypes node_wording) up
     = {| result := Normal (VArr []);
          trace := [Called getAllDocTypes_call; Sent (primary_request (erpnext up))];
          final := {| erpnext := erpnext up; backend := tt |} |}.
Proof.
  split; [reflexivity | split; [reflexivity | ]].
  exact (proj1 (@listing_without_data_is_empty node_wording _ (answering (VObj [])) up
                  (Fulfilled (VObj [])) tt eq_refl)
           (VObj []) eq_refl eq_refl).
Defined.

Lemma reading_DocTypes_always_succeeds_witness :
  authenticated (erpnext up) = true
  /\ exists items,
       result (run unreachable (ReadResource node_wording "erpnext://DocTypes") up)
       = Normal {| uri := "erpnext://DocTypes"; mimeType := "application/json";
                   resource_text := JSON_stringify_2 (VObj [("doctypes", VArr items)]) |}.
Proof.
  split; [reflexivity | ].
  exact (proj1 (reading_DocTypes_always_succeeds node_wording unreachable up eq_refl)).
Defined.

Lemma getAllDocTypes_degrades_in_order_witness :
  result (run unreachable (getAllDocTypes node_wording) up)
  = Normal (VArr (map VStr common_doctypes))
  /\ requests (trace (run unreachable (getAllDocTypes node_wording) up))
     = [primary_request (erpnext up); alternate_request (erpnext up)].
Proof.
  destruct (getAllDocTypes_degrades_in_order node_wording unreachable up)
    as (_ & _ & (Hrequests & Hresult) & _).
  split; assumption.
Defined.

(** C9 as stated fails: what throws in the first [try] body need not be
    the request.  Here the listing request is answered, with a body whose
    [data] is the number 5; reading it throws, and the alternate request is
    sent. *)
Example fallback_after_an_answered_request :
  fst (answering (VObj [("data", VNum 5)]) (backend up) (primary_request (erpnext up)))
  = Fulfilled (VObj [("data", VNum 5)])
  /\ requests (trace (run (answering (VObj [("data", VNum 5)]))
                        (getAllDocTypes node_wording) up))
     = [primary_request (erpnext up); alternate_request (erpnext up)].
Proof. split; reflexivity. Qed.

(* ------------------------------------------------------------------ *)
(** ** The client's methods on the bench *)

Lemma methods_send_one_request_witness :
  getDocument_call "Item" "ITEM-001" <> getAllDocTypes_call
  /\ requests (trace (run unreachable
                        (perform node_wording (getDocument_call "Item" "ITEM-001")) up))
     = [{| via := axiosInstance (erpnext up); method := GET;
           url := "/api/resource/Item/ITEM-001"; params := []; data := VUndefined |}].
Proof.
  assert (H : getDocument_call "Item" "ITEM-001" <> getAllDocTypes_call) by discriminate.
  split; [exact H | ].
  exact (proj1 (@methods_send_one_request node_wording _ unreachable
                  (getDocument_call "Item" "ITEM-001") up H)).
Defined.

Lemma methods_return_the_field_witness :
  getDocument_call "Item" "ITEM-001" <> getAllDocTypes_call
  /\ answering (VObj [("data", one_item)]) (backend up)
       (request_of (erpnext up) (getDocument_call "Item" "ITEM-001"))
     = (Fulfilled (VObj [("data", one_item)]), tt)
  /\ result (run (answering (VObj [("data", one_item)]))
               (perform node_wording (getDocument_call "Item" "ITEM-001")) up)
     = Normal one_item.
Proof.
  assert (H : getDocument_call "Item" "ITEM-001" <> getAllDocTypes_call) by discriminate.
  split; [exact H | split; [reflexivity | ]].
  exact (@methods_return_the_field node_wording _ (answering (VObj [("data", one_item)]))
           (getDocument_call "Item" "ITEM-001") up (VObj [("data", one_item)]) tt
           H eq_refl).
Defined.

Lemma methods_wrap_rejections_witness :
  runReport_call "Stock Balance" VUndefined <> getAllDocTypes_call
  /\ unreachable (backend up)
       (request_of (erpnext up) (runReport_call "Stock Balance" VUndefined))
     = (Rejected (VObj [("message", VStr "connect ECONNREFUSED")]), tt)
  /\ result (run unreachable
               (perform node_wording (runReport_call "Stock Balance" VUndefined)) up)
     = Thrown (Error "Failed to run report Stock Balance: connect ECONNREFUSED").
Proof.
  assert (H : runReport_call "Stock Balance" VUndefined <> getAllDocTypes_call)
    by discriminate.
  split; [exact H | split; [reflexivity | ]].
  exact (proj1 (@methods_wrap_rejections node_wording _ unreachable
                  (runReport_call "Stock Balance" VUndefined) up
                  (VObj [("message", VStr "connect ECONNREFUSED")]) tt H eq_refl)
           "connect ECONNREFUSED" eq_refl).
Defined.

Lemma methods_throw_their_own_errors_witness :
  result (run (rejecting VNull)
            (perform node_wording (createDocument_call "Item" (VObj []))) up)
  = Thrown (Error "Failed to create Item: Unknown error")
  /\ exists t, Error "Failed to create Item: Unknown error"
               = Error (failure_prefix (createDocument_call "Item" (VObj [])) ++ t).
Proof.
  split; [reflexivity | ].
  destruct (@methods_throw_their_own_errors node_wording _ (rejecting VNull)
              (createDocument_call "Item" (VObj [])) up
              (Error "Failed to create Item: Unknown error") eq_refl)
    as (_ & [Hprefixed | Hfault]); [exact Hprefixed | discriminate Hfault].
Defined.

(* ------------------------------------------------------------------ *)
(** ** The tools on the bench *)

Lemma get_documents_reports_the_list_witness :
  authenticated (erpnext up) = true
  /\ ToString (get_opt (VObj [("doctype", VStr "Item"); ("limit", VNum 5)]) "doctype")
     = Normal "Item"
  /\ "Item" <> ""
  /\ result (run unreachable
               (CallTool node_wording "get_documents"
                  (VObj [("doctype", VStr "Item"); ("limit", VNum 5)])) up)
     = Normal {| text := VStr "Failed to get Item documents: Failed to get Item list: connect ECONNREFUSED";
                 isError := true |}.
Proof.
  assert (Hne : "Item" <> "") by discriminate.
  split; [reflexivity | split; [reflexivity | split; [exact Hne | ]]].
  exact (proj2 (@get_documents_reports_the_list node_wording _ unreachable up
                  (VObj [("doctype", VStr "Item"); ("limit", VNum 5)]) "Item"
                  eq_refl eq_refl Hne)).
Defined.

Lemma run_report_reports_the_report_witness :
  authenticated (erpnext up) = true
  /\ ToString (get_opt (VObj [("report_name", VStr "Stock Balance")]) "report_name")
     = Normal "Stock Balance"
  /\ "Stock Balance" <> ""
  /\ result (run (answering (VObj [("message", VArr [])]))
               (CallTool node_wording "run_report"
                  (VObj [("report_name", VStr "Stock Balance")])) up)
     = Normal {| text := VStr "[]"; isError := false |}.
Proof.
  assert (Hne : "Stock Balance" <> "") by discriminate.
  split; [reflexivity | split; [reflexivity | split; [exact Hne | ]]].
  exact (proj2 (@run_report_reports_the_report node_wording _
                  (answering (VObj [("message", VArr [])])) up
                  (VObj [("report_name", VStr "Stock Balance")]) "Stock Balance"
                  eq_refl eq_refl Hne)).
Defined.

Lemma update_document_reports_the_update_witness :
  let arguments := VObj [("doctype", VStr "Item"); ("name", VStr "ITEM-001");
                         ("data", VObj [("qty", VNum 4)])] in
  authenticated (erpnext up) = true
  /\ ToString (get_opt arguments "doctype") = Normal "Item"
  /\ ToString (get_opt arguments "name") = Normal "ITEM-001"
  /\ "Item" <> "" /\ "ITEM-001" <> ""
  /\ truthy (get_opt arguments "data") = true
  /\ result (run (answering (VObj [])) (CallTool node_wording "update_document" arguments) up)
     = Normal {| text := VStr ("Updated Item ITEM-001" ++ newline ++ newline ++ "undefined");
                 isError := false |}.
Proof.
  intros arguments.
  assert (Hdoctype : "Item" <> "") by discriminate.
  assert (Hname : "ITEM-001" <> "") by discriminate.
  split; [reflexivity | split; [reflexivity | split; [reflexivity | ]]].
  split; [exact Hdoctype | split; [exact Hname | split; [reflexivity | ]]].
  exact (proj2 (@update_document_reports_the_update node_wording _ (answering (VObj [])) up
                  arguments "Item" "ITEM-001"
                  eq_refl eq_refl eq_refl Hdoctype Hname eq_refl)).
Defined.

Lemma create_document_reports_the_document_witness :
  let arguments := VObj [("doctype", VStr "Item"); ("data", VObj [("qty", VNum 4)])] in
  authenticated (erpnext up) = true
  /\ ToString (get_opt arguments "doctype") = Normal "Item"
  /\ "Item" <> ""
  /\ truthy (get_opt arguments "data") = true
  /\ result (run (answering (VObj [])) (CallTool node_wording "create_document" arguments) up)
     = Normal {| text := VStr "Failed to create Item: Cannot read properties of undefined (reading 'name')";
                 isError := true |}.
Proof.
  intros arguments.
  assert (Hdoctype : "Item" <> "") by discriminate.
  split; [reflexivity | split; [reflexivity | split; [exact Hdoctype | ]]].
  split; [reflexivity | ].
  exact (proj2 (@create_document_reports_the_document node_wording _ (answering (VObj [])) up
                  arguments "Item" eq_refl eq_refl Hdoctype eq_refl)).
Defined.

Lemma get_doctypes_always_answers_witness :
  authenticated (erpnext up) = true
  /\ exists items,
       result (run unreachable (getAllDocTypes node_wording) up) = Normal (VArr items)
       /\ result (run unreachable (CallTool node_wording "get_doctypes" VUndefined) up)
          = Normal {| text := JSON_stringify_2 (VArr items); isError := false |}.
Proof.
  split; [reflexivity | ].
  exact (proj2 (@get_doctypes_always_answers node_wording _ unreachable up VUndefined
                  eq_refl)).
Defined.

Lemma tool_calls_throw_protocol_errors_only_witness :
  let arguments := VObj [("doctype", VObj [("toString", VNum 1)])] in
  result (run unreachable (CallTool node_wording "get_documents" arguments) up)
  = Thrown (Runtime NoPrimitive)
  /\ conversion_fault arguments (Runtime NoPrimitive).
Proof.
  intros arguments. split; [reflexivity | ].
  destruct (@tool_calls_throw_protocol_errors_only node_wording _ unreachable
              "get_documents" arguments up (Runtime NoPrimitive) eq_refl)
    as [(m & H) | [(H & _) | (_ & H)]]; [discriminate H | discriminate H | exact H].
Defined.

Lemma announced_tools_are_the_handled_ones_witness :
  ~ In "delete_document" (map fst tools)
  /\ run unreachable (CallTool node_wording "delete_document" (VObj [])) locked
     = {| result := Thrown (McpError MethodNotFound "Unknown tool: delete_document");
          trace := []; final := locked |}.
Proof.
  assert (H : ~ In "delete_document" (map fst tools)).
  { simpl. intros [E | [E | [E | [E | [E | [E | []]]]]]]; discriminate E. }
  split; [exact H | ].
  exact (proj2 (@announced_tools_are_the_handled_ones node_wording _ unreachable
                  "delete_document" (VObj []) locked) H).
Defined.

Lemma doctype_check_fires_on_the_empty_string_witness :
  authenticated (erpnext up) = true
  /\ ToString (get_opt (VObj [("doctype", VArr [])]) "doctype") = Normal ""
  /\ run unreachable (CallTool node_wording "get_documents" (VObj [("doctype", VArr [])])) up
     = {| result := Thrown (McpError InvalidParams "Doctype is required");
          trace := []; final := up |}.
Proof.
  split; [reflexivity | split; [reflexivity | ]].
  exact (proj2 (proj1 (@doctype_check_fires_on_the_empty_string node_wording _ unreachable up
                         (VObj [("doctype", VArr [])]) eq_refl))
           eq_refl).
Defined.

Lemma get_doctype_fields_reports_failures_witness :
  let arguments := VObj [("doctype", VStr "Item")] in
  let body := VObj [("data", VArr [VNull])] in
  authenticated (erpnext up) = true
  /\ ToString (get_opt arguments "doctype") = Normal "Item"
  /\ "Item" <> ""
  /\ result (run (answering body)
               (perform node_wording
                  (getDocList_call "Item" (VObj []) (VArr [VStr "*"]) (VNum 1))) up)
     = Normal (VArr [VNull])
  /\ no_documents (VArr [VNull]) = false
  /\ nullish (member (VArr [VNull]) "0") = true
  /\ result (run (answering body) (CallTool node_wording "get_doctype_fields" arguments) up)
     = Normal {| text := VStr "Failed to get fields for Item: Cannot convert undefined or null to object";
                 isError := true |}.
Proof.
  intros arguments body.
  assert (Hdoctype : "Item" <> "") by discriminate.
  split; [reflexivity | split; [reflexivity | split; [exact Hdoctype | ]]].
  split; [reflexivity | split; [reflexivity | split; [reflexivity | ]]].
  destruct (@get_doctype_fields_reports_failures node_wording _ (answering body) up
              arguments "Item" eq_refl eq_refl Hdoctype) as (_ & _ & Hfirst).
  exact (Hfirst (VArr [VNull]) eq_refl eq_refl eq_refl).
Defined.

Lemma samples_are_short_witness :
  sample_of (VStr (times 30 e_acute)) = Normal (VStr (times 30 e_acute))
  /\ String.length (times 30 e_acute) = 60
  /\ List.length (code_units (times 30 e_acute)) <= 50.
Proof.
  split; [reflexivity | split; [reflexivity | ]].
  destruct (@samples_are_short (VStr (times 30 e_acute)) (VStr (times 30 e_acute)) eq_refl)
    as [H | (s & t & Hs & _ & _ & Hcount & _)]; [discriminate H | ].
  injection Hs as <-. exact Hcount.
Defined.

(** When the fiftieth code unit is the first half of a pair, the sample ends
    in that half, and the JSON text shows it as an escape. *)
Example sample_cut_inside_a_pair :
  sample_of (VStr (times 49 "a" ++ grinning ++ "b"))
  = Normal (VStr (times 49 "a" ++ high grinning))
  /\ JSON_stringify (VStr (high grinning))
     = VStr (String (ascii_of_N 34) ("\ud83d" ++ String (ascii_of_N 34) ""))
  /\ JSON_stringify (VStr grinning)
     = VStr (String (ascii_of_N 34) (grinning ++ String (ascii_of_N 34) "")).
Proof. split; [reflexivity | split; reflexivity]. Qed.

(* ------------------------------------------------------------------ *)
(** ** Resource reads on the bench *)

Lemma failed_reads_are_invalid_requests_witness :
  authenticated (erpnext up) = true
  /\ match_document "erpnext://Item/ITEM-001" = Some ("Item", "ITEM-001")
  /\ decodeURIComponent "Item" = Normal "Item"
  /\ decodeURIComponent "ITEM-001" = Normal "ITEM-001"
  /\ result (run unreachable (perform node_wording (getDocument_call "Item" "ITEM-001")) up)
     = Thrown (Error "Failed to get Item ITEM-001: connect ECONNREFUSED")
  /\ result (run unreachable (ReadResource node_wording "erpnext://Item/ITEM-001") up)
     = Thrown (McpError InvalidRequest
                 "Failed to fetch Item ITEM-001: Failed to get Item ITEM-001: connect ECONNREFUSED").
Proof.
  split; [reflexivity | split; [reflexivity | split; [reflexivity | ]]].
  split; [reflexivity | split; [reflexivity | ]].
  exact (proj1 (@failed_reads_are_invalid_requests node_wording _ unreachable up
                  "erpnext://Item/ITEM-001" "Item" "ITEM-001" "Item" "ITEM-001"
                  (Error "Failed to get Item ITEM-001: connect ECONNREFUSED")
                  eq_refl eq_refl eq_refl eq_refl eq_refl)).
Defined.

Lemma plain_uris_are_dispatched_as_written_witness :
  authenticated (erpnext up) = true
  /\ ("Sales Order" <> "" /\ has_slash "Sales Order" = false
      /\ has_percent "Sales Order" = false)
  /\ ("SO/0001" <> "" /\ has_line_terminator "SO/0001" = false
      /\ has_percent "SO/0001" = false)
  /\ calls (trace (run (answering one_item)
                     (ReadResource node_wording "erpnext://Sales Order/SO/0001") up))
     = [getDocument_call "Sales Order" "SO/0001"].
Proof.
  assert (Hdoctype : "Sales Order" <> "") by discriminate.
  assert (Hname : "SO/0001" <> "") by discriminate.
  split; [reflexivity | ].
  split; [split; [exact Hdoctype | split; reflexivity] | ].
  split; [split; [exact Hname | split; reflexivity] | ].
  exact (proj1 (@plain_uris_are_dispatched_as_written node_wording _ (answering one_item) up
                  "Sales Order" "SO/0001"
                  eq_refl Hdoctype eq_refl eq_refl Hname eq_refl eq_refl)).
Defined.

Lemma dangling_percent_is_a_URI_error_witness :
  authenticated (erpnext up) = true
  /\ match_document "erpnext://Item/50%" = Some ("Item", "50%")
  /\ run (answering one_item) (ReadResource node_wording "erpnext://Item/50%") up
     = {| result := Thrown (Runtime MalformedURI); trace := []; final := up |}.
Proof.
  split; [reflexivity | split; [reflexivity | ]].
  exact (@dangling_percent_is_a_URI_error node_wording _ (answering one_item) up
           "erpnext://Item/50%" "Item" "50%" "50" eq_refl eq_refl eq_refl).
Defined.

Lemma document_uris_are_cut_at_the_first_slash_witness :
  ("Item" <> "" /\ has_slash "Item" = false)
  /\ ("a/b" <> "" /\ has_line_terminator "a/b" = false)
  /\ match_document "erpnext://Item/a/b" = Some ("Item", "a/b").
Proof.
  assert (Hdoctype : "Item" <> "") by discriminate.
  assert (Hname : "a/b" <> "") by discriminate.
  split; [split; [exact Hdoctype | reflexivity] | ].
  split; [split; [exact Hname | reflexivity] | ].
  exact (proj2 (proj1 (document_uris_are_cut_at_the_first_slash
                         "erpnext://Item/a/b" "Item" "a/b"))
           (conj eq_refl (conj Hdoctype (conj eq_refl (conj Hname eq_refl))))).
Defined.

Lemma handlers_send_through_the_client_witness :
  let arguments := VObj [("doctype", VStr "Item"); ("data", VObj [("qty", VNum 4)])] in
  let r := request_of (erpnext up) (createDocument_call "Item" (VObj [("qty", VNum 4)])) in
  In r (requests (trace (run unreachable (CallTool node_wording "create_document" arguments)
                           up)))
  /\ via r = axiosInstance (erpnext up)
  /\ prefix "/api/" (url r) = true
  /\ method r = POST.
Proof.
  intros arguments r.
  assert (H : In r (requests (trace (run unreachable
                                       (CallTool node_wording "create_document" arguments)
                                       up))))
    by (left; reflexivity).
  split; [exact H | ].
  exact (proj1 (@handlers_send_through_the_client node_wording _ unreachable up
                  "create_document" "erpnext://DocTypes" arguments r) H).
Defined.

(* ------------------------------------------------------------------ *)
(** ** The constructor on the bench *)

Lemma constructor_needs_a_url_witness :
  let env := env_of [("ERPNEXT_API_KEY", "key"); ("ERPNEXT_API_SECRET", "secret")] in
  env "ERPNEXT_URL" = None
  /\ result (run unreachable (constructor env) {| erpnext := fresh; backend := tt |})
     = Thrown (Error "ERPNEXT_URL environment variable is required")
  /\ authenticated (erpnext (started unreachable env tt)) = false.
Proof.
  intros env. split; [reflexivity | ].
  destruct (@constructor_needs_a_url _ unreachable env tt (or_introl eq_refl))
    as (Hresult & _ & Hflag).
  split; [exact Hresult | exact Hflag].
Defined.

Lemma stored_url_drops_one_slash_at_most_witness :
  let env := env_of [("ERPNEXT_URL", "http://erp.test//")] in
  env "ERPNEXT_URL" = Some "http://erp.test//"
  /\ "http://erp.test//" <> ""
  /\ ends_with_slash "http://erp.test//" = true
  /\ baseUrl (erpnext (started unreachable env tt)) ++ "/" = "http://erp.test//".
Proof.
  intros env.
  assert (Hne : "http://erp.test//" <> "") by discriminate.
  split; [reflexivity | split; [exact Hne | split; [reflexivity | ]]].
  destruct (@stored_url_drops_one_slash_at_most _ unreachable env "http://erp.test//" tt
              eq_refl Hne) as (_ & _ & _ & _ & Hslash).
  exact (Hslash eq_refl).
Defined.

Lemma credentials_travel_with_every_request_witness :
  result (run unreachable (constructor with_credentials) {| erpnext := fresh; backend := tt |})
  = Normal tt
  /\ headers (axiosInstance (erpnext up))
     = [("Content-Type", "application/json"); ("Accept", "application/json");
        ("Authorization", "token key:secret")]
  /\ headers (axiosInstance (erpnext locked))
     = [("Content-Type", "application/json"); ("Accept", "application/json")].
Proof.
  split; [reflexivity | split].
  - exact (proj1 (@credentials_travel_with_every_request node_wording _ unreachable
                    with_credentials tt eq_refl)).
  - exact (proj1 (@credentials_travel_with_every_request node_wording _ unreachable
                    without_credentials tt eq_refl)).
Defined.

Lemma getAllDocTypes_logs_each_failure_witness :
  let reason := VObj [("code", VStr "ETIMEDOUT")] in
  truthy (get_opt reason "message") = false
  /\ message_or_unknown node_wording (Rejection reason) = VStr "Unknown error"
  /\ trace (run (rejecting reason) (getAllDocTypes node_wording) up)
     = [Called getAllDocTypes_call;
        Sent (primary_request (erpnext up));
        Logged [VStr "Failed to get DocTypes:"; VStr "Unknown error"];
        Sent (alternate_request (erpnext up));
        Logged [VStr "Alternative DocType fetch failed:"; VStr "Unknown error"]].
Proof.
  intros reason. split; [reflexivity | ].
  destruct (@getAllDocTypes_logs_each_failure node_wording _ (rejecting reason) up)
    as (Htrace & Hunknown & _).
  split; [exact (Hunknown reason eq_refl) | exact Htrace].
Defined.

Lemma listed_resources_are_readable_witness :
  authenticated (erpnext up) = true
  /\ authenticated (erpnext locked) = false
  /\ (exists t,
        result (run unreachable (ReadResource node_wording "erpnext://DocTypes") up)
        = Normal {| uri := "erpnext://DocTypes"; mimeType := "application/json";
                    resource_text := t |})
  /\ run unreachable (ReadResource node_wording "erpnext://DocTypes") locked
     = {| result := Thrown (McpError InvalidRequest not_authenticated);
          trace := []; final := locked |}.
Proof.
  split; [reflexivity | split; [reflexivity | split]].
  - destruct (@listed_resources_are_readable node_wording _ unreachable up)
      as (resources & templates & Hlist & _ & _ & Hread).
    injection Hlist as <-. exact (Hread _ (or_introl eq_refl)).
  - destruct (@listed_resources_are_readable node_wording _ unreachable locked)
      as (resources & templates & Hlist & _ & _ & Hread).
    injection Hlist as <-. exact (Hread _ (or_introl eq_refl)).
Defined.
